(** * ABCU Advising Assistant: the course table of the three enhancements

    A shallow embedding of [artifacts/enhancement{1,2,3}/AdvisingAssistant.cpp]:
    the [Course] class, the [HashTable] class of each enhancement (an
    [unordered_map] in enhancement 1, hand-written chained buckets in
    enhancements 2 and 3) and the properties of loading, lookup and sorted
    listing.

    Conventions of the embedding.
    - A C++ exception is a value of [exception]; a member function that can
      throw returns an [outcome].  A non-const member function also returns
      the object's state at the moment it returns or throws.
    - [std::string] is [string] (a sequence of bytes), [vector<string>] is
      [list string], [unsigned int] is a [Z] reduced modulo [2^32].
    - The linked list hanging off a bucket is the [list Course] of the courses
      of its nodes, head first; [nullptr] is [[]].  Heap allocation and
      deallocation of nodes are not represented. *)

From Stdlib Require Import ZArith String Ascii Lia.
From stdpp Require Import base list strings gmap sorting pretty.

Local Open Scope Z_scope.

(** ** Exceptions

    Every failure the sources raise is a [runtime_error]; the message tells
    them apart.  One constructor per message.  The one exception the sources
    do not raise themselves is the [logic_error] with which the library's
    [std::string] constructor answers a null pointer; its message is the
    library's. *)

Inductive exception : Type :=
| InvalidCourseData                       (* Course::validate *)
| MalformedLine                           (* parseCourse *)
| CouldNotOpenFile (filename : string)    (* loadData, enhancements 1 and 2 *)
| ErrorOnLine (lineNum : nat) (e : exception)
| CouldNotOpenDatabase                    (* loadData, enhancement 3 *)
| FailedToQueryDatabase
| NoDataLoaded                            (* getCourse, getSortedCourseCodes *)
| CourseNotFound                          (* getCourse *)
| StringFromNull (message : string).      (* std::string from a null pointer *)

(** [e.what()] *)
Fixpoint what (e : exception) : string :=
  match e with
  | InvalidCourseData => "Invalid Course Data: Code or Title is missing."
  | MalformedLine => "Malformed line in file."
  | CouldNotOpenFile filename => "Could not open file: " +:+ filename
  | ErrorOnLine lineNum e => "Error on line " +:+ pretty lineNum +:+ ": " +:+ what e
  | CouldNotOpenDatabase => "Could not open database: ABCU.db"
  | FailedToQueryDatabase => "Failed to query database."
  | NoDataLoaded => "No data loaded."
  | CourseNotFound => "Course not found."
  | StringFromNull message => message
  end.

(** The three kinds of failure the design distinguishes. *)
Definition ValidationError (e : exception) : Prop := e = InvalidCourseData.
Definition StateError (e : exception) : Prop := e = NoDataLoaded.
Definition NotFoundError (e : exception) : Prop := e = CourseNotFound.

#[global] Instance exception_eq_dec : EqDecision exception.
Proof. solve_decision. Defined.

Inductive outcome (A : Type) : Type :=
| returned (a : A)
| thrown (e : exception).
Arguments returned {A} a.
Arguments thrown {A} e.

#[global] Instance outcome_eq_dec `{EqDecision A} : EqDecision (outcome A).
Proof. solve_decision. Defined.

(** ** Course *)

Record Course : Type := mkCourse {
  code : string;
  title : string;
  prerequisites : list string
}.

#[global] Instance Course_eq_dec : EqDecision Course.
Proof. solve_decision. Defined.

(** [Course() {}]: the default constructor, no validation. *)
Definition Course_default : Course := mkCourse "" "" [].

(** [void validate() const] *)
Definition validate (c : Course) : outcome unit :=
  if bool_decide (code c = "") || bool_decide (title c = "")
  then thrown InvalidCourseData
  else returned tt.

(** [Course(string c, string t, vector<string> p)]: initialises the three
    members, then validates. *)
Definition Course_new (c t : string) (p : list string) : outcome Course :=
  let this := mkCourse c t p in
  match validate this with
  | thrown e => thrown e
  | returned _ => returned this
  end.

Definition getCode (c : Course) : string := code c.
Definition getTitle (c : Course) : string := title c.
Definition getPrereqs (c : Course) : list string := prerequisites c.

(** ** Strings *)

(** [::toupper] in the default "C" locale: the 26 lower-case letters are
    mapped, every other byte is returned unchanged. *)
Definition toupper (c : ascii) : ascii :=
  let n := N_of_ascii c in
  if ((97 <=? n) && (n <=? 122))%N then ascii_of_N (n - 32) else c.

(** [string toUpper(const string& str) const]: [transform] with [::toupper]. *)
Fixpoint toUpper (str : string) : string :=
  match str with
  | EmptyString => EmptyString
  | String ch rest => String (toupper ch) (toUpper rest)
  end.

(** A stream being read: the characters not yet extracted, or [None] once
    the end of the stream has been hit ([eofbit]). *)
Definition istream : Type := option string.

(** The characters one [getline] extracts from a non-empty rest, and the
    stream it leaves: it extracts up to and including the next delimiter,
    which it discards, or up to the end of the stream. *)
Fixpoint extract (delim : ascii) (s : string) : string * istream :=
  match s with
  | EmptyString => (EmptyString, None)
  | String ch rest =>
      if Ascii.eqb ch delim then (EmptyString, Some rest)
      else let '(tok, stream) := extract delim rest in (String ch tok, stream)
  end.

(** One call [getline(stream, x, delim)]; [None] when the call fails: the
    stream is at its end and nothing, not even a delimiter, is extracted. *)
Definition getline (delim : ascii) (stream : istream)
  : option (string * istream) :=
  match stream with
  | None | Some EmptyString => None
  | Some s => Some (extract delim s)
  end.

(** The values a loop [while (getline(stream, x, delim))] sees on a stream
    holding [s]: those of the successive calls up to the first that fails.
    A final empty field is not produced. *)
Fixpoint getline_all (delim : ascii) (s : string) : list string :=
  match s with
  | EmptyString => []
  | String ch rest =>
      if Ascii.eqb ch delim then EmptyString :: getline_all delim rest
      else match getline_all delim rest with
           | [] => [String ch EmptyString]
           | tok :: toks => String ch tok :: toks
           end
  end.

(** The same loop on a stream that has been read from already. *)
Definition remaining_fields (delim : ascii) (stream : istream) : list string :=
  match stream with
  | None => []
  | Some s => getline_all delim s
  end.

(** [if (!p.empty()) prereqs.push_back(p)] over the fields of the loop. *)
Definition nonempty_fields (fields : list string) : list string :=
  filter (λ p, p ≠ "") fields.

(** [Course parseCourse(const string& line)] (identical in enhancements 1
    and 2): code and title are read with one [getline] each, a failure of
    either is a malformed line; the remaining non-empty fields are the
    prerequisites. *)
Definition parseCourse (line : string) : outcome Course :=
  let ss : istream := Some line in
  match getline "," ss with
  | None => thrown MalformedLine
  | Some (code, ss) =>
      match getline "," ss with
      | None => thrown MalformedLine
      | Some (title, ss) =>
          Course_new code title (nonempty_fields (remaining_fields "," ss))
      end
  end.

(** [getline(stream, x)] as a statement: the value of [x] after the call and
    the stream it leaves.  On a stream that has hit its end before, the call
    fails without touching [x]; on one with nothing left, [x] is emptied and
    the call fails; otherwise [x] receives the next line. *)
Definition getline_into (stream : istream) (x : string) : string * istream :=
  match stream with
  | None => (x, None)
  | Some EmptyString => (EmptyString, None)
  | Some s => extract "010" s
  end.

(** The character [endl] (and ["\n"]) writes. *)
Definition endl : string := String "010" EmptyString.

(** [sort(courseOrder.begin(), courseOrder.end())]: [operator<] on
    [std::string] is the lexicographic order on bytes compared as unsigned
    values, a total order, so the result is the one ascending arrangement of
    the elements, whatever algorithm [std::sort] uses. *)
Definition sort (v : list string) : list string := merge_sort String.le v.

(** The file system as [ifstream] sees it: [None] when the file cannot be
    opened, otherwise its contents. *)
Definition filesystem : Type := string → option string.

(** The lines [while (getline(file, line))] iterates over. *)
Definition file_lines (contents : string) : list string :=
  getline_all "010" contents.

(** ** Platform

    Whether plain [char] is signed is implementation-defined; it decides the
    value a byte above 127 contributes to the hash.  The text of the
    [logic_error] that [std::string] throws when it is built from a null
    pointer is the library's own. *)
Class Platform : Type := {
  char_is_signed : bool;
  null_string_what : string
}.

Definition signed_char_platform : Platform :=
  {| char_is_signed := true;
     null_string_what := "basic_string: construction from null is not valid" |}.
Definition unsigned_char_platform : Platform :=
  {| char_is_signed := false;
     null_string_what := "basic_string: construction from null is not valid" |}.

(** The value of a [char] after integral promotion. *)
Definition char_value `{Platform} (ch : ascii) : Z :=
  let n := Z.of_N (N_of_ascii ch) in
  if char_is_signed && (128 <=? n) then n - 256 else n.

(** [unsigned int] arithmetic is modulo [2^32]. *)
Definition UINT_MODULUS : Z := 2 ^ 32.

(** [const int HASH_TABLE_SIZE = 17;] *)
Definition HASH_TABLE_SIZE : Z := 17.

(** The number of elements of [Node* table[HASH_TABLE_SIZE]]. *)
Definition BUCKETS : nat := 17.

(** The subscript [table[index]] for an [unsigned int index].  The sources
    only ever subscript with a value reduced modulo [HASH_TABLE_SIZE]; an
    index past the end, which the sources never form, is clamped. *)
Fixpoint fin_of_nat (m n : nat) : fin (S m) :=
  match n, m with
  | O, _ => 0%fin
  | S n', S m' => FS (fin_of_nat m' n')
  | S _, O => 0%fin
  end.

Definition slot (index : Z) : fin BUCKETS := fin_of_nat 16 (Z.to_nat index).

(** ** Enhancement 2: hand-written chained hash table, loaded from CSV *)

Module E2.

(** The data members of [class HashTable]. *)
Record HashTable : Type := mkHashTable {
  table : vec (list Course) BUCKETS;
  courseOrder : list string;
  dataLoaded : bool
}.

(** [HashTable()]: every bucket is [nullptr]; [courseOrder] is empty and
    [dataLoaded] is [false] by their initialisers. *)
Definition HashTable_new : HashTable :=
  mkHashTable (vreplicate BUCKETS []) [] false.

(** How a pass through the loop body of [main] ends. *)
Inductive flow : Type := next_iteration | leave_loop.

(** The locals of [main] and the standard input. *)
Record session : Type := mkSession {
  hashTable : HashTable;
  userInput : string;
  cin : istream
}.

Section Enhancement2.
Context `{Platform}.

(** The loop [for (char ch : key) hashVal = hashVal * 31 + ch;] *)
Fixpoint hash_loop (hashVal : Z) (key : string) : Z :=
  match key with
  | EmptyString => hashVal
  | String ch rest =>
      hash_loop ((hashVal * 31 + char_value ch) mod UINT_MODULUS) rest
  end.

(** [unsigned int hash(const string& key) const] *)
Definition hash (key : string) : Z :=
  hash_loop 0 key mod HASH_TABLE_SIZE.

(** Walk to the last node of a chain and hang the new node behind it; an
    empty chain becomes the new node. *)
Fixpoint append_node (curr : list Course) (newNode : Course) : list Course :=
  match curr with
  | [] => [newNode]
  | c :: next => c :: append_node next newNode
  end.

(** [void insert(Course course)] *)
Definition insert (this : HashTable) (course : Course) : HashTable :=
  let key := toUpper (getCode course) in
  let index := hash key in
  mkHashTable
    (vinsert (slot index) (append_node (table this !!! slot index) course)
             (table this))
    (courseOrder this ++ [key])
    (dataLoaded this).

(** The body of [while (getline(file, line))]: [lineNum] counts the lines
    read so far; a failure of [parseCourse] is rethrown with the line number
    and ends the loop with the state as it is. *)
Fixpoint load_lines (lineNum : nat) (lines : list string) (this : HashTable)
  : outcome unit * HashTable :=
  match lines with
  | [] => (returned tt, this)
  | line :: rest =>
      let lineNum := S lineNum in
      match parseCourse line with
      | thrown e => (thrown (ErrorOnLine lineNum e), this)
      | returned course => load_lines lineNum rest (insert this course)
      end
  end.

(** [void loadData(const string& filename)] *)
Definition loadData (fs : filesystem) (filename : string) (this : HashTable)
  : outcome unit * HashTable :=
  match fs filename with
  | None => (thrown (CouldNotOpenFile filename), this)
  | Some contents =>
      let reset := mkHashTable (vreplicate BUCKETS []) [] (dataLoaded this) in
      match load_lines 0 (file_lines contents) reset with
      | (thrown e, this) => (thrown e, this)
      | (returned _, this) =>
          (returned tt, mkHashTable (table this) (courseOrder this) true)
      end
  end.

(** The scan [while (curr != nullptr)] of [getCourse]. *)
Fixpoint find_in_chain (curr : list Course) (key : string) : outcome Course :=
  match curr with
  | [] => thrown CourseNotFound
  | course :: next =>
      if bool_decide (toUpper (getCode course) = key) then returned course
      else find_in_chain next key
  end.

(** [Course getCourse(string code) const] *)
Definition getCourse (this : HashTable) (code : string) : outcome Course :=
  if negb (dataLoaded this) then thrown NoDataLoaded
  else
    let key := toUpper code in
    let index := hash key in
    find_in_chain (table this !!! slot index) key.

(** [vector<string> getSortedCourseCodes()]: sorts the member in place and
    returns a copy of it. *)
Definition getSortedCourseCodes (this : HashTable)
  : outcome (list string) * HashTable :=
  if negb (dataLoaded this) then (thrown NoDataLoaded, this)
  else
    let sorted := sort (courseOrder this) in
    (returned sorted, mkHashTable (table this) sorted (dataLoaded this)).

(** [void displayMenu()]: the text it writes. *)
Definition displayMenu : string :=
  "=============================
ABCU Advising Assistant (Enhancement 2)
1. Load Data Structure
2. Print Course List
3. Print Course
4. Enter Custom File Name
9. Exit
=============================
Selection: ".

(** The loop [for (const auto& c : codes)] of selection 2: the text written,
    and the exception that ended the loop early, if any. *)
Fixpoint print_course_list (this : HashTable) (codes : list string)
  : string * option exception :=
  match codes with
  | [] => (EmptyString, None)
  | c :: rest =>
      match getCourse this c with
      | thrown e => (EmptyString, Some e)
      | returned course =>
          let '(out, e) := print_course_list this rest in
          (getCode course +:+ ": " +:+ getTitle course +:+ endl +:+ out, e)
      end
  end.

(** The loop over the prerequisites of selection 3: each one is followed by
    [", "] unless it is the last. *)
Fixpoint print_prereqs (prereqs : list string) : string :=
  match prereqs with
  | [] => EmptyString
  | p :: rest =>
      p +:+ match rest with [] => EmptyString | _ => ", " end
        +:+ print_prereqs rest
  end.

(** The [try] block of the loop body, entered with the selection in
    [userInput]: what it writes, how it ends, and the locals it leaves. *)
Definition try_block (fs : filesystem) (s : session)
  : string * outcome flow * session :=
  let choice := userInput s in
  if bool_decide (choice = "1") || bool_decide (choice = "4") then
    let filename :=
      if bool_decide (choice = "1") then "Program_Input.csv" else EmptyString in
    let '(prompt, filename, input) :=
      if bool_decide (choice = "4")
      then let '(line, input) := getline_into (cin s) filename in
           ("Enter filename: ", line, input)
      else (EmptyString, filename, cin s) in
    match loadData fs filename (hashTable s) with
    | (thrown e, t) => (prompt, thrown e, mkSession t choice input)
    | (returned _, t) =>
        (prompt +:+ "Success: Data loaded from " +:+ filename +:+ endl,
         returned next_iteration, mkSession t choice input)
    end
  else if bool_decide (choice = "2") then
    match getSortedCourseCodes (hashTable s) with
    | (thrown e, t) => (EmptyString, thrown e, mkSession t choice (cin s))
    | (returned codes, t) =>
        let '(out, e) := print_course_list t codes in
        (out,
         match e with Some e => thrown e | None => returned next_iteration end,
         mkSession t choice (cin s))
    end
  else if bool_decide (choice = "3") then
    let '(code, input) := getline_into (cin s) choice in
    let s := mkSession (hashTable s) code input in
    match getCourse (hashTable s) code with
    | thrown e => ("What course code? ", thrown e, s)
    | returned course =>
        ("What course code? "
           +:+ getCode course +:+ ", " +:+ getTitle course +:+ endl
           +:+ "Prerequisites: "
           +:+ match getPrereqs course with
               | [] => "None"
               | prereqs => print_prereqs prereqs
               end
           +:+ endl,
         returned next_iteration, s)
    end
  else if bool_decide (choice = "9") then
    (EmptyString, returned leave_loop, s)
  else
    ("Invalid selection." +:+ endl, returned next_iteration, s).

(** One pass through the body of [while (true)]: the menu, the selection
    read from [cin], the [try] block with its [catch], and the final
    [cout << endl], which [break] skips. *)
Definition iteration (fs : filesystem) (s : session) : string * flow * session :=
  let '(choice, input) := getline_into (cin s) (userInput s) in
  let '(out, result, s) := try_block fs (mkSession (hashTable s) choice input) in
  match result with
  | returned leave_loop => (displayMenu +:+ out, leave_loop, s)
  | returned next_iteration => (displayMenu +:+ out +:+ endl, next_iteration, s)
  | thrown e =>
      (displayMenu +:+ out +:+ "SYSTEM ERROR: " +:+ what e +:+ endl +:+ endl,
       next_iteration, s)
  end.

(** The loop of [main], cut off after [fuel] passes: everything written up
    to the return of [main], or [None] when the loop is still running. *)
Fixpoint run (fuel : nat) (fs : filesystem) (s : session) : option string :=
  match fuel with
  | O => None
  | S fuel =>
      let '(out, f, s) := iteration fs s in
      match f with
      | leave_loop => Some (out +:+ "Goodbye." +:+ endl)
      | next_iteration =>
          match run fuel fs s with
          | Some rest => Some (out +:+ rest)
          | None => None
          end
      end
  end.

(** [int main()] on the standard input [stdin]. *)
Definition main (fuel : nat) (fs : filesystem) (stdin : string) : option string :=
  run fuel fs (mkSession HashTable_new EmptyString (Some stdin)).

End Enhancement2.
End E2.

(** ** Enhancement 3: the same chained table, loaded from SQLite *)

(** What [sqlite3_column_text] returns for a column of the current row: a
    null pointer when the value is SQL NULL, otherwise a pointer to the bytes
    of the value as text, which SQLite ends with a zero byte. *)
Definition column : Type := option string.

(** The characters a [const char*] stands for: those before the first zero
    byte. *)
Fixpoint c_str (bytes : string) : string :=
  match bytes with
  | EmptyString => EmptyString
  | String ch rest =>
      if Ascii.eqb ch "000" then EmptyString else String ch (c_str rest)
  end.

(** What the SQLite calls of [loadData] deliver: the connection cannot be
    opened, the [SELECT] cannot be prepared, or [sqlite3_step] answers
    [SQLITE_ROW] once for each of [rows], with the columns [code], [title]
    and [prerequisites] of the row, and then something else. *)
Inductive database : Type :=
| cannot_open
| cannot_prepare
| result_rows (rows : list (column * column * column)).

Module E3.

(** [class HashTable] has the data members of enhancement 2. *)
Abbreviation HashTable := E2.HashTable.
Abbreviation mkHashTable := E2.mkHashTable.
Abbreviation table := E2.table.
Abbreviation courseOrder := E2.courseOrder.
Abbreviation dataLoaded := E2.dataLoaded.

(** The locals of [main] are those of enhancement 2. *)
Abbreviation session := E2.session.
Abbreviation mkSession := E2.mkSession.
Abbreviation hashTable := E2.hashTable.
Abbreviation userInput := E2.userInput.
Abbreviation cin := E2.cin.
Abbreviation flow := E2.flow.
Abbreviation next_iteration := E2.next_iteration.
Abbreviation leave_loop := E2.leave_loop.

(** [HashTable()] *)
Definition HashTable_new : HashTable :=
  mkHashTable (vreplicate BUCKETS []) [] false.

(** [void clearTable()]: deletes the nodes of every chain and sets every
    bucket to [nullptr]; no other member is assigned. *)
Definition clearTable (this : HashTable) : HashTable :=
  mkHashTable (vreplicate BUCKETS []) (courseOrder this) (dataLoaded this).

Section Enhancement3.
Context `{Platform}.

Fixpoint hash_loop (hashVal : Z) (key : string) : Z :=
  match key with
  | EmptyString => hashVal
  | String ch rest =>
      hash_loop ((hashVal * 31 + char_value ch) mod UINT_MODULUS) rest
  end.

(** [unsigned int hash(const string& key) const] *)
Definition hash (key : string) : Z :=
  hash_loop 0 key mod HASH_TABLE_SIZE.

Fixpoint append_node (curr : list Course) (newNode : Course) : list Course :=
  match curr with
  | [] => [newNode]
  | c :: next => c :: append_node next newNode
  end.

(** [void insert(Course course)] *)
Definition insert (this : HashTable) (course : Course) : HashTable :=
  let key := toUpper (getCode course) in
  let index := hash key in
  mkHashTable
    (vinsert (slot index) (append_node (table this !!! slot index) course)
             (table this))
    (courseOrder this ++ [key])
    (dataLoaded this).

(** The initialisation of a [string] from [sqlite3_column_text(stmt, i)],
    cast to a pointer to [const char]: the constructor of [std::string] is
    handed the pointer unchecked; it copies the characters up to the first
    zero byte, and throws [logic_error] when the pointer is null. *)
Definition string_of_column (text : column) : outcome string :=
  match text with
  | None => thrown (StringFromNull null_string_what)
  | Some bytes => returned (c_str bytes)
  end.

(** The body of [while (sqlite3_step(stmt) == SQLITE_ROW)]: the three
    columns are turned into strings, the prerequisite column is split at
    commas, empty pieces dropped; an exception of a [std::string] or of the
    [Course] constructor leaves the loop as it is, without a line number. *)
Fixpoint load_rows (rows : list (column * column * column)) (this : HashTable)
  : outcome unit * HashTable :=
  match rows with
  | [] => (returned tt, this)
  | (text0, text1, text2) :: rest =>
      match string_of_column text0 with
      | thrown e => (thrown e, this)
      | returned code =>
          match string_of_column text1 with
          | thrown e => (thrown e, this)
          | returned title =>
              match string_of_column text2 with
              | thrown e => (thrown e, this)
              | returned pStr =>
                  let prereqs := nonempty_fields (getline_all "," pStr) in
                  match Course_new code title prereqs with
                  | thrown e => (thrown e, this)
                  | returned course => load_rows rest (insert this course)
                  end
              end
          end
      end
  end.

(** [void loadData()] *)
Definition loadData (db : database) (this : HashTable)
  : outcome unit * HashTable :=
  match db with
  | cannot_open => (thrown CouldNotOpenDatabase, this)
  | cannot_prepare =>
      (thrown FailedToQueryDatabase,
       clearTable (mkHashTable (table this) [] (dataLoaded this)))
  | result_rows rows =>
      let cleared :=
        clearTable (mkHashTable (table this) [] (dataLoaded this)) in
      match load_rows rows cleared with
      | (thrown e, this) => (thrown e, this)
      | (returned _, this) =>
          (returned tt, mkHashTable (table this) (courseOrder this) true)
      end
  end.

Fixpoint find_in_chain (curr : list Course) (key : string) : outcome Course :=
  match curr with
  | [] => thrown CourseNotFound
  | course :: next =>
      if bool_decide (toUpper (getCode course) = key) then returned course
      else find_in_chain next key
  end.

(** [Course getCourse(string code) const] *)
Definition getCourse (this : HashTable) (code : string) : outcome Course :=
  if negb (dataLoaded this) then thrown NoDataLoaded
  else
    let key := toUpper code in
    let index := hash key in
    find_in_chain (table this !!! slot index) key.

(** [vector<string> getSortedCourseCodes()] *)
Definition getSortedCourseCodes (this : HashTable)
  : outcome (list string) * HashTable :=
  if negb (dataLoaded this) then (thrown NoDataLoaded, this)
  else
    let sorted := sort (courseOrder this) in
    (returned sorted, mkHashTable (table this) sorted (dataLoaded this)).

(** [void displayMenu()]: the text it writes. *)
Definition displayMenu : string :=
  "=============================
ABCU Advising Assistant (Enhancement 3)
1. Load Data from SQL Database
2. Print Course List
3. Print Course Details
9. Exit
=============================
Selection: ".

(** The loop [for (const auto& c : codes)] of selection 2. *)
Fixpoint print_course_list (this : HashTable) (codes : list string)
  : string * option exception :=
  match codes with
  | [] => (EmptyString, None)
  | c :: rest =>
      match getCourse this c with
      | thrown e => (EmptyString, Some e)
      | returned course =>
          let '(out, e) := print_course_list this rest in
          (getCode course +:+ ": " +:+ getTitle course +:+ endl +:+ out, e)
      end
  end.

(** The loop over the prerequisites of selection 3. *)
Fixpoint print_prereqs (prereqs : list string) : string :=
  match prereqs with
  | [] => EmptyString
  | p :: rest =>
      p +:+ match rest with [] => EmptyString | _ => ", " end
        +:+ print_prereqs rest
  end.

(** The [try] block of the loop body of [main]; [db] is what the database
    delivers to [loadData]. *)
Definition try_block (db : database) (s : session)
  : string * outcome flow * session :=
  let choice := userInput s in
  if bool_decide (choice = "1") then
    match loadData db (hashTable s) with
    | (thrown e, t) => (EmptyString, thrown e, mkSession t choice (cin s))
    | (returned _, t) =>
        ("SUCCESS: Data loaded from ABCU.db" +:+ endl,
         returned next_iteration, mkSession t choice (cin s))
    end
  else if bool_decide (choice = "2") then
    match getSortedCourseCodes (hashTable s) with
    | (thrown e, t) => (EmptyString, thrown e, mkSession t choice (cin s))
    | (returned codes, t) =>
        let '(out, e) := print_course_list t codes in
        (out,
         match e with Some e => thrown e | None => returned next_iteration end,
         mkSession t choice (cin s))
    end
  else if bool_decide (choice = "3") then
    let '(code, input) := getline_into (cin s) choice in
    let s := mkSession (hashTable s) code input in
    match getCourse (hashTable s) code with
    | thrown e => ("What course code? ", thrown e, s)
    | returned course =>
        ("What course code? "
           +:+ endl +:+ getCode course +:+ ": " +:+ getTitle course +:+ endl
           +:+ "Prerequisites: "
           +:+ match getPrereqs course with
               | [] => "None"
               | prereqs => print_prereqs prereqs
               end
           +:+ endl,
         returned next_iteration, s)
    end
  else if bool_decide (choice = "9") then
    (EmptyString, returned leave_loop, s)
  else
    ("Invalid selection." +:+ endl, returned next_iteration, s).

(** One pass through the body of [while (true)]. *)
Definition iteration (db : database) (s : session) : string * flow * session :=
  let '(choice, input) := getline_into (cin s) (userInput s) in
  let '(out, result, s) := try_block db (mkSession (hashTable s) choice input) in
  match result with
  | returned leave_loop => (displayMenu +:+ out, leave_loop, s)
  | returned next_iteration => (displayMenu +:+ out +:+ endl, next_iteration, s)
  | thrown e =>
      (displayMenu +:+ out +:+ "SYSTEM ERROR: " +:+ what e +:+ endl +:+ endl,
       next_iteration, s)
  end.

(** The loop of [main], cut off after [fuel] passes; [main] writes nothing
    after the loop. *)
Fixpoint run (fuel : nat) (db : database) (s : session) : option string :=
  match fuel with
  | O => None
  | S fuel =>
      let '(out, f, s) := iteration db s in
      match f with
      | leave_loop => Some out
      | next_iteration =>
          match run fuel db s with
          | Some rest => Some (out +:+ rest)
          | None => None
          end
      end
  end.

(** [int main()] on the standard input [stdin]. *)
Definition main (fuel : nat) (db : database) (stdin : string) : option string :=
  run fuel db (mkSession HashTable_new EmptyString (Some stdin)).

End Enhancement3.
End E3.

(** ** Enhancement 1: [unordered_map] keyed by the upper-cased code *)

Module E1.

Record HashTable : Type := mkHashTable {
  courseMap : gmap string Course;
  courseOrder : list string;
  dataLoaded : bool
}.

Definition HashTable_new : HashTable := mkHashTable ∅ [] false.

(** The body of [while (getline(file, line))].  [courseMap[upperCode] = course]
    creates the entry (with a default-constructed [Course]) when the key is
    new and assigns [course] to it in either case. *)
Fixpoint load_lines (lineNum : nat) (lines : list string) (this : HashTable)
  : outcome unit * HashTable :=
  match lines with
  | [] => (returned tt, this)
  | line :: rest =>
      let lineNum := S lineNum in
      match parseCourse line with
      | thrown e => (thrown (ErrorOnLine lineNum e), this)
      | returned course =>
          let upperCode := toUpper (getCode course) in
          load_lines lineNum rest
            (mkHashTable (<[upperCode := course]> (courseMap this))
                         (courseOrder this ++ [upperCode])
                         (dataLoaded this))
      end
  end.

(** [void loadData(const string& filename)] *)
Definition loadData (fs : filesystem) (filename : string) (this : HashTable)
  : outcome unit * HashTable :=
  match fs filename with
  | None => (thrown (CouldNotOpenFile filename), this)
  | Some contents =>
      let cleared := mkHashTable ∅ [] (dataLoaded this) in
      match load_lines 0 (file_lines contents) cleared with
      | (thrown e, this) => (thrown e, this)
      | (returned _, this) =>
          (returned tt, mkHashTable (courseMap this) (courseOrder this) true)
      end
  end.

(** [Course getCourse(string code) const] *)
Definition getCourse (this : HashTable) (code : string) : outcome Course :=
  if negb (dataLoaded this) then thrown NoDataLoaded
  else
    let upperCode := toUpper code in
    match courseMap this !! upperCode with
    | None => thrown CourseNotFound
    | Some course => returned course
    end.

(** [vector<string> getSortedCourseCodes()] *)
Definition getSortedCourseCodes (this : HashTable)
  : outcome (list string) * HashTable :=
  if negb (dataLoaded this) then (thrown NoDataLoaded, this)
  else
    let sorted := sort (courseOrder this) in
    (returned sorted, mkHashTable (courseMap this) sorted (dataLoaded this)).

Abbreviation flow := E2.flow.
Abbreviation next_iteration := E2.next_iteration.
Abbreviation leave_loop := E2.leave_loop.

(** The locals of [main] and the standard input. *)
Record session : Type := mkSession {
  hashTable : HashTable;
  userInput : string;
  cin : istream
}.

(** [void displayMenu()]: the text it writes. *)
Definition displayMenu : string :=
  "=============================
ABCU Advising Assistant (Enhancement 1)
1. Load Data Structure
2. Print Course List
3. Print Course
4. Enter Custom File Name
9. Exit
=============================
Selection: ".

(** The loop [for (const auto& c : codes)] of selection 2. *)
Fixpoint print_course_list (this : HashTable) (codes : list string)
  : string * option exception :=
  match codes with
  | [] => (EmptyString, None)
  | c :: rest =>
      match getCourse this c with
      | thrown e => (EmptyString, Some e)
      | returned course =>
          let '(out, e) := print_course_list this rest in
          (getCode course +:+ ": " +:+ getTitle course +:+ endl +:+ out, e)
      end
  end.

(** The loop over the prerequisites of selection 3. *)
Fixpoint print_prereqs (prereqs : list string) : string :=
  match prereqs with
  | [] => EmptyString
  | p :: rest =>
      p +:+ match rest with [] => EmptyString | _ => ", " end
        +:+ print_prereqs rest
  end.

(** The [try] block of the loop body of [main]. *)
Definition try_block (fs : filesystem) (s : session)
  : string * outcome flow * session :=
  let choice := userInput s in
  if bool_decide (choice = "1") || bool_decide (choice = "4") then
    let filename :=
      if bool_decide (choice = "1") then "Program_Input.csv" else EmptyString in
    let '(prompt, filename, input) :=
      if bool_decide (choice = "4")
      then let '(line, input) := getline_into (cin s) filename in
           ("Enter filename: ", line, input)
      else (EmptyString, filename, cin s) in
    match loadData fs filename (hashTable s) with
    | (thrown e, t) => (prompt, thrown e, mkSession t choice input)
    | (returned _, t) =>
        (prompt +:+ "Success: Data loaded from " +:+ filename +:+ endl,
         returned next_iteration, mkSession t choice input)
    end
  else if bool_decide (choice = "2") then
    match getSortedCourseCodes (hashTable s) with
    | (thrown e, t) => (EmptyString, thrown e, mkSession t choice (cin s))
    | (returned codes, t) =>
        let '(out, e) := print_course_list t codes in
        (out,
         match e with Some e => thrown e | None => returned next_iteration end,
         mkSession t choice (cin s))
    end
  else if bool_decide (choice = "3") then
    let '(code, input) := getline_into (cin s) choice in
    let s := mkSession (hashTable s) code input in
    match getCourse (hashTable s) code with
    | thrown e => ("What course code? ", thrown e, s)
    | returned course =>
        ("What course code? "
           +:+ getCode course +:+ ", " +:+ getTitle course +:+ endl
           +:+ "Prerequisites: "
           +:+ match getPrereqs course with
               | [] => "None"
               | prereqs => print_prereqs prereqs
               end
           +:+ endl,
         returned next_iteration, s)
    end
  else if bool_decide (choice = "9") then
    (EmptyString, returned leave_loop, s)
  else
    ("Invalid selection." +:+ endl, returned next_iteration, s).

(** One pass through the body of [while (true)]. *)
Definition iteration (fs : filesystem) (s : session) : string * flow * session :=
  let '(choice, input) := getline_into (cin s) (userInput s) in
  let '(out, result, s) := try_block fs (mkSession (hashTable s) choice input) in
  match result with
  | returned leave_loop => (displayMenu +:+ out, leave_loop, s)
  | returned next_iteration => (displayMenu +:+ out +:+ endl, next_iteration, s)
  | thrown e =>
      (displayMenu +:+ out +:+ "SYSTEM ERROR: " +:+ what e +:+ endl +:+ endl,
       next_iteration, s)
  end.

(** The loop of [main], cut off after [fuel] passes, followed by the
    farewell. *)
Fixpoint run (fuel : nat) (fs : filesystem) (s : session) : option string :=
  match fuel with
  | O => None
  | S fuel =>
      let '(out, f, s) := iteration fs s in
      match f with
      | leave_loop => Some (out +:+ "Goodbye." +:+ endl)
      | next_iteration =>
          match run fuel fs s with
          | Some rest => Some (out +:+ rest)
          | None => None
          end
      end
  end.

(** [int main()] on the standard input [stdin]. *)
Definition main (fuel : nat) (fs : filesystem) (stdin : string) : option string :=
  run fuel fs (mkSession HashTable_new EmptyString (Some stdin)).

End E1.

(** ** Specification-level definitions *)

(** The canonical (upper-case) code of a record. *)
Definition canonical (r : Course) : string := toUpper (getCode r).

(** The base-31 polynomial of a key: the character at distance [i] from the
    end of the key weighs [31^i]; no reduction. *)
Fixpoint polynomial31 `{Platform} (key : string) : Z :=
  match key with
  | EmptyString => 0
  | String ch rest =>
      char_value ch * 31 ^ Z.of_nat (String.length rest) + polynomial31 rest
  end.

(** The records of the lines read before the first line that fails to
    parse (all of them when none fails). *)
Fixpoint parsed_prefix (lines : list string) : list Course :=
  match lines with
  | [] => []
  | line :: rest =>
      match parseCourse line with
      | returned course => course :: parsed_prefix rest
      | thrown _ => []
      end
  end.

(** The exception of the first line that fails to parse, with its number,
    counting from [lineNum + 1]. *)
Fixpoint first_failure (lineNum : nat) (lines : list string) : option exception :=
  match lines with
  | [] => None
  | line :: rest =>
      match parseCourse line with
      | returned _ => first_failure (S lineNum) rest
      | thrown e => Some (ErrorOnLine (S lineNum) e)
      end
  end.

(** The three statements of enhancement 1's loop body that follow a
    successful [parseCourse]. *)
Definition E1_store (this : E1.HashTable) (course : Course) : E1.HashTable :=
  E1.mkHashTable (<[canonical course := course]> (E1.courseMap this))
                 (E1.courseOrder this ++ [canonical course])
                 (E1.dataLoaded this).

(** The construction enhancement 3 performs on a row: the three columns
    are turned into strings, the prerequisite column is split, then the
    validating constructor runs. *)
Definition row_course `{Platform} (row : column * column * column)
  : outcome Course :=
  let '(text0, text1, text2) := row in
  match E3.string_of_column text0 with
  | thrown e => thrown e
  | returned code =>
      match E3.string_of_column text1 with
      | thrown e => thrown e
      | returned title =>
          match E3.string_of_column text2 with
          | thrown e => thrown e
          | returned pStr =>
              Course_new code title (nonempty_fields (getline_all "," pStr))
          end
      end
  end.

(** What the classes can construct: a [Course] comes from the default
    constructor or from a successful run of the validating one. *)
Inductive constructed : Course → Prop :=
| constructed_default : constructed Course_default
| constructed_validated c t p r :
    Course_new c t p = returned r → constructed r.

(** Whether a character occurs in a string. *)
Fixpoint occurs (ch : ascii) (s : string) : bool :=
  match s with
  | EmptyString => false
  | String c rest => Ascii.eqb c ch || occurs ch rest
  end.

(** A field a CSV line can carry: not empty, no comma. *)
Definition plain_field (s : string) : Prop := s ≠ "" ∧ occurs "," s = false.

(** The fields of a record joined by commas. *)
Fixpoint comma_joined (fields : list string) : string :=
  match fields with
  | [] => EmptyString
  | f :: rest => "," +:+ f +:+ comma_joined rest
  end.

Definition csv_line (r : Course) : string :=
  code r +:+ "," +:+ title r +:+ comma_joined (prerequisites r).

(** All the records of a chained table, bucket after bucket. *)
Definition all_records (t : E2.HashTable) : list Course :=
  mjoin (vec_to_list (E2.table t)).

(** The order vector and the buckets tell the same story: the vector lists
    the canonical codes of the stored records, one entry per record, and
    every record sits in the bucket its canonical code hashes to. *)
Definition consistent `{Platform} (t : E2.HashTable) : Prop :=
  E2.courseOrder t ≡ₚ canonical <$> all_records t ∧
  ∀ (b : fin BUCKETS) (r : Course),
    r ∈ E2.table t !!! b → slot (E2.hash (canonical r)) = b.

(** The states of an enhancement-2 table that its public members can
    produce. *)
Inductive reachable `{Platform} (fs : filesystem) : E2.HashTable → Prop :=
| reachable_new : reachable fs E2.HashTable_new
| reachable_insert t course :
    reachable fs t → reachable fs (E2.insert t course)
| reachable_loadData t filename :
    reachable fs t → reachable fs (E2.loadData fs filename t).2
| reachable_getSortedCourseCodes t :
    reachable fs t → reachable fs (E2.getSortedCourseCodes t).2.

(** The string a column gives when it is not NULL. *)
Definition column_text (text : column) : string :=
  match text with
  | Some bytes => c_str bytes
  | None => EmptyString
  end.

(** A row enhancement 3 accepts: no column is NULL, and neither the code nor
    the title, read up to the first zero byte, is empty.  The record it
    stores for such a row. *)
Definition row_valid (row : column * column * column) : Prop :=
  (is_Some row.1.1 ∧ is_Some row.1.2 ∧ is_Some row.2) ∧
  column_text row.1.1 ≠ "" ∧ column_text row.1.2 ≠ "".

Definition row_record (row : column * column * column) : Course :=
  mkCourse (column_text row.1.1) (column_text row.1.2)
           (nonempty_fields (getline_all "," (column_text row.2))).

(** The exception a row that is not accepted ends the load with: the
    library's when a column is NULL, the validation error otherwise. *)
Definition row_failure `{Platform} (row : column * column * column) : exception :=
  if decide (is_Some row.1.1 ∧ is_Some row.1.2 ∧ is_Some row.2)
  then InvalidCourseData
  else StringFromNull null_string_what.

(** A record that can be written as one line of a CSV file and read back:
    its fields are plain and contain no line break. *)
Definition storable (r : Course) : Prop :=
  plain_field (code r) ∧ plain_field (title r) ∧
  Forall plain_field (prerequisites r) ∧
  occurs "010" (csv_line r) = false.

(** The file with one line per record. *)
Fixpoint csv_file (rs : list Course) : string :=
  match rs with
  | [] => EmptyString
  | r :: rest => csv_line r +:+ endl +:+ csv_file rest
  end.

(** The lines selection 2 writes for a list of courses. *)
Fixpoint listing (courses : list Course) : string :=
  match courses with
  | [] => EmptyString
  | r :: rest => getCode r +:+ ": " +:+ getTitle r +:+ endl +:+ listing rest
  end.

(** The last record of a list with its canonical code: the one enhancement
    1's map keeps. *)
Definition last_with_code (rs : list Course) (r : Course) : Prop :=
  ∃ before after,
    rs = before ++ r :: after ∧ canonical r ∉ canonical <$> after.

(** ** Sample inputs

    The scenario of the design document, a file with a repeated code and a
    file whose second line lacks a title. *)

Definition CS101 : Course := mkCourse "CS101" "Intro to CS" [].
Definition CS201 : Course := mkCourse "CS201" "Data Structures" ["CS101"].
Definition cs101_again : Course := mkCourse "cs101" "Intro; second edition" [].

Definition courses_csv : string :=
  "CS101,Intro to CS
CS201,Data Structures,CS101
".

Definition repeated_csv : string :=
  "CS101,Intro to CS
cs101,Intro; second edition
".

Definition broken_csv : string :=
  "CS201,Data Structures,CS101
CS101
CS301,Algorithms,CS201
".

Definition reversed_csv : string :=
  "CS201,Data Structures,CS101
CS101,Intro to CS
".

Definition sample_fs : filesystem := λ filename,
  if bool_decide (filename = "courses.csv") then Some courses_csv
  else if bool_decide (filename = "reversed.csv") then Some reversed_csv
  else if bool_decide (filename = "repeated.csv") then Some repeated_csv
  else if bool_decide (filename = "broken.csv") then Some broken_csv
  else None.

(** The file system of a session: the default file of selection 1 exists. *)
Definition advising_fs : filesystem := λ filename,
  if bool_decide (filename = "Program_Input.csv") then Some reversed_csv
  else None.

Definition courses_rows : list (column * column * column) :=
  [(Some "CS101", Some "Intro to CS", Some EmptyString);
   (Some "CS201", Some "Data Structures", Some "CS101")].

Definition repeated_rows : list (column * column * column) :=
  [(Some "CS101", Some "Intro to CS", Some EmptyString);
   (Some "cs101", Some "Intro; second edition", Some EmptyString)].


Definition CS301 : Course := mkCourse "CS301" "Algorithms" ["CS201"].
Definition cs301_again : Course := mkCourse "cs301" "Advanced Algorithms" [].

(** The tables the three enhancements hold after loading the scenario. *)
Definition courses_table `{Platform} : E2.HashTable :=
  (E2.loadData sample_fs "courses.csv" E2.HashTable_new).2.

Definition courses_table_E3 `{Platform} : E2.HashTable :=
  (E3.loadData (result_rows courses_rows) E3.HashTable_new).2.

Definition courses_table_E1 : E1.HashTable :=
  (E1.loadData sample_fs "courses.csv" E1.HashTable_new).2.

Definition reversed_table `{Platform} : E2.HashTable :=
  (E2.loadData sample_fs "reversed.csv" E2.HashTable_new).2.

Definition reversed_table_E1 : E1.HashTable :=
  (E1.loadData sample_fs "reversed.csv" E1.HashTable_new).2.

(** Closed decidable facts about the sample inputs are settled by
    evaluation. *)
Ltac by_evaluation :=
  lazymatch goal with
  | |- Forall2 _ ?l _ =>
      let l' := eval vm_compute in l in
      replace l with l' by (vm_compute; reflexivity);
      repeat first
        [ apply List.Forall2_nil
        | apply List.Forall2_cons; [vm_compute; reflexivity|] ]
  | |- _ = _ => vm_compute; reflexivity
  | |- _ => apply (bool_decide_unpack _); vm_compute; exact I
  end.

(** ** Reading fields

    [getline_all] is the iteration of single [getline] calls until one
    fails. *)

Lemma getline_all_step (delim : ascii) (s : string) :
  getline_all delim s =
  match getline delim (Some s) with
  | None => []
  | Some (tok, None) => [tok]
  | Some (tok, Some rest) => tok :: getline_all delim rest
  end.
Proof.
  induction s as [|ch rest IH]; simpl; [done|].
  destruct (Ascii.eqb ch delim); [done|].
  rewrite IH. destruct rest as [|ch' rest']; simpl; [done|].
  destruct (Ascii.eqb ch' delim); [done|].
  by destruct (extract delim rest') as [tok [r|]].
Qed.

(** ** Sorting *)

Lemma sort_Sorted (v : list string) : Sorted String.le (sort v).
Proof. apply (Sorted_merge_sort String.le). Qed.

Lemma sort_Permutation (v : list string) : sort v ≡ₚ v.
Proof. apply (merge_sort_Permutation String.le). Qed.

Lemma sort_unique (v w : list string) :
  Sorted String.le w → w ≡ₚ v → sort v = w.
Proof.
  intros Hs Hp. apply (Sorted_unique String.le); auto using sort_Sorted.
  by rewrite sort_Permutation.
Qed.

Lemma sort_idempotent (v : list string) : sort (sort v) = sort v.
Proof. apply sort_unique; auto using sort_Sorted. Qed.

Lemma sort_perm_eq (v w : list string) : v ≡ₚ w → sort v = sort w.
Proof.
  intros Hp. apply sort_unique; [apply sort_Sorted|].
  by rewrite sort_Permutation.
Qed.

Lemma sort_length (v : list string) : length (sort v) = length v.
Proof. by rewrite sort_Permutation. Qed.

(** ** The hash function *)

Section HashFacts.
Context `{Platform}.

Lemma hash_loop_polynomial (h : Z) (key : string) :
  E2.hash_loop (h mod UINT_MODULUS) key =
  (h * 31 ^ Z.of_nat (String.length key) + polynomial31 key) mod UINT_MODULUS.
Proof.
  revert h. induction key as [|ch rest IH]; intros h; simpl.
  - f_equal. lia.
  - rewrite IH, Nat2Z.inj_succ, Z.pow_succ_r by lia.
    set (p := 31 ^ Z.of_nat (String.length rest)).
    replace ((h mod UINT_MODULUS * 31 + char_value ch) * p + polynomial31 rest)
      with (h mod UINT_MODULUS * (31 * p) + (char_value ch * p + polynomial31 rest))
      by ring.
    rewrite <- Z.add_mod_idemp_l, Z.mul_mod_idemp_l, Z.add_mod_idemp_l by done.
    done.
Qed.

Lemma hash_loop_E3 (h : Z) (key : string) :
  E3.hash_loop h key = E2.hash_loop h key.
Proof. revert h. induction key; intros; simpl; auto. Qed.

Lemma hash_E3 (key : string) : E3.hash key = E2.hash key.
Proof. unfold E3.hash, E2.hash. by rewrite hash_loop_E3. Qed.

Lemma hash_range (key : string) : 0 ≤ E2.hash key < HASH_TABLE_SIZE.
Proof. unfold E2.hash. apply Z.mod_pos_bound. done. Qed.

End HashFacts.

(** ** Chains and buckets *)

Section ChainFacts.
Context `{Platform}.

Lemma append_node_app (chain : list Course) (c : Course) :
  E2.append_node chain c = chain ++ [c].
Proof. induction chain; simpl; congruence. Qed.

Lemma append_node_E3 (chain : list Course) (c : Course) :
  E3.append_node chain c = E2.append_node chain c.
Proof. induction chain; simpl; congruence. Qed.

Lemma find_in_chain_E3 (chain : list Course) (key : string) :
  E3.find_in_chain chain key = E2.find_in_chain chain key.
Proof. induction chain; simpl; [done|]. by rewrite IHchain. Qed.

Lemma insert_E3 (t : E2.HashTable) (c : Course) : E3.insert t c = E2.insert t c.
Proof. unfold E3.insert, E2.insert. by rewrite hash_E3, append_node_E3. Qed.

Lemma getCourse_E3 (t : E2.HashTable) (code : string) :
  E3.getCourse t code = E2.getCourse t code.
Proof. unfold E3.getCourse, E2.getCourse. by rewrite hash_E3, find_in_chain_E3. Qed.

Lemma getSortedCourseCodes_E3 (t : E2.HashTable) :
  E3.getSortedCourseCodes t = E2.getSortedCourseCodes t.
Proof. done. Qed.

Lemma find_in_chain_app (l1 l2 : list Course) (key : string) :
  E2.find_in_chain (l1 ++ l2) key =
  match E2.find_in_chain l1 key with
  | returned r => returned r
  | thrown _ => E2.find_in_chain l2 key
  end.
Proof.
  induction l1 as [|r l1 IH]; simpl; [done|].
  by destruct (bool_decide (toUpper (getCode r) = key)).
Qed.

Lemma find_in_chain_filter (P : Course → Prop) `{∀ r, Decision (P r)}
    (rs : list Course) (key : string) :
  (∀ r, canonical r = key → P r) →
  E2.find_in_chain (filter P rs) key = E2.find_in_chain rs key.
Proof.
  intros HP. induction rs as [|r rs IH]; simpl; [done|].
  rewrite filter_cons. destruct (decide (P r)) as [Hr|Hr]; simpl.
  - by rewrite IH.
  - rewrite IH. rewrite bool_decide_eq_false_2; [done|].
    intros Hk. by apply Hr, HP.
Qed.

Lemma find_in_chain_absent (rs : list Course) (key : string) :
  key ∉ canonical <$> rs → E2.find_in_chain rs key = thrown CourseNotFound.
Proof.
  induction rs as [|r rs IH]; simpl; [done|]. intros Hk.
  rewrite not_elem_of_cons in Hk. destruct Hk as [Hne Hk].
  rewrite bool_decide_eq_false_2; [auto|]. intros Heq. by apply Hne.
Qed.

Lemma find_in_chain_present (rs : list Course) (key : string) :
  key ∈ canonical <$> rs →
  ∃ r, E2.find_in_chain rs key = returned r ∧ r ∈ rs ∧ canonical r = key.
Proof.
  induction rs as [|r rs IH]; simpl; [by intros ?%elem_of_nil|].
  intros Hk. destruct (decide (canonical r = key)) as [Heq|Hne].
  - exists r. rewrite bool_decide_eq_true_2 by done. split_and!; [done| |done].
    apply list_elem_of_here.
  - rewrite bool_decide_eq_false_2 by done.
    apply elem_of_cons in Hk as [Hk|Hk]; [congruence|].
    destruct (IH Hk) as (r' & ? & ? & ?). exists r'. split_and!; [done| |done].
    by apply list_elem_of_further.
Qed.

Lemma find_in_chain_NoDup (rs : list Course) (r : Course) :
  NoDup (canonical <$> rs) → r ∈ rs →
  E2.find_in_chain rs (canonical r) = returned r.
Proof.
  induction rs as [|r' rs IH]; simpl; [by intros _ ?%elem_of_nil|].
  rewrite NoDup_cons. intros [Hnot Hnd] Hin.
  apply elem_of_cons in Hin as [->|Hin].
  - by rewrite bool_decide_eq_true_2.
  - rewrite bool_decide_eq_false_2; [auto|].
    intros Heq. apply Hnot. fold (canonical r') in Heq. rewrite Heq.
    by apply list_elem_of_fmap_2.
Qed.

Lemma table_insert (t : E2.HashTable) (c : Course) (b : fin BUCKETS) :
  E2.table (E2.insert t c) !!! b =
  if decide (slot (E2.hash (canonical c)) = b)
  then E2.table t !!! b ++ [c] else E2.table t !!! b.
Proof.
  unfold E2.insert; simpl. fold (canonical c).
  destruct (decide (slot (E2.hash (canonical c)) = b)) as [<-|Hne].
  - by rewrite vlookup_insert, append_node_app.
  - by rewrite vlookup_insert_ne.
Qed.

Lemma table_inserts (rs : list Course) (t : E2.HashTable) (b : fin BUCKETS) :
  E2.table (foldl E2.insert t rs) !!! b =
  E2.table t !!! b ++ filter (λ r, slot (E2.hash (canonical r)) = b) rs.
Proof.
  revert t. induction rs as [|r rs IH]; intros t; simpl.
  - by rewrite app_nil_r.
  - rewrite IH, table_insert, filter_cons.
    destruct (decide (slot (E2.hash (canonical r)) = b)); [|done].
    by rewrite <- app_assoc.
Qed.

Lemma courseOrder_inserts (rs : list Course) (t : E2.HashTable) :
  E2.courseOrder (foldl E2.insert t rs) = E2.courseOrder t ++ (canonical <$> rs).
Proof.
  revert t. induction rs as [|r rs IH]; intros t; simpl.
  - by rewrite app_nil_r.
  - rewrite IH. simpl. by rewrite <- app_assoc.
Qed.

Lemma dataLoaded_inserts (rs : list Course) (t : E2.HashTable) :
  E2.dataLoaded (foldl E2.insert t rs) = E2.dataLoaded t.
Proof. revert t. induction rs as [|r rs IH]; intros t; simpl; [done|]. by rewrite IH. Qed.

(** Lookup in a table filled from empty buckets is a linear search for the
    first record of the inserted sequence with the canonical key. *)
Lemma getCourse_inserts (rs : list Course) (order : list string) (code : string) :
  E2.getCourse
    (foldl E2.insert (E2.mkHashTable (vreplicate BUCKETS []) order true) rs) code
  = E2.find_in_chain rs (toUpper code).
Proof.
  unfold E2.getCourse. rewrite dataLoaded_inserts, table_inserts.
  cbn [E2.dataLoaded E2.table negb]. rewrite vlookup_replicate.
  cbn [app]. apply find_in_chain_filter. by intros r <-.
Qed.

Lemma load_lines_spec (lines : list string) (n : nat) (t : E2.HashTable) :
  E2.load_lines n lines t =
  (match first_failure n lines with Some e => thrown e | None => returned tt end,
   foldl E2.insert t (parsed_prefix lines)).
Proof.
  revert n t. induction lines as [|line rest IH]; intros n t; simpl; [done|].
  destruct (parseCourse line); simpl; [apply IH|done].
Qed.

Lemma parsed_all (lines : list string) (rs : list Course) (n : nat) :
  Forall2 (λ line r, parseCourse line = returned r) lines rs →
  parsed_prefix lines = rs ∧ first_failure n lines = None.
Proof.
  intros HF. revert n. induction HF as [|line r lines rs Hp _ IH]; intros n; simpl; [done|].
  rewrite Hp. destruct (IH (S n)) as [-> ->]. done.
Qed.

Lemma parsed_until (good rest : list string) (bad : string) (rs : list Course)
    (e : exception) (n : nat) :
  Forall2 (λ line r, parseCourse line = returned r) good rs →
  parseCourse bad = thrown e →
  parsed_prefix (good ++ bad :: rest) = rs ∧
  first_failure n (good ++ bad :: rest) =
    Some (ErrorOnLine (n + length good + 1) e).
Proof.
  intros HF Hbad. revert n.
  induction HF as [|line r lines rs Hp _ IH]; intros n; simpl.
  - rewrite Hbad. split; [done|]. do 2 f_equal. lia.
  - rewrite Hp. destruct (IH (S n)) as [-> ->]. split; [done|].
    do 2 f_equal. lia.
Qed.

End ChainFacts.

(** ** Loading *)

Section LoadFacts.
Context `{Platform}.

Lemma inserts_flag (rs : list Course) (t : E2.HashTable) (b : bool) :
  E2.mkHashTable (E2.table (foldl E2.insert t rs))
                 (E2.courseOrder (foldl E2.insert t rs)) b =
  foldl E2.insert (E2.mkHashTable (E2.table t) (E2.courseOrder t) b) rs.
Proof.
  revert t. induction rs as [|r rs IH]; intros t; simpl; [done|]. by rewrite IH.
Qed.

(** [loadData] of a file that opens: the records parsed before the first bad
    line are inserted into emptied buckets; the flag is set only when no line
    fails. *)
Lemma loadData_spec (fs : filesystem) (filename contents : string)
    (t : E2.HashTable) :
  fs filename = Some contents →
  E2.loadData fs filename t =
  let rs := parsed_prefix (file_lines contents) in
  match first_failure 0 (file_lines contents) with
  | Some e =>
      (thrown e,
       foldl E2.insert
         (E2.mkHashTable (vreplicate BUCKETS []) [] (E2.dataLoaded t)) rs)
  | None =>
      (returned tt,
       foldl E2.insert (E2.mkHashTable (vreplicate BUCKETS []) [] true) rs)
  end.
Proof.
  intros Hfs. unfold E2.loadData. rewrite Hfs, load_lines_spec.
  destruct (first_failure 0 (file_lines contents)); [done|].
  cbv zeta. by rewrite inserts_flag.
Qed.

Lemma load_rows_spec (rows : list (column * column * column))
    (rs : list Course) (t : E2.HashTable) :
  Forall2 (λ row r, row_course row = returned r) rows rs →
  E3.load_rows rows t = (returned tt, foldl E2.insert t rs).
Proof.
  intros HF. revert t.
  induction HF as [|[[c ti] p] r rows rs Hr _ IH]; intros t; [done|].
  cbn [E3.load_rows foldl]. unfold row_course in Hr.
  destruct (E3.string_of_column c) as [code|e]; [|done].
  destruct (E3.string_of_column ti) as [title|e]; [|done].
  destruct (E3.string_of_column p) as [pStr|e]; [|done].
  cbv zeta. rewrite Hr, insert_E3. apply IH.
Qed.

Lemma loadData_E3_spec (rows : list (column * column * column))
    (rs : list Course) (t : E2.HashTable) :
  Forall2 (λ row r, row_course row = returned r) rows rs →
  E3.loadData (result_rows rows) t =
  (returned tt,
   foldl E2.insert (E2.mkHashTable (vreplicate BUCKETS []) [] true) rs).
Proof.
  intros HF. unfold E3.loadData, E3.clearTable. cbn [E2.courseOrder E2.dataLoaded].
  rewrite (load_rows_spec _ rs) by done. by rewrite inserts_flag.
Qed.

(** Enhancement 1 *)

Lemma E1_load_lines_spec (lines : list string) (n : nat) (t : E1.HashTable) :
  E1.load_lines n lines t =
  (match first_failure n lines with Some e => thrown e | None => returned tt end,
   foldl E1_store t (parsed_prefix lines)).
Proof.
  revert n t. induction lines as [|line rest IH]; intros n t; simpl; [done|].
  destruct (parseCourse line); simpl; [apply IH|done].
Qed.

Lemma E1_courseOrder_stores (rs : list Course) (t : E1.HashTable) :
  E1.courseOrder (foldl E1_store t rs) = E1.courseOrder t ++ (canonical <$> rs).
Proof.
  revert t. induction rs as [|r rs IH]; intros t; simpl.
  - by rewrite app_nil_r.
  - rewrite IH. simpl. by rewrite <- app_assoc.
Qed.

Lemma E1_dataLoaded_stores (rs : list Course) (t : E1.HashTable) :
  E1.dataLoaded (foldl E1_store t rs) = E1.dataLoaded t.
Proof. revert t. induction rs as [|r rs IH]; intros t; simpl; [done|]. by rewrite IH. Qed.

Lemma E1_stores_flag (rs : list Course) (t : E1.HashTable) (b : bool) :
  E1.mkHashTable (E1.courseMap (foldl E1_store t rs))
                 (E1.courseOrder (foldl E1_store t rs)) b =
  foldl E1_store (E1.mkHashTable (E1.courseMap t) (E1.courseOrder t) b) rs.
Proof.
  revert t. induction rs as [|r rs IH]; intros t; simpl; [done|]. by rewrite IH.
Qed.

(** The map keeps, for each key, the last record stored under it. *)
Lemma E1_courseMap_stores (rs : list Course) (t : E1.HashTable) (k : string) :
  E1.courseMap (foldl E1_store t rs) !! k =
  match E2.find_in_chain (reverse rs) k with
  | returned r => Some r
  | thrown _ => E1.courseMap t !! k
  end.
Proof.
  revert t. induction rs as [|r rs IH]; intros t; simpl; [done|].
  rewrite IH, reverse_cons, find_in_chain_app.
  destruct (E2.find_in_chain (reverse rs) k); [done|]. simpl.
  fold (canonical r). rewrite lookup_insert.
  destruct (decide (canonical r = k)).
  - by rewrite bool_decide_eq_true_2.
  - by rewrite bool_decide_eq_false_2.
Qed.

Lemma E1_loadData_spec (fs : filesystem) (filename contents : string)
    (t : E1.HashTable) :
  fs filename = Some contents →
  E1.loadData fs filename t =
  let rs := parsed_prefix (file_lines contents) in
  match first_failure 0 (file_lines contents) with
  | Some e =>
      (thrown e, foldl E1_store (E1.mkHashTable ∅ [] (E1.dataLoaded t)) rs)
  | None =>
      (returned tt, foldl E1_store (E1.mkHashTable ∅ [] true) rs)
  end.
Proof.
  intros Hfs. unfold E1.loadData. rewrite Hfs, E1_load_lines_spec.
  destruct (first_failure 0 (file_lines contents)); [done|].
  cbv zeta. by rewrite E1_stores_flag.
Qed.

Lemma E1_getCourse_stores (rs : list Course) (code : string) :
  E1.getCourse (foldl E1_store (E1.mkHashTable ∅ [] true) rs) code =
  E2.find_in_chain (reverse rs) (toUpper code).
Proof.
  unfold E1.getCourse. rewrite E1_dataLoaded_stores, E1_courseMap_stores.
  cbn [E1.dataLoaded E1.courseMap negb].
  destruct (E2.find_in_chain (reverse rs) (toUpper code)) as [r|e] eqn:Hf; [done|].
  rewrite lookup_empty.
  clear -Hf. induction (reverse rs) as [|r l IH]; simpl in *; [congruence|].
  destruct (bool_decide (toUpper (getCode r) = toUpper code)); [done|auto].
Qed.

Lemma find_in_chain_reverse (rs : list Course) (key : string) :
  NoDup (canonical <$> rs) →
  E2.find_in_chain (reverse rs) key = E2.find_in_chain rs key.
Proof.
  intros Hnd. destruct (decide (key ∈ canonical <$> rs)) as [Hin|Hout].
  - destruct (find_in_chain_present rs key Hin) as (r & -> & Hr & <-).
    apply find_in_chain_NoDup.
    + by rewrite fmap_reverse, reverse_Permutation.
    + by rewrite elem_of_reverse.
  - rewrite !find_in_chain_absent; [done|done|].
    by rewrite fmap_reverse, elem_of_reverse.
Qed.

End LoadFacts.

(** ** The hash function is the base-31 polynomial hash *)

Lemma fin_of_nat_to_nat (m n : nat) :
  (n ≤ m)%nat → fin_to_nat (fin_of_nat m n) = n.
Proof.
  revert m. induction n as [|n IH]; intros m Hle.
  - by destruct m.
  - destruct m as [|m]; [lia|]. simpl. rewrite IH; [done|lia].
Qed.

(** C5.  For every key, the bucket index that [hash] computes for the
    canonicalized (upper-case) key is the base-31 polynomial of the key's
    character values, reduced modulo [2^32] (the wrap-around of [unsigned int],
    never an error) and then modulo the bucket count 17; it is a valid
    subscript of the bucket array, and it is the bucket [insert] files a
    record under.  The character value is that of plain [char] on the
    platform. *)
Theorem hash_is_polynomial_rolling_hash `{Platform} (key : string) :
  let k := toUpper key in
  E2.hash k = (polynomial31 k mod 2 ^ 32) mod 17 ∧
  E3.hash k = (polynomial31 k mod 2 ^ 32) mod 17 ∧
  0 ≤ E2.hash k < 17 ∧
  fin_to_nat (slot (E2.hash k)) = Z.to_nat (E2.hash k) ∧
  ∀ (t : E2.HashTable) (r : Course),
    getCode r = key →
    E2.table (E2.insert t r) !!! slot (E2.hash k) =
    E2.table t !!! slot (E2.hash k) ++ [r].
Proof.
  intros k.
  assert (Hpoly : E2.hash k = (polynomial31 k mod 2 ^ 32) mod 17).
  { pose proof (hash_loop_polynomial 0 k) as Hp.
    change (0 mod UINT_MODULUS) with 0 in Hp.
    rewrite Z.mul_0_l, Z.add_0_l in Hp. unfold E2.hash. by rewrite Hp. }
  pose proof (hash_range k) as Hr. change HASH_TABLE_SIZE with 17 in Hr.
  split; [exact Hpoly|]. split; [by rewrite (hash_E3 k)|].
  split; [exact Hr|]. split.
  - apply fin_of_nat_to_nat. lia.
  - intros t r Hcode. rewrite table_insert. unfold canonical.
    rewrite Hcode. fold k. by rewrite decide_True.
Qed.

Lemma hash_is_polynomial_rolling_hash_witness :
  getCode CS201 = "CS201" ∧
  E2.table (@E2.insert signed_char_platform E2.HashTable_new CS201)
    !!! slot (@E2.hash signed_char_platform "CS201") = [CS201].
Proof.
  split; [reflexivity|].
  apply (proj2 (proj2 (proj2 (proj2
    (@hash_is_polynomial_rolling_hash signed_char_platform "CS201"))))
    E2.HashTable_new CS201).
  reflexivity.
Defined.

(** ** Construction of records *)

(** C6, as stated, fails: the default constructor [Course()] builds a record
    whose code and title are empty, without validation. *)
Lemma default_constructor_skips_validation :
  ¬ (∀ r : Course, constructed r → code r ≠ "" ∧ title r ≠ "").
Proof.
  intros Hall. destruct (Hall Course_default constructed_default) as [Hcode _].
  by apply Hcode.
Qed.

(** C6, amended.  The constructor [Course(code, title, prerequisites)]
    succeeds exactly when code and title are both non-empty, and then stores
    the three arguments verbatim; when code or title is empty it fails with
    the validation error, whatever the prerequisites; hence a record it
    returns never has an empty code or title.  A constructed record is
    therefore either valid or the empty record of the default
    constructor. *)
Theorem Course_new_validates (c t : string) (p : list string) :
  (c ≠ "" → t ≠ "" → Course_new c t p = returned (mkCourse c t p)) ∧
  (c = "" ∨ t = "" →
     Course_new c t p = thrown InvalidCourseData ∧
     ValidationError InvalidCourseData) ∧
  (∀ r, Course_new c t p = returned r →
     code r ≠ "" ∧ title r ≠ "" ∧ r = mkCourse c t p) ∧
  (∀ r, constructed r → r = Course_default ∨ (code r ≠ "" ∧ title r ≠ "")).
Proof.
  assert (Hret : ∀ c t p r, Course_new c t p = returned r →
                 code r ≠ "" ∧ title r ≠ "" ∧ r = mkCourse c t p).
  { clear. intros c t p r. unfold Course_new, validate. simpl.
    destruct (decide (c = "")) as [->|Hc]; [done|].
    destruct (decide (t = "")) as [->|Ht].
    - by rewrite orb_true_r.
    - rewrite !bool_decide_eq_false_2 by done. simpl.
      intros [= <-]. done. }
  split_and!.
  - intros Hc Ht. unfold Course_new, validate. simpl.
    by rewrite !bool_decide_eq_false_2.
  - intros [-> | ->]; (split; [|done]); unfold Course_new, validate; simpl.
    + done.
    + by rewrite orb_true_r.
  - apply Hret.
  - intros r [|c' t' p' r' Hr]; [by left|right].
    by destruct (Hret _ _ _ _ Hr) as (? & ? & _).
Qed.

Lemma Course_new_validates_witness :
  ("CS201" ≠ "" ∧ "Data Structures" ≠ "") ∧
  Course_new "CS201" "Data Structures" ["CS101"] = returned CS201 ∧
  Course_new "" "Data Structures" ["CS101"] = thrown InvalidCourseData.
Proof.
  split; [by split|]. split.
  - by apply (proj1 (Course_new_validates "CS201" "Data Structures" ["CS101"])).
  - apply (proj1 (proj2 (Course_new_validates "" "Data Structures" ["CS101"]))).
    by left.
Defined.

(** ** A source that cannot be opened *)

(** C9.  When the external source cannot be opened, [loadData] throws
    before it touches the object: the container, the order vector and the
    loaded flag are what they were before the call.  This holds in each
    enhancement (file in 1 and 2, database connection in 3). *)
Theorem loadData_unopened_source_untouched `{Platform} (fs : filesystem)
    (filename : string) (t1 : E1.HashTable) (t2 t3 : E2.HashTable) :
  fs filename = None →
  E1.loadData fs filename t1 = (thrown (CouldNotOpenFile filename), t1) ∧
  E2.loadData fs filename t2 = (thrown (CouldNotOpenFile filename), t2) ∧
  E3.loadData cannot_open t3 = (thrown CouldNotOpenDatabase, t3).
Proof.
  intros Hfs. unfold E1.loadData, E2.loadData. by rewrite Hfs.
Qed.

Lemma loadData_unopened_source_untouched_witness :
  sample_fs "missing.csv" = None ∧
  E1.loadData sample_fs "missing.csv" courses_table_E1 =
    (thrown (CouldNotOpenFile "missing.csv"), courses_table_E1) ∧
  @E2.loadData signed_char_platform sample_fs "missing.csv"
      (@courses_table signed_char_platform) =
    (thrown (CouldNotOpenFile "missing.csv"), @courses_table signed_char_platform).
Proof.
  split; [reflexivity|].
  pose proof (@loadData_unopened_source_untouched signed_char_platform
                sample_fs "missing.csv" courses_table_E1
                (@courses_table signed_char_platform)
                (@courses_table signed_char_platform) eq_refl) as (H1 & H2 & _).
  exact (conj H1 H2).
Defined.

(** ** Loading records with distinct codes *)

(** C7.  When the lines of the file parse to the records [rs], whose
    canonical codes are pairwise distinct, [loadData] succeeds; afterwards
    [getCourse] of the code of each loaded record returns that record, and
    [getSortedCourseCodes] returns exactly the canonical codes of [rs], one
    for each record, in ascending byte-wise lexicographic order. *)
Theorem load_distinct_lookup_and_listing `{Platform} (fs : filesystem)
    (filename contents : string) (rs : list Course) (t : E2.HashTable) :
  fs filename = Some contents →
  Forall2 (λ line r, parseCourse line = returned r) (file_lines contents) rs →
  NoDup (canonical <$> rs) →
  let result := E2.loadData fs filename t in
  let listing := E2.getSortedCourseCodes result.2 in
  result.1 = returned tt ∧
  (∀ r, r ∈ rs → E2.getCourse result.2 (getCode r) = returned r) ∧
  listing.1 = returned (sort (canonical <$> rs)) ∧
  sort (canonical <$> rs) ≡ₚ canonical <$> rs ∧
  length (sort (canonical <$> rs)) = length rs ∧
  Sorted String.le (sort (canonical <$> rs)) ∧
  NoDup (sort (canonical <$> rs)).
Proof.
  intros Hfs Hparse Hnd result listing. subst listing result.
  rewrite (loadData_spec fs filename contents) by done. cbv zeta.
  destruct (parsed_all _ _ 0%nat Hparse) as [-> ->]. cbn [fst snd].
  split; [done|]. split.
  { intros r Hr. rewrite getCourse_inserts. by apply find_in_chain_NoDup. }
  split.
  { unfold E2.getSortedCourseCodes.
    rewrite dataLoaded_inserts, courseOrder_inserts. done. }
  split; [apply sort_Permutation|].
  split; [by rewrite sort_length, length_fmap|].
  split; [apply sort_Sorted|].
  by rewrite sort_Permutation.
Qed.

Lemma load_distinct_lookup_and_listing_witness :
  let t := (@E2.loadData signed_char_platform sample_fs "courses.csv"
              E2.HashTable_new).2 in
  @E2.getCourse signed_char_platform t "CS101" = returned CS101 ∧
  @E2.getCourse signed_char_platform t "CS201" = returned CS201 ∧
  (E2.getSortedCourseCodes t).1 = returned ["CS101"; "CS201"].
Proof.
  assert (Hparse : Forall2 (λ line r, parseCourse line = returned r)
                     (file_lines courses_csv) [CS101; CS201])
    by by_evaluation.
  assert (Hnd : NoDup (canonical <$> [CS101; CS201]))
    by by_evaluation.
  destruct (@load_distinct_lookup_and_listing signed_char_platform sample_fs
              "courses.csv" courses_csv [CS101; CS201] E2.HashTable_new
              eq_refl Hparse Hnd) as (_ & Hget & Hlist & _).
  split; [apply (Hget CS101); apply list_elem_of_here|].
  split; [apply (Hget CS201); apply list_elem_of_further, list_elem_of_here|].
  exact Hlist.
Defined.

(** ** The two failures of a query *)

(** C8.  [getCourse] fails in exactly two ways, told apart by the
    exception: on a table whose loaded flag is off it throws "No data
    loaded." for every code, and so does [getSortedCourseCodes], leaving the
    table as it is; on a table loaded from records [rs] it throws "Course not
    found." for every code whose canonical form is the canonical code of no
    record of [rs] (more generally, on any table with the flag set, when no
    record in the key's bucket has that canonical code).  The result of a
    lookup depends on the flag and on the
    one bucket the key hashes to, no other bucket is read. *)
Theorem query_failures `{Platform} :
  (∀ (t : E2.HashTable) (code : string),
     E2.dataLoaded t = false →
     E2.getCourse t code = thrown NoDataLoaded ∧
     E2.getSortedCourseCodes t = (thrown NoDataLoaded, t) ∧
     StateError NoDataLoaded) ∧
  (∀ (fs : filesystem) (filename contents : string) (rs : list Course)
     (t : E2.HashTable) (code : string),
     fs filename = Some contents →
     Forall2 (λ line r, parseCourse line = returned r) (file_lines contents) rs →
     toUpper code ∉ canonical <$> rs →
     (E2.loadData fs filename t).1 = returned tt ∧
     E2.dataLoaded (E2.loadData fs filename t).2 = true ∧
     E2.getCourse (E2.loadData fs filename t).2 code = thrown CourseNotFound ∧
     NotFoundError CourseNotFound) ∧
  (∀ (t : E2.HashTable) (code : string),
     E2.dataLoaded t = true →
     toUpper code ∉
       canonical <$> (E2.table t !!! slot (E2.hash (toUpper code))) →
     E2.getCourse t code = thrown CourseNotFound) ∧
  (∀ (t u : E2.HashTable) (code : string),
     E2.dataLoaded t = E2.dataLoaded u →
     E2.table t !!! slot (E2.hash (toUpper code)) =
       E2.table u !!! slot (E2.hash (toUpper code)) →
     E2.getCourse t code = E2.getCourse u code) ∧
  (∀ (t : E2.HashTable) (code : string) (e : exception),
     E2.getCourse t code = thrown e →
     (StateError e ∧ E2.dataLoaded t = false) ∨
     (NotFoundError e ∧ E2.dataLoaded t = true)) ∧
  (∀ e : exception, ¬ (StateError e ∧ NotFoundError e)) ∧
  what NoDataLoaded ≠ what CourseNotFound.
Proof.
  split_and!.
  - intros t code Hoff. unfold E2.getCourse, E2.getSortedCourseCodes.
    by rewrite Hoff.
  - intros fs filename contents rs t code Hfs Hparse Hout.
    rewrite (loadData_spec fs filename contents) by done. cbv zeta.
    destruct (parsed_all _ _ 0%nat Hparse) as [-> ->]. cbn [fst snd].
    rewrite dataLoaded_inserts, getCourse_inserts.
    by rewrite find_in_chain_absent.
  - intros t code Hon Hout. unfold E2.getCourse. rewrite Hon. cbn [negb].
    by apply find_in_chain_absent.
  - intros t u code Hflag Hbucket. unfold E2.getCourse.
    by rewrite Hflag, Hbucket.
  - intros t code e. unfold E2.getCourse.
    destruct (E2.dataLoaded t); simpl.
    + intros Hfind. right. split; [|done]. unfold NotFoundError.
      induction (E2.table t !!! slot (E2.hash (toUpper code))) as [|r l IH];
        simpl in Hfind; [congruence|].
      destruct (bool_decide (toUpper (getCode r) = toUpper code)); [done|auto].
    + intros [= <-]. by left.
  - intros e [He1 He2]. unfold StateError, NotFoundError in *. congruence.
  - discriminate.
Qed.

Lemma query_failures_witness :
  E2.dataLoaded E2.HashTable_new = false ∧
  @E2.getCourse signed_char_platform E2.HashTable_new "CS101" = thrown NoDataLoaded ∧
  (toUpper "cs999" ∉ canonical <$> [CS101; CS201]) ∧
  @E2.getCourse signed_char_platform
    (@E2.loadData signed_char_platform sample_fs "courses.csv" E2.HashTable_new).2
    "cs999" = thrown CourseNotFound.
Proof.
  pose proof (@query_failures signed_char_platform) as (Hoff & Habsent & _).
  assert (Hparse : Forall2 (λ line r, parseCourse line = returned r)
                     (file_lines courses_csv) [CS101; CS201])
    by by_evaluation.
  assert (Hout : toUpper "cs999" ∉ canonical <$> [CS101; CS201])
    by by_evaluation.
  split; [reflexivity|].
  split; [apply (Hoff E2.HashTable_new "CS101" eq_refl)|].
  split; [exact Hout|].
  apply (Habsent sample_fs "courses.csv" courses_csv [CS101; CS201]
           E2.HashTable_new "cs999" eq_refl Hparse Hout).
Defined.

(** ** Sorting the order vector in place *)

(** C10.  On a loaded table [getSortedCourseCodes] sorts the stored
    [courseOrder] itself and returns a copy of it: the stored vector is then
    ascending, a rearrangement of what it was, and stays so under further
    queries; tables that differ only in the order of that vector end in the
    same state, so the insertion order cannot be recovered; calling again,
    any number of times, returns the same sequence and leaves the state as
    it is; and no lookup changes its result.  This holds for the chained
    table (enhancements 2 and 3) and for the map of enhancement 1. *)
Theorem getSortedCourseCodes_sorts_in_place `{Platform}
    (t : E2.HashTable) (t1 : E1.HashTable) :
  E2.dataLoaded t = true →
  E1.dataLoaded t1 = true →
  (let keys := sort (E2.courseOrder t) in
   let t' := E2.mkHashTable (E2.table t) keys true in
   E2.getSortedCourseCodes t = (returned keys, t') ∧
   E3.getSortedCourseCodes t = (returned keys, t') ∧
   Sorted String.le (E2.courseOrder t') ∧
   E2.courseOrder t' ≡ₚ E2.courseOrder t ∧
   (∀ n, Nat.iter n (λ s, (E2.getSortedCourseCodes s).2) t' = t') ∧
   E2.getSortedCourseCodes t' = (returned keys, t') ∧
   (∀ code, E2.getCourse t' code = E2.getCourse t code) ∧
   (∀ order, order ≡ₚ E2.courseOrder t →
      E2.getSortedCourseCodes (E2.mkHashTable (E2.table t) order true) =
      (returned keys, t'))) ∧
  (let keys := sort (E1.courseOrder t1) in
   let t' := E1.mkHashTable (E1.courseMap t1) keys true in
   E1.getSortedCourseCodes t1 = (returned keys, t') ∧
   Sorted String.le (E1.courseOrder t') ∧
   E1.courseOrder t' ≡ₚ E1.courseOrder t1 ∧
   (∀ n, Nat.iter n (λ s, (E1.getSortedCourseCodes s).2) t' = t') ∧
   E1.getSortedCourseCodes t' = (returned keys, t') ∧
   (∀ code, E1.getCourse t' code = E1.getCourse t1 code) ∧
   (∀ order, order ≡ₚ E1.courseOrder t1 →
      E1.getSortedCourseCodes (E1.mkHashTable (E1.courseMap t1) order true) =
      (returned keys, t'))).
Proof.
  intros Hon Hon1. split.
  - intros keys t'.
    assert (Hcall : E2.getSortedCourseCodes t = (returned keys, t')).
    { unfold E2.getSortedCourseCodes. by rewrite Hon. }
    assert (Hagain : E2.getSortedCourseCodes t' = (returned keys, t')).
    { unfold E2.getSortedCourseCodes, t'. simpl. fold keys.
      unfold keys. by rewrite sort_idempotent. }
    split; [done|]. split; [done|]. split; [apply sort_Sorted|].
    split; [apply sort_Permutation|]. split.
    { induction n as [|n IH]; simpl; [done|]. by rewrite IH, Hagain. }
    split; [done|]. split.
    { intros code. unfold E2.getCourse, t'. simpl. by rewrite Hon. }
    intros order Hperm. unfold E2.getSortedCourseCodes, t', keys. simpl.
    by rewrite (sort_perm_eq _ _ Hperm).
  - intros keys t'.
    assert (Hcall : E1.getSortedCourseCodes t1 = (returned keys, t')).
    { unfold E1.getSortedCourseCodes. by rewrite Hon1. }
    assert (Hagain : E1.getSortedCourseCodes t' = (returned keys, t')).
    { unfold E1.getSortedCourseCodes, t'. simpl. fold keys.
      unfold keys. by rewrite sort_idempotent. }
    split; [done|]. split; [apply sort_Sorted|].
    split; [apply sort_Permutation|]. split.
    { induction n as [|n IH]; simpl; [done|]. by rewrite IH, Hagain. }
    split; [done|]. split.
    { intros code. unfold E1.getCourse, t'. simpl. by rewrite Hon1. }
    intros order Hperm. unfold E1.getSortedCourseCodes, t', keys. simpl.
    by rewrite (sort_perm_eq _ _ Hperm).
Qed.

Lemma getSortedCourseCodes_sorts_in_place_witness :
  let t := @reversed_table signed_char_platform in
  (E2.dataLoaded t = true ∧ E1.dataLoaded reversed_table_E1 = true) ∧
  E2.courseOrder t = ["CS201"; "CS101"] ∧
  E2.getSortedCourseCodes t =
    (returned ["CS101"; "CS201"],
     E2.mkHashTable (E2.table t) ["CS101"; "CS201"] true) ∧
  E1.getSortedCourseCodes reversed_table_E1 =
    (returned ["CS101"; "CS201"],
     E1.mkHashTable (E1.courseMap reversed_table_E1) ["CS101"; "CS201"] true).
Proof.
  intros t. split; [by split|]. split; [reflexivity|].
  destruct (@getSortedCourseCodes_sorts_in_place signed_char_platform
              t reversed_table_E1 eq_refl eq_refl) as [(H2 & _) (H1 & _)].
  split; [exact H2|exact H1].
Defined.

(** ** Two records with the same code *)

Lemma find_in_chain_last (l : list Course) (r : Course) :
  ∃ r', E2.find_in_chain (l ++ [r]) (canonical r) = returned r'.
Proof.
  induction l as [|x l IH]; simpl.
  - exists r. by rewrite bool_decide_eq_true_2.
  - destruct (bool_decide (toUpper (getCode x) = canonical r)); eauto.
Qed.

Lemma find_in_chain_thrown (l : list Course) (key : string) (e : exception) :
  E2.find_in_chain l key = thrown e → e = CourseNotFound.
Proof.
  induction l as [|r l IH]; simpl; [congruence|].
  destruct (bool_decide (toUpper (getCode r) = key)); [done|auto].
Qed.

Lemma find_in_chain_sound (chain : list Course) (key : string) (r : Course) :
  E2.find_in_chain chain key = returned r → canonical r = key ∧ r ∈ chain.
Proof.
  induction chain as [|x chain IH]; simpl; [done|].
  destruct (decide (toUpper (getCode x) = key)) as [Hx|Hx].
  - rewrite bool_decide_eq_true_2 by done. intros [= <-].
    split; [done|apply list_elem_of_here].
  - rewrite bool_decide_eq_false_2 by done. intros Hf.
    destruct (IH Hf). split; [done|by apply list_elem_of_further].
Qed.

(** C1, as stated, fails for the table of enhancement 1: the second record
    with a code replaces the first in the map, and lookup returns the second. *)
Lemma E1_repeated_code_replaces_record :
  let result := E1.loadData sample_fs "repeated.csv" E1.HashTable_new in
  Forall2 (λ line r, parseCourse line = returned r)
    (file_lines repeated_csv) [CS101; cs101_again] ∧
  canonical CS101 = canonical cs101_again ∧
  result.1 = returned tt ∧
  E1.getCourse result.2 "CS101" = returned cs101_again ∧
  E1.getCourse result.2 "CS101" ≠ returned CS101.
Proof.
  assert (Hget : E1.getCourse
            (E1.loadData sample_fs "repeated.csv" E1.HashTable_new).2 "CS101"
            = returned cs101_again) by (vm_compute; reflexivity).
  cbv zeta. split; [by_evaluation|]. split; [reflexivity|].
  split; [reflexivity|]. split; [exact Hget|]. rewrite Hget. discriminate.
Qed.

(** C1, amended.  In the chained table of enhancements 2 and 3, inserting
    two records [r1], [r2] with the same canonical code, in that order, into
    a loaded table that holds no record of that code keeps both: they end the
    chain of their bucket in that order, lookup of the code returns the
    first-inserted [r1], and the sorted listing contains the canonical code
    two more times than before (twice when it was absent).  Whatever the
    table held, the second insert changes the result of no lookup.

    In enhancement 1 records enter the table through [loadData] only.  For
    every file whose lines parse to records among which [r1] comes before
    [r2] and no record after [r2] has the code, whatever else the file
    holds, the load succeeds, the map holds [r2] under the canonical code,
    lookup of the code returns the last-inserted [r2], no lookup returns
    [r1] any more (when the two records differ), and the sorted listing
    still contains the canonical code once for [r1], once for [r2] and once
    for every other record with the code. *)
Theorem duplicate_code_keeps_both_records `{Platform} (r1 r2 : Course) :
  canonical r1 = canonical r2 →
  let key := canonical r1 in
  (∀ t : E2.HashTable,
     E2.dataLoaded t = true →
     E2.getCourse t (getCode r1) = thrown CourseNotFound →
     let t' := E2.insert (E2.insert t r1) r2 in
     let keys := sort (E2.courseOrder t ++ [key; key]) in
     E3.insert (E3.insert t r1) r2 = t' ∧
     E2.table t' !!! slot (E2.hash key) =
       E2.table t !!! slot (E2.hash key) ++ [r1; r2] ∧
     E2.getCourse t' (getCode r1) = returned r1 ∧
     E2.getCourse t' (getCode r2) = returned r1 ∧
     E3.getCourse t' (getCode r1) = returned r1 ∧
     (E2.getSortedCourseCodes t').1 = returned keys ∧
     length (filter (λ k, k = key) keys) =
       (2 + length (filter (λ k, k = key) (E2.courseOrder t)))%nat ∧
     (∀ code, E2.getCourse t' code = E2.getCourse (E2.insert t r1) code)) ∧
  (∀ (fs : filesystem) (filename contents : string)
     (before between after : list Course) (t1 : E1.HashTable),
     fs filename = Some contents →
     Forall2 (λ line r, parseCourse line = returned r)
       (file_lines contents) (before ++ r1 :: between ++ r2 :: after) →
     key ∉ canonical <$> after →
     let result := E1.loadData fs filename t1 in
     let keys :=
       sort (canonical <$> before ++ r1 :: between ++ r2 :: after) in
     result.1 = returned tt ∧
     E1.courseMap result.2 !! key = Some r2 ∧
     E1.getCourse result.2 (getCode r1) = returned r2 ∧
     E1.getCourse result.2 (getCode r2) = returned r2 ∧
     (r1 ≠ r2 → ∀ code, E1.getCourse result.2 code ≠ returned r1) ∧
     (E1.getSortedCourseCodes result.2).1 = returned keys ∧
     length (filter (λ k, k = key) keys) =
       (2 + length (filter (λ k, k = key) (canonical <$> before))
          + length (filter (λ k, k = key) (canonical <$> between)))%nat).
Proof.
  intros Hsame key. split.
  { intros t Hon Hfresh t' keys.
    assert (Hbucket : E2.table t' !!! slot (E2.hash key) =
                      E2.table t !!! slot (E2.hash key) ++ [r1; r2]).
    { unfold t'. rewrite !table_insert. rewrite <- Hsame. fold key.
      rewrite !decide_True by done. by rewrite <- app_assoc. }
    assert (Hget : E2.getCourse t' (getCode r1) = returned r1).
    { unfold E2.getCourse in *. rewrite Hon in Hfresh. simpl in Hfresh.
      unfold t' at 1. unfold E2.insert at 1 2. cbn [E2.dataLoaded].
      rewrite Hon. cbn [negb]. fold (canonical r1). fold key.
      rewrite Hbucket, find_in_chain_app. fold (canonical r1) in Hfresh.
      fold key in Hfresh. rewrite Hfresh. simpl.
      by rewrite bool_decide_eq_true_2. }
    split; [by rewrite !insert_E3|]. split; [done|]. split; [done|].
    split.
    { unfold E2.getCourse in *. fold (canonical r2). rewrite <- Hsame.
      exact Hget. }
    split; [by rewrite getCourse_E3|].
    split.
    { unfold E2.getSortedCourseCodes, t', E2.insert. cbn [E2.dataLoaded E2.courseOrder].
      rewrite Hon. cbn [negb fst]. fold (canonical r1) (canonical r2).
      rewrite <- Hsame. fold key. by rewrite <- app_assoc. }
    split.
    { unfold keys. rewrite sort_Permutation, filter_app, length_app.
      rewrite !filter_cons, !decide_True by done. simpl. lia. }
    intros code. unfold E2.getCourse.
    unfold t' at 1. unfold E2.insert at 1. cbn [E2.dataLoaded].
    destruct (negb (E2.dataLoaded (E2.insert t r1))); [done|].
    unfold t'. rewrite (table_insert (E2.insert t r1) r2).
    destruct (decide (slot (E2.hash (canonical r2)) = slot (E2.hash (toUpper code))))
      as [Hb|Hb]; [|done].
    rewrite find_in_chain_app.
    destruct (E2.find_in_chain _ (toUpper code)) as [r|e] eqn:Hfind; [done|].
    simpl. destruct (decide (toUpper (getCode r2) = toUpper code)) as [Hk|Hk].
    - exfalso. fold (canonical r2) in Hk. rewrite <- Hk, <- Hsame in Hfind.
      rewrite table_insert, decide_True in Hfind by done.
      destruct (find_in_chain_last (E2.table t !!! slot (E2.hash (canonical r1))) r1)
        as [r' Hr']. congruence.
    - rewrite bool_decide_eq_false_2 by done.
      by rewrite (find_in_chain_thrown _ _ _ Hfind). }
  intros fs filename contents before between after t1 Hfs Hparse Hlast
    result keys. subst result.
  set (rs := before ++ r1 :: between ++ r2 :: after) in *.
  rewrite (E1_loadData_spec fs filename contents) by done. cbv zeta.
  destruct (parsed_all _ _ 0%nat Hparse) as [-> ->]. cbn [fst snd].
  assert (Hfind : E2.find_in_chain (reverse rs) key = returned r2).
  { unfold rs. rewrite reverse_app, reverse_cons, reverse_app, reverse_cons.
    rewrite <- !app_assoc, find_in_chain_app.
    rewrite find_in_chain_absent
      by (by rewrite fmap_reverse, elem_of_reverse).
    cbn [app E2.find_in_chain]. fold (canonical r2). rewrite <- Hsame.
    fold key. by rewrite bool_decide_eq_true_2. }
  split; [done|]. split.
  { by rewrite E1_courseMap_stores, Hfind. }
  split.
  { rewrite E1_getCourse_stores. fold (canonical r1). by fold key. }
  split.
  { rewrite E1_getCourse_stores. fold (canonical r2). rewrite <- Hsame.
    by fold key. }
  split.
  { intros Hne code. rewrite E1_getCourse_stores. intros Hf.
    pose proof (find_in_chain_sound _ _ _ Hf) as [Hcanon _].
    fold key in Hcanon. rewrite <- Hcanon, Hfind in Hf. congruence. }
  split.
  { unfold E1.getSortedCourseCodes.
    rewrite E1_dataLoaded_stores, E1_courseOrder_stores.
    by cbn [E1.dataLoaded E1.courseOrder negb fst app]. }
  unfold keys, rs. rewrite sort_Permutation.
  rewrite fmap_app, fmap_cons, fmap_app, fmap_cons.
  rewrite filter_app, filter_cons, filter_app, filter_cons.
  fold key. rewrite <- Hsame. fold key. rewrite !decide_True by done.
  assert (Hnone : filter (λ k, k = key) (canonical <$> after) = []).
  { clear -Hlast. induction (canonical <$> after) as [|k l IH]; [done|].
    rewrite not_elem_of_cons in Hlast. destruct Hlast as [Hk Hl].
    rewrite filter_cons, decide_False by (intros Heq; by apply Hk). auto. }
  rewrite Hnone. rewrite !length_app. simpl. rewrite length_app. simpl. lia.
Qed.

Lemma duplicate_code_keeps_both_records_witness :
  let t := @courses_table signed_char_platform in
  let t' := @E2.insert signed_char_platform
              (@E2.insert signed_char_platform t CS301) cs301_again in
  let t1 := (E1.loadData sample_fs "repeated.csv" E1.HashTable_new).2 in
  (E2.dataLoaded t = true ∧ canonical CS301 = canonical cs301_again ∧
   @E2.getCourse signed_char_platform t "CS301" = thrown CourseNotFound) ∧
  @E2.getCourse signed_char_platform t' "CS301" = returned CS301 ∧
  (E2.getSortedCourseCodes t').1 =
    returned ["CS101"; "CS201"; "CS301"; "CS301"] ∧
  (canonical CS101 = canonical cs101_again ∧
   sample_fs "repeated.csv" = Some repeated_csv) ∧
  E1.getCourse t1 "CS101" = returned cs101_again ∧
  (E1.getSortedCourseCodes t1).1 = returned ["CS101"; "CS101"].
Proof.
  intros t t' t1. split; [by split_and!|].
  destruct (proj1 (@duplicate_code_keeps_both_records signed_char_platform
                     CS301 cs301_again eq_refl) t eq_refl eq_refl)
    as (_ & _ & Hget & _ & _ & Hkeys & _).
  split; [exact Hget|]. split; [exact Hkeys|]. split; [by split|].
  assert (Hparse : Forall2 (λ line r, parseCourse line = returned r)
                     (file_lines repeated_csv)
                     ([] ++ CS101 :: [] ++ cs101_again :: []))
    by by_evaluation.
  assert (Hlast : canonical CS101 ∉ canonical <$> ([] : list Course))
    by apply not_elem_of_nil.
  destruct (proj2 (@duplicate_code_keeps_both_records signed_char_platform
                     CS101 cs101_again eq_refl)
              sample_fs "repeated.csv" repeated_csv [] [] []
              E1.HashTable_new eq_refl Hparse Hlast)
    as (_ & _ & Hget1 & _ & _ & Hkeys1 & _).
  split; [exact Hget1|]. unfold t1. rewrite Hkeys1. by_evaluation.
Defined.

(** ** Clearing the table *)

(** C2, as stated, fails: after [clearTable] on a loaded table the loaded
    flag is still set and [courseOrder] still lists the codes, so the lookup
    of a code that was inserted fails with "Course not found.", which is not
    the state error. *)
Lemma clearTable_leaves_flag_and_order :
  let t := @courses_table_E3 signed_char_platform in
  let t' := E3.clearTable t in
  @E3.getCourse signed_char_platform t "CS101" = returned CS101 ∧
  @E3.getCourse signed_char_platform t' "CS101" = thrown CourseNotFound ∧
  ¬ StateError CourseNotFound ∧
  E2.dataLoaded t' = true ∧
  E2.courseOrder t' = ["CS101"; "CS201"].
Proof.
  cbv zeta. split_and!; by_evaluation.
Qed.

(** C2, amended.  [clearTable] empties every bucket and nothing else: the
    order vector and the loaded flag keep their values.  It is idempotent.
    Afterwards every lookup fails: with "Course not found." when the flag was
    set, with "No data loaded." when it was not.  The clearing [loadData]
    does before it reads ([courseOrder.clear()], then [clearTable()]), seen
    when the query cannot be prepared, empties buckets and order vector and
    still keeps the flag. *)
Theorem clearTable_empties_buckets_only `{Platform} (t : E2.HashTable) :
  let t' := E3.clearTable t in
  (∀ b : fin BUCKETS, E2.table t' !!! b = []) ∧
  E2.courseOrder t' = E2.courseOrder t ∧
  E2.dataLoaded t' = E2.dataLoaded t ∧
  E3.clearTable t' = t' ∧
  (∀ code, E3.getCourse t' code =
           if E2.dataLoaded t then thrown CourseNotFound
           else thrown NoDataLoaded) ∧
  E3.loadData cannot_prepare t =
    (thrown FailedToQueryDatabase,
     E2.mkHashTable (vreplicate BUCKETS []) [] (E2.dataLoaded t)).
Proof.
  intros t'. split_and!; try done.
  - intros b. unfold t', E3.clearTable. cbn [E2.table].
    apply vlookup_replicate.
  - intros code. rewrite getCourse_E3. unfold E2.getCourse, t', E3.clearTable.
    cbn [E2.table E2.dataLoaded]. destruct (E2.dataLoaded t); [|done].
    cbn [negb]. by rewrite vlookup_replicate.
Qed.

(** ** A load that fails partway *)

(** C3, as stated, fails for a table that was loaded before: [loadData]
    never turns the flag off, so after a load that throws on its second line
    the flag is still set and queries answer from the partial data instead
    of failing with the state error. *)
Lemma failed_reload_leaves_flag_set :
  let t := @courses_table signed_char_platform in
  let result := @E2.loadData signed_char_platform sample_fs "broken.csv" t in
  let result1 := E1.loadData sample_fs "broken.csv" courses_table_E1 in
  E2.dataLoaded t = true ∧
  result.1 = thrown (ErrorOnLine 2 MalformedLine) ∧
  E2.dataLoaded result.2 = true ∧
  @E2.getCourse signed_char_platform result.2 "CS201" = returned CS201 ∧
  @E2.getCourse signed_char_platform result.2 "CS101" = thrown CourseNotFound ∧
  (E2.getSortedCourseCodes result.2).1 = returned ["CS201"] ∧
  result1.1 = thrown (ErrorOnLine 2 MalformedLine) ∧
  E1.dataLoaded result1.2 = true ∧
  E1.getCourse result1.2 "CS201" = returned CS201.
Proof.
  cbv zeta. split_and!; by_evaluation.
Qed.

(** C3, amended.  When [loadData] throws partway (some line fails to
    parse after [good] lines were read), the exception names the line, and the
    loaded flag is what it was before the call: off for a table that was
    never loaded, whose queries then fail with the state error.  The buckets
    (the map, in enhancement 1) and the order vector were emptied and hold
    the records read before the failing line; nothing is rolled back. *)
Theorem failed_load_keeps_flag_and_partial_data `{Platform}
    (fs : filesystem) (filename contents : string)
    (good rest : list string) (bad : string) (rs : list Course)
    (e : exception) (t : E2.HashTable) (t1 : E1.HashTable) :
  fs filename = Some contents →
  file_lines contents = good ++ bad :: rest →
  Forall2 (λ line r, parseCourse line = returned r) good rs →
  parseCourse bad = thrown e →
  let result := E2.loadData fs filename t in
  let result1 := E1.loadData fs filename t1 in
  (result.1 = thrown (ErrorOnLine (length good + 1) e) ∧
   E2.dataLoaded result.2 = E2.dataLoaded t ∧
   E2.courseOrder result.2 = canonical <$> rs ∧
   (∀ b, E2.table result.2 !!! b =
         filter (λ r, slot (E2.hash (canonical r)) = b) rs) ∧
   (E2.dataLoaded t = false →
    ∀ code, E2.getCourse result.2 code = thrown NoDataLoaded ∧
            (E2.getSortedCourseCodes result.2).1 = thrown NoDataLoaded)) ∧
  (result1.1 = thrown (ErrorOnLine (length good + 1) e) ∧
   E1.dataLoaded result1.2 = E1.dataLoaded t1 ∧
   E1.courseOrder result1.2 = canonical <$> rs ∧
   (∀ key, E1.courseMap result1.2 !! key =
           match E2.find_in_chain (reverse rs) key with
           | returned r => Some r
           | thrown _ => None
           end) ∧
   (E1.dataLoaded t1 = false →
    ∀ code, E1.getCourse result1.2 code = thrown NoDataLoaded ∧
            (E1.getSortedCourseCodes result1.2).1 = thrown NoDataLoaded)).
Proof.
  intros Hfs Hlines Hgood Hbad result result1. subst result result1.
  rewrite (loadData_spec fs filename contents) by done.
  rewrite (E1_loadData_spec fs filename contents) by done.
  cbv zeta. rewrite Hlines.
  destruct (parsed_until good rest bad rs e 0 Hgood Hbad) as [-> ->].
  cbn [fst snd]. split.
  - split; [done|]. split; [by rewrite dataLoaded_inserts|].
    split; [by rewrite courseOrder_inserts|]. split.
    { intros b. rewrite table_inserts. cbn [E2.table].
      by rewrite vlookup_replicate. }
    intros Hoff code. unfold E2.getCourse, E2.getSortedCourseCodes.
    by rewrite dataLoaded_inserts; cbn [E2.dataLoaded]; rewrite Hoff.
  - split; [done|]. split; [by rewrite E1_dataLoaded_stores|].
    split; [by rewrite E1_courseOrder_stores|]. split.
    { intros key. rewrite E1_courseMap_stores. cbn [E1.courseMap].
      by rewrite lookup_empty. }
    intros Hoff code. unfold E1.getCourse, E1.getSortedCourseCodes.
    by rewrite E1_dataLoaded_stores; cbn [E1.dataLoaded]; rewrite Hoff.
Qed.

Lemma failed_load_keeps_flag_and_partial_data_witness :
  let result :=
    @E2.loadData signed_char_platform sample_fs "broken.csv" E2.HashTable_new in
  (sample_fs "broken.csv" = Some broken_csv ∧
   file_lines broken_csv =
     ["CS201,Data Structures,CS101"] ++ "CS101" :: ["CS301,Algorithms,CS201"] ∧
   parseCourse "CS101" = thrown MalformedLine) ∧
  result.1 = thrown (ErrorOnLine 2 MalformedLine) ∧
  E2.dataLoaded result.2 = false ∧
  E2.courseOrder result.2 = ["CS201"] ∧
  @E2.getCourse signed_char_platform result.2 "CS201" = thrown NoDataLoaded.
Proof.
  intros result. split; [by split_and!|].
  assert (Hgood : Forall2 (λ line r, parseCourse line = returned r)
                    ["CS201,Data Structures,CS101"] [CS201])
    by by_evaluation.
  destruct (@failed_load_keeps_flag_and_partial_data signed_char_platform
              sample_fs "broken.csv" broken_csv
              ["CS201,Data Structures,CS101"] ["CS301,Algorithms,CS201"]
              "CS101" [CS201] MalformedLine E2.HashTable_new E1.HashTable_new
              eq_refl eq_refl Hgood eq_refl)
    as [(Hthrown & Hflag & Horder & _ & Hoff) _].
  split; [exact Hthrown|]. split; [exact Hflag|]. split; [exact Horder|].
  exact (proj1 (Hoff eq_refl "CS201")).
Defined.

(** ** The three enhancements compared *)

(** C4, as stated, fails: on a source that repeats a code, enhancement 1
    returns the last record with that code, enhancements 2 and 3 the first. *)
Lemma enhancement1_differs_on_repeated_code :
  let s1 := (E1.loadData sample_fs "repeated.csv" E1.HashTable_new).2 in
  let s2 := (@E2.loadData signed_char_platform sample_fs "repeated.csv"
               E2.HashTable_new).2 in
  let s3 := (@E3.loadData signed_char_platform (result_rows repeated_rows)
               E3.HashTable_new).2 in
  E1.getCourse s1 "CS101" = returned cs101_again ∧
  @E2.getCourse signed_char_platform s2 "CS101" = returned CS101 ∧
  @E3.getCourse signed_char_platform s3 "CS101" = returned CS101 ∧
  E1.getCourse s1 "CS101" ≠ @E2.getCourse signed_char_platform s2 "CS101" ∧
  E1.getCourse s1 "CS101" ≠ @E3.getCourse signed_char_platform s3 "CS101".
Proof.
  assert (H1 : E1.getCourse
            (E1.loadData sample_fs "repeated.csv" E1.HashTable_new).2 "CS101"
            = returned cs101_again) by (vm_compute; reflexivity).
  assert (H2 : @E2.getCourse signed_char_platform
            (@E2.loadData signed_char_platform sample_fs "repeated.csv"
               E2.HashTable_new).2 "CS101" = returned CS101) by reflexivity.
  assert (H3 : @E3.getCourse signed_char_platform
            (@E3.loadData signed_char_platform (result_rows repeated_rows)
               E3.HashTable_new).2 "CS101" = returned CS101) by reflexivity.
  cbv zeta. rewrite H1, H2, H3. by split_and!.
Qed.

(** C4, amended.  Loaded from sources that deliver the same records [rs],
    enhancements 2 and 3 are in the same state and answer every lookup
    alike, returning the first record of [rs] with the canonical code;
    enhancement 1 returns the last such record; so the three agree on every
    lookup when the canonical codes of [rs] are pairwise distinct.  The three
    sorted listings are the same for every [rs], repeated codes included.
    Before any load all three fail with "No data loaded.". *)
Theorem enhancements_agree_on_distinct_codes `{Platform}
    (fs : filesystem) (filename contents : string)
    (rows : list (column * column * column)) (rs : list Course)
    (t1 : E1.HashTable) (t2 t3 : E2.HashTable) (code : string) :
  fs filename = Some contents →
  Forall2 (λ line r, parseCourse line = returned r) (file_lines contents) rs →
  Forall2 (λ row r, row_course row = returned r) rows rs →
  let s1 := (E1.loadData fs filename t1).2 in
  let s2 := (E2.loadData fs filename t2).2 in
  let s3 := (E3.loadData (result_rows rows) t3).2 in
  s3 = s2 ∧
  E3.getCourse s3 code = E2.getCourse s2 code ∧
  E2.getCourse s2 code = E2.find_in_chain rs (toUpper code) ∧
  E1.getCourse s1 code = E2.find_in_chain (reverse rs) (toUpper code) ∧
  (NoDup (canonical <$> rs) →
   E1.getCourse s1 code = E2.getCourse s2 code ∧
   E1.getCourse s1 code = E3.getCourse s3 code) ∧
  (E1.getSortedCourseCodes s1).1 = (E2.getSortedCourseCodes s2).1 ∧
  (E3.getSortedCourseCodes s3).1 = (E2.getSortedCourseCodes s2).1 ∧
  (E2.getSortedCourseCodes s2).1 = returned (sort (canonical <$> rs)) ∧
  E1.getCourse E1.HashTable_new code = E2.getCourse E2.HashTable_new code ∧
  E3.getCourse E3.HashTable_new code = E2.getCourse E2.HashTable_new code ∧
  E2.getCourse E2.HashTable_new code = thrown NoDataLoaded ∧
  (E1.getSortedCourseCodes E1.HashTable_new).1 = thrown NoDataLoaded ∧
  (E2.getSortedCourseCodes E2.HashTable_new).1 = thrown NoDataLoaded ∧
  (E3.getSortedCourseCodes E3.HashTable_new).1 = thrown NoDataLoaded.
Proof.
  intros Hfs Hlines Hrows s1 s2 s3. subst s1 s2 s3.
  rewrite (loadData_spec fs filename contents) by done.
  rewrite (E1_loadData_spec fs filename contents) by done.
  rewrite (loadData_E3_spec rows rs) by done.
  cbv zeta. destruct (parsed_all _ _ 0%nat Hlines) as [-> ->]. cbn [fst snd].
  change (@E3.getCourse H) with (@E2.getCourse H).
  change E3.getSortedCourseCodes with E2.getSortedCourseCodes.
  rewrite getCourse_inserts, E1_getCourse_stores.
  split; [done|]. split; [done|]. split; [done|]. split; [done|].
  split; [intros Hnd; by rewrite find_in_chain_reverse|].
  unfold E1.getSortedCourseCodes, E2.getSortedCourseCodes.
  rewrite dataLoaded_inserts, courseOrder_inserts.
  rewrite E1_dataLoaded_stores, E1_courseOrder_stores.
  by split_and!.
Qed.

Lemma enhancements_agree_on_distinct_codes_witness :
  let s1 := (E1.loadData sample_fs "courses.csv" E1.HashTable_new).2 in
  let s2 := (@E2.loadData signed_char_platform sample_fs "courses.csv"
               E2.HashTable_new).2 in
  let s3 := (@E3.loadData signed_char_platform (result_rows courses_rows)
               E3.HashTable_new).2 in
  (sample_fs "courses.csv" = Some courses_csv ∧
   NoDup (canonical <$> [CS101; CS201])) ∧
  s3 = s2 ∧
  E1.getCourse s1 "cs201" = @E2.getCourse signed_char_platform s2 "cs201" ∧
  E1.getCourse s1 "cs201" = @E3.getCourse signed_char_platform s3 "cs201" ∧
  (E1.getSortedCourseCodes s1).1 = (E2.getSortedCourseCodes s2).1.
Proof.
  intros s1 s2 s3.
  assert (Hnd : NoDup (canonical <$> [CS101; CS201]))
    by by_evaluation.
  assert (Hlines : Forall2 (λ line r, parseCourse line = returned r)
                     (file_lines courses_csv) [CS101; CS201])
    by by_evaluation.
  assert (Hrows : Forall2 (λ row r, @row_course signed_char_platform row
                                   = returned r)
                    courses_rows [CS101; CS201])
    by by_evaluation.
  split; [by split|].
  destruct (@enhancements_agree_on_distinct_codes signed_char_platform
              sample_fs "courses.csv" courses_csv courses_rows [CS101; CS201]
              E1.HashTable_new E2.HashTable_new E3.HashTable_new "cs201"
              eq_refl Hlines Hrows)
    as (Hstate & _ & _ & _ & Hagree & Hlist & _).
  split; [exact Hstate|]. destruct (Hagree Hnd) as [H12 H13].
  split; [exact H12|]. split; [exact H13|exact Hlist].
Defined.

(** * Further properties of the code *)

(** ** Upper-casing *)

Lemma toupper_idempotent (c : ascii) : toupper (toupper c) = toupper c.
Proof. by destruct c as [[] [] [] [] [] [] [] []]. Qed.

Lemma toupper_not_lower (c : ascii) :
  ¬ (97 ≤ N_of_ascii (toupper c) ≤ 122)%N.
Proof. destruct c as [[] [] [] [] [] [] [] []]; vm_compute; intros [H1 H2]; auto. Qed.

Lemma toUpper_idempotent (s : string) : toUpper (toUpper s) = toUpper s.
Proof. induction s as [|c s IH]; simpl; [done|]. by rewrite toupper_idempotent, IH. Qed.

Lemma toUpper_app (s s' : string) : toUpper (s +:+ s') = toUpper s +:+ toUpper s'.
Proof. induction s as [|c s IH]; simpl; [done|]. by rewrite IH. Qed.

(** X1.  [toUpper] yields a canonical form: applying it again changes
    nothing, the length is kept, it distributes over concatenation, and no
    lower-case letter is left in its result. *)
Theorem toUpper_canonical_form (s : string) :
  toUpper (toUpper s) = toUpper s ∧
  String.length (toUpper s) = String.length s ∧
  (∀ s', toUpper (s +:+ s') = toUpper s +:+ toUpper s') ∧
  Forall (λ c, ¬ (97 ≤ N_of_ascii c ≤ 122)%N) (list_ascii_of_string (toUpper s)).
Proof.
  split; [apply toUpper_idempotent|]. split.
  { induction s as [|c s IH]; simpl; [done|]. by rewrite IH. }
  split; [intros s'; apply toUpper_app|].
  induction s as [|c s IH]; simpl; [constructor|].
  constructor; [apply toupper_not_lower|exact IH].
Qed.

(** X2.  Lookup ignores letter case in each enhancement: two codes with the
    same upper-case form get the same answer from any table, and so do a
    code and its upper-case form. *)
Theorem getCourse_ignores_case `{Platform}
    (t : E2.HashTable) (t1 : E1.HashTable) (code code' : string) :
  toUpper code = toUpper code' →
  E2.getCourse t code = E2.getCourse t code' ∧
  E3.getCourse t code = E3.getCourse t code' ∧
  E1.getCourse t1 code = E1.getCourse t1 code' ∧
  E2.getCourse t (toUpper code) = E2.getCourse t code' ∧
  E3.getCourse t (toUpper code) = E3.getCourse t code' ∧
  E1.getCourse t1 (toUpper code) = E1.getCourse t1 code'.
Proof.
  intros Heq. unfold E2.getCourse, E3.getCourse, E1.getCourse.
  rewrite !toUpper_idempotent, !Heq. done.
Qed.

Lemma getCourse_ignores_case_witness :
  toUpper "cs201" = toUpper "Cs201" ∧
  @E2.getCourse signed_char_platform (@courses_table signed_char_platform) "cs201"
  = @E2.getCourse signed_char_platform (@courses_table signed_char_platform) "Cs201".
Proof.
  split; [reflexivity|].
  exact (proj1 (@getCourse_ignores_case signed_char_platform
                  (@courses_table signed_char_platform) courses_table_E1
                  "cs201" "Cs201" eq_refl)).
Defined.

(** X3.  Lookup in the chained table never answers with a record of another
    code: whatever the table holds, a record returned for a code has the
    code's canonical form as its own, and sits in the bucket the key hashes
    to. *)
Theorem getCourse_returns_matching_record `{Platform}
    (t : E2.HashTable) (code : string) (r : Course) :
  E2.getCourse t code = returned r →
  canonical r = toUpper code ∧
  r ∈ E2.table t !!! slot (E2.hash (toUpper code)) ∧
  E2.dataLoaded t = true ∧
  E3.getCourse t code = returned r.
Proof.
  intros Hget. assert (Hget3 : E3.getCourse t code = returned r)
    by (by rewrite getCourse_E3).
  unfold E2.getCourse in Hget. destruct (E2.dataLoaded t); [|done].
  simpl in Hget. apply find_in_chain_sound in Hget as [? ?]. done.
Qed.

Lemma getCourse_returns_matching_record_witness :
  @E2.getCourse signed_char_platform (@courses_table signed_char_platform) "cs201"
    = returned CS201 ∧
  canonical CS201 = toUpper "cs201".
Proof.
  assert (Hget : @E2.getCourse signed_char_platform
                   (@courses_table signed_char_platform) "cs201"
                 = returned CS201) by by_evaluation.
  split; [exact Hget|].
  exact (proj1 (@getCourse_returns_matching_record signed_char_platform
                  _ _ _ Hget)).
Defined.

(** ** Parsing a line *)

Lemma append_cons (c : ascii) (s s' : string) :
  String c s +:+ s' = String c (s +:+ s').
Proof. done. Qed.

Lemma append_assoc (s1 s2 s3 : string) : (s1 +:+ s2) +:+ s3 = s1 +:+ s2 +:+ s3.
Proof. induction s1 as [|c s1 IH]; [done|]. by rewrite !append_cons, IH. Qed.

Lemma append_nil_r (s : string) : s +:+ "" = s.
Proof. induction s as [|c s IH]; [done|]. by rewrite append_cons, IH. Qed.

Lemma extract_plain (d : ascii) (s : string) :
  occurs d s = false → extract d s = (s, None).
Proof.
  induction s as [|c s IH]; simpl; [done|].
  destruct (Ascii.eqb c d); simpl; [done|]. intros Hs. by rewrite IH.
Qed.

Lemma extract_until (d : ascii) (s rest : string) :
  occurs d s = false → extract d (s +:+ String d rest) = (s, Some rest).
Proof.
  induction s as [|c s IH]; simpl.
  - by rewrite Ascii.eqb_refl.
  - destruct (Ascii.eqb c d); simpl; [done|]. intros Hs. by rewrite IH.
Qed.

Lemma extract_spec (d : ascii) (s : string) :
  occurs d (extract d s).1 = false ∧
  match (extract d s).2 with
  | None => s = (extract d s).1
  | Some rest => s = (extract d s).1 +:+ String d rest
  end.
Proof.
  induction s as [|c s [IH1 IH2]]; simpl; [done|].
  destruct (Ascii.eqb c d) eqn:Hc; simpl.
  - apply Ascii.eqb_eq in Hc as ->. done.
  - destruct (extract d s) as [tok [rest|]]; simpl in *; rewrite Hc;
      split; try done; by rewrite IH2 at 1.
Qed.

Lemma getline_all_plain (d : ascii) (s : string) :
  Forall (λ tok, occurs d tok = false) (getline_all d s).
Proof.
  induction s as [|c s IH]; simpl; [constructor|].
  destruct (Ascii.eqb c d) eqn:Hc; [by constructor|].
  destruct (getline_all d s) as [|tok toks]; constructor; simpl;
    rewrite ?Hc; try done.
  - by inversion IH.
  - by inversion IH.
Qed.

Lemma getline_all_single (d : ascii) (s : string) :
  s ≠ "" → occurs d s = false → getline_all d s = [s].
Proof.
  induction s as [|c s IH]; simpl; [done|]. intros _.
  destruct (Ascii.eqb c d); simpl; [done|]. intros Hs.
  destruct s as [|c' s']; [done|]. by rewrite IH.
Qed.

Lemma getline_all_field (d : ascii) (s rest : string) :
  occurs d s = false →
  getline_all d (s +:+ String d rest) = s :: getline_all d rest.
Proof.
  induction s as [|c s IH]; simpl.
  - by rewrite Ascii.eqb_refl.
  - destruct (Ascii.eqb c d); simpl; [done|]. intros Hs. by rewrite IH.
Qed.

Lemma getline_all_joined (p : string) (ps : list string) :
  plain_field p → Forall plain_field ps →
  getline_all "," (p +:+ comma_joined ps) = p :: ps.
Proof.
  intros Hp Hps. revert p Hp.
  induction Hps as [|q qs Hq _ IH]; intros p [Hne Hp]; simpl.
  - rewrite append_nil_r. by apply getline_all_single.
  - change ("," +:+ q +:+ comma_joined qs)
      with (String "," (q +:+ comma_joined qs)).
    rewrite getline_all_field by done. by rewrite IH.
Qed.

Lemma nonempty_fields_plain (ps : list string) :
  Forall plain_field ps → nonempty_fields ps = ps.
Proof.
  unfold nonempty_fields. induction 1 as [|p ps [Hne _] _ IH]; [done|].
  by rewrite filter_cons, decide_True, IH.
Qed.

Lemma parseCourse_no_comma (line : string) :
  occurs "," line = false → parseCourse line = thrown MalformedLine.
Proof.
  intros Hline. unfold parseCourse, getline.
  destruct line as [|c line]; [done|].
  by rewrite extract_plain.
Qed.

Lemma parseCourse_fields (code rest : string) :
  occurs "," code = false →
  parseCourse (code +:+ String "," rest) =
  match rest with
  | EmptyString => thrown MalformedLine
  | _ =>
      Course_new code (extract "," rest).1
        (nonempty_fields (remaining_fields "," (extract "," rest).2))
  end.
Proof.
  intros Hcode. unfold parseCourse.
  assert (Hfirst : getline "," (Some (code +:+ String "," rest))
                   = Some (code, Some rest)).
  { unfold getline. rewrite <- (extract_until "," code rest Hcode).
    by destruct code. }
  rewrite Hfirst. destruct rest as [|c rest]; [done|].
  unfold getline. by destruct (extract "," (String c rest)).
Qed.

Lemma first_comma (line : string) :
  occurs "," line = true →
  ∃ code rest, occurs "," code = false ∧ line = code +:+ String "," rest.
Proof.
  intros Hline. destruct (extract_spec "," line) as [Hplain Hsplit].
  destruct (extract "," line) as [tok [rest|]]; simpl in *; [by eauto|].
  congruence.
Qed.

Lemma occurs_app (d : ascii) (s s' : string) :
  occurs d (s +:+ s') = occurs d s || occurs d s'.
Proof. induction s as [|c s IH]; simpl; [done|]. by rewrite IH, orb_assoc. Qed.

(** The text before the first comma is determined by the line. *)
Lemma first_comma_unique (code code' rest rest' : string) :
  occurs "," code = false → occurs "," code' = false →
  code +:+ String "," rest = code' +:+ String "," rest' →
  code = code' ∧ rest = rest'.
Proof.
  intros Hc Hc' Heq.
  pose proof (extract_until "," code rest Hc) as H1.
  pose proof (extract_until "," code' rest' Hc') as H2.
  rewrite Heq in H1. rewrite H1 in H2. by injection H2.
Qed.

Lemma Course_new_cases (c t : string) (p : list string) :
  Course_new c t p =
  if decide (c = "" ∨ t = "") then thrown InvalidCourseData
  else returned (mkCourse c t p).
Proof.
  unfold Course_new, validate. simpl.
  destruct (decide (c = "")) as [->|Hc]; [by rewrite decide_True by auto|].
  destruct (decide (t = "")) as [->|Ht].
  - rewrite (bool_decide_eq_false_2 (c = "")) by done. simpl.
    by rewrite decide_True by auto.
  - rewrite !bool_decide_eq_false_2 by done. simpl.
    rewrite decide_False; [done|]. by intros [|].
Qed.

Lemma parseCourse_joined (c t : string) (ps : list string) :
  plain_field c → plain_field t → Forall plain_field ps →
  parseCourse (c +:+ "," +:+ t +:+ comma_joined ps) = returned (mkCourse c t ps).
Proof.
  intros [Hc Hcp] [Ht Htp] Hps.
  change ("," +:+ t +:+ comma_joined ps) with (String "," (t +:+ comma_joined ps)).
  rewrite parseCourse_fields by done.
  assert (Hrest : (extract "," (t +:+ comma_joined ps)).1 = t ∧
                  nonempty_fields
                    (remaining_fields "," (extract "," (t +:+ comma_joined ps)).2)
                  = ps).
  { destruct Hps as [|p ps Hp Hps]; simpl.
    - rewrite append_nil_r. by rewrite extract_plain.
    - change ("," +:+ p +:+ comma_joined ps)
        with (String "," (p +:+ comma_joined ps)).
      rewrite extract_until by done. simpl.
      rewrite getline_all_joined by done.
      split; [done|]. apply nonempty_fields_plain. by constructor. }
  destruct Hrest as [-> ->].
  rewrite Course_new_cases, decide_False; [|by intros [|]].
  destruct (t +:+ comma_joined ps) eqn:Heq; [|done].
  destruct t; [done|]. discriminate.
Qed.

(** X4.  [parseCourse] inverts the joining of fields with commas: for a
    record whose code, title and prerequisites are non-empty and free of
    commas, parsing the line [code,title,prereq,...] returns the record;
    the line itself is comma-separated, with as many commas as the record
    has prerequisites plus one. *)
Theorem parseCourse_csv_line (r : Course) :
  plain_field (code r) →
  plain_field (title r) →
  Forall plain_field (prerequisites r) →
  parseCourse (csv_line r) = returned r ∧
  getline_all "," (csv_line r) = code r :: title r :: prerequisites r.
Proof.
  destruct r as [c t ps]. simpl. intros Hc Ht Hps. split.
  - by apply parseCourse_joined.
  - unfold csv_line. simpl.
    change ("," +:+ t +:+ comma_joined ps)
      with (comma_joined (t :: ps)).
    apply getline_all_joined; [done|]. by constructor.
Qed.

Lemma parseCourse_csv_line_witness :
  (plain_field (code CS201) ∧ plain_field (title CS201) ∧
   Forall plain_field (prerequisites CS201)) ∧
  csv_line CS201 = "CS201,Data Structures,CS101" ∧
  parseCourse (csv_line CS201) = returned CS201.
Proof.
  assert (H1 : plain_field (code CS201)) by (by split).
  assert (H2 : plain_field (title CS201)) by (by split).
  assert (H3 : Forall plain_field (prerequisites CS201))
    by (repeat constructor; done).
  split; [by split_and!|]. split; [reflexivity|].
  exact (proj1 (parseCourse_csv_line CS201 H1 H2 H3)).
Defined.

Lemma parseCourse_plain (line : string) (r : Course) :
  parseCourse line = returned r →
  plain_field (code r) ∧ plain_field (title r) ∧
  Forall plain_field (prerequisites r).
Proof.
  intros Hparse.
  destruct (occurs "," line) eqn:Hline;
    [|by rewrite parseCourse_no_comma in Hparse].
  destruct (first_comma line Hline) as (c & rest & Hc & ->).
  rewrite parseCourse_fields in Hparse by done.
  destruct rest as [|x rest]; [done|].
  remember (String x rest) as rest0 eqn:Hrest0.
  destruct (extract_spec "," rest0) as [Ht _].
  destruct (extract "," rest0) as [t stream]. simpl in Ht, Hparse.
  rewrite Course_new_cases in Hparse.
  destruct (decide _) as [|Hne]; [done|]. injection Hparse as <-. simpl.
  split; [split; [tauto|done]|]. split; [split; [tauto|done]|].
  unfold nonempty_fields, remaining_fields.
  destruct stream as [s|]; [|constructor].
  apply Forall_forall. intros p [Hp Hin]%list_elem_of_filter.
  split; [done|].
  by apply (proj1 (Forall_forall _ _) (getline_all_plain "," s)).
Qed.

(** X5.  Every record [parseCourse] returns is well-formed: its code and
    title are non-empty, no field contains a comma, no prerequisite is
    empty; code and title are the first two fields of the line. *)
Theorem parseCourse_returns_plain_fields (line : string) (r : Course) :
  parseCourse line = returned r →
  plain_field (code r) ∧
  plain_field (title r) ∧
  Forall plain_field (prerequisites r) ∧
  ∃ rest, line = code r +:+ "," +:+ title r +:+ rest ∧
          (rest = "" ∨ ∃ rest', rest = String "," rest').
Proof.
  intros Hparse.
  destruct (parseCourse_plain line r Hparse) as (Hcode & Htitle & Hprereqs).
  split; [done|]. split; [done|]. split; [done|].
  destruct (occurs "," line) eqn:Hline;
    [|by rewrite parseCourse_no_comma in Hparse].
  destruct (first_comma line Hline) as (c & rest & Hc & ->).
  rewrite parseCourse_fields in Hparse by done.
  destruct rest as [|x rest]; [done|].
  remember (String x rest) as rest0 eqn:Hrest0.
  destruct (extract_spec "," rest0) as [_ Hsplit].
  destruct (extract "," rest0) as [t stream]. simpl in Hsplit, Hparse.
  rewrite Course_new_cases in Hparse.
  destruct (decide _) as [|Hne]; [done|]. injection Hparse as <-. simpl.
  destruct stream as [s|].
  - exists (String "," s). split; [by rewrite Hsplit|eauto].
  - exists "". split; [|by left]. by rewrite append_nil_r, Hsplit.
Qed.

Lemma parseCourse_returns_plain_fields_witness :
  parseCourse "CS201,Data Structures,CS101,,X," =
    returned (mkCourse "CS201" "Data Structures" ["CS101"; "X"]) ∧
  Forall plain_field ["CS101"; "X"].
Proof.
  assert (Hp : parseCourse "CS201,Data Structures,CS101,,X," =
               returned (mkCourse "CS201" "Data Structures" ["CS101"; "X"]))
    by by_evaluation.
  split; [exact Hp|].
  exact (proj1 (proj2 (proj2 (parseCourse_returns_plain_fields _ _ Hp)))).
Defined.

(** X6.  The failures of [parseCourse].  It throws "Malformed line in
    file." exactly when the line has no title field: it contains no comma
    (the empty line included) or its only comma is its last character.  It
    throws the validation error exactly when a title field exists and the
    code or the title is empty: the line starts with a comma, or two commas
    follow the code directly.  It throws nothing else. *)
Theorem parseCourse_failures (line : string) :
  (parseCourse line = thrown MalformedLine ↔
   occurs "," line = false ∨
   ∃ code, occurs "," code = false ∧ line = code +:+ ",") ∧
  (parseCourse line = thrown InvalidCourseData ↔
   ∃ code rest, occurs "," code = false ∧ rest ≠ "" ∧
                line = code +:+ "," +:+ rest ∧
                (code = "" ∨ ∃ rest', rest = String "," rest')) ∧
  (∀ e, parseCourse line = thrown e →
        e = MalformedLine ∨ e = InvalidCourseData).
Proof.
  destruct (occurs "," line) eqn:Hline.
  - destruct (first_comma line Hline) as (c & rest & Hc & ->).
    assert (Htitle : rest ≠ "" →
              ((extract "," rest).1 = "" ↔ ∃ rest', rest = String "," rest')).
    { intros Hne. destruct rest as [|x rest]; [done|]. simpl.
      destruct (Ascii.eqb x ",") eqn:Hx.
      - apply Ascii.eqb_eq in Hx as ->. split; eauto.
      - destruct (extract "," rest). simpl. split; [done|].
        intros [rest' [= -> _]]. done. }
    rewrite parseCourse_fields by done.
    destruct rest as [|x rest].
    { split_and!.
      - split; [intros _; right; eauto|done].
      - split; [done|]. intros (c' & rest' & Hc' & Hne & Heq & _).
        change (c' +:+ "," +:+ rest') with (c' +:+ String "," rest') in Heq.
        by destruct (first_comma_unique _ _ _ _ Hc Hc' Heq) as [_ <-].
      - intros e [= <-]. by left. }
    set (rest0 := String x rest) in *.
    assert (Hne : rest0 ≠ "") by done. specialize (Htitle Hne).
    rewrite Course_new_cases. split_and!.
    + split; [by destruct (decide _)|].
      intros [Hno|(c' & Hc' & Heq)]; [done|].
      change (c' +:+ ",") with (c' +:+ String "," "") in Heq.
      by destruct (first_comma_unique _ _ _ _ Hc Hc' Heq) as [_ ?].
    + split.
      * destruct (decide _) as [Hempty|]; [|done]. intros _.
        exists c, rest0. split_and!; try done. tauto.
      * intros (c' & rest' & Hc' & Hne' & Heq & Hempty).
        change (c' +:+ "," +:+ rest') with (c' +:+ String "," rest') in Heq.
        destruct (first_comma_unique _ _ _ _ Hc Hc' Heq) as [<- <-].
        rewrite decide_True; [done|]. tauto.
    + intros e. destruct (decide _); [|done]. intros [= <-]. by right.
  - rewrite parseCourse_no_comma by done. split_and!.
    + split; [by left|done].
    + split; [done|]. intros (c' & rest' & _ & _ & -> & _).
      rewrite !occurs_app in Hline. simpl in Hline.
      by rewrite orb_true_r in Hline.
    + intros e [= <-]. by left.
Qed.

Lemma parseCourse_failures_witness :
  parseCourse "" = thrown MalformedLine ∧
  parseCourse "CS101," = thrown MalformedLine ∧
  parseCourse ",Intro to CS" = thrown InvalidCourseData.
Proof.
  split; [|split].
  - apply (proj1 (parseCourse_failures "")). by left.
  - apply (proj1 (parseCourse_failures "CS101,")). right. by exists "CS101".
  - apply (proj1 (proj2 (parseCourse_failures ",Intro to CS"))).
    exists "", "Intro to CS". split_and!; try done. by left.
Defined.

(** ** The order vector and the buckets *)

Section Consistency.
Context `{Platform}.

Lemma join_insert_snoc {A} (ls : list (list A)) (i : nat) (l : list A) (x : A) :
  ls !! i = Some l → mjoin (<[i := l ++ [x]]> ls) ≡ₚ x :: mjoin ls.
Proof.
  revert i. induction ls as [|l' ls IH]; intros [|i] Hi; simpl in *; try done.
  - injection Hi as ->. rewrite <- app_assoc. simpl.
    by rewrite Permutation_middle.
  - rewrite (IH i Hi). by rewrite Permutation_middle.
Qed.

Lemma all_records_insert (t : E2.HashTable) (c : Course) :
  all_records (E2.insert t c) ≡ₚ c :: all_records t.
Proof.
  unfold all_records, E2.insert. cbn [E2.table].
  rewrite vec_to_list_insert, append_node_app.
  apply join_insert_snoc. by apply vlookup_lookup.
Qed.

Lemma all_records_inserts (rs : list Course) (t : E2.HashTable) :
  all_records (foldl E2.insert t rs) ≡ₚ all_records t ++ rs.
Proof.
  revert t. induction rs as [|r rs IH]; intros t; simpl.
  - by rewrite app_nil_r.
  - rewrite IH, all_records_insert. simpl. by rewrite Permutation_middle.
Qed.

Lemma all_records_empty (order : list string) (flag : bool) :
  all_records (E2.mkHashTable (vreplicate BUCKETS []) order flag) = [].
Proof. done. Qed.

Lemma elem_of_all_records (t : E2.HashTable) (r : Course) :
  r ∈ all_records t ↔ ∃ b : fin BUCKETS, r ∈ E2.table t !!! b.
Proof.
  unfold all_records. rewrite list_elem_of_join. split.
  - intros (l & Hr & Hl). apply elem_of_vlookup in Hl as [b <-]. eauto.
  - intros [b Hr]. exists (E2.table t !!! b). split; [done|].
    apply elem_of_vlookup. eauto.
Qed.

Lemma consistent_insert (t : E2.HashTable) (c : Course) :
  consistent t → consistent (E2.insert t c).
Proof.
  intros [Hperm Hplace]. split.
  - rewrite all_records_insert. unfold E2.insert. cbn [E2.courseOrder].
    rewrite fmap_cons, Hperm. fold (canonical c).
    by rewrite <- Permutation_cons_append.
  - intros b r. rewrite table_insert.
    destruct (decide (slot (E2.hash (canonical c)) = b)) as [<-|]; [|auto].
    intros [Hr| ->%list_elem_of_singleton]%elem_of_app; auto.
Qed.

Lemma consistent_inserts (rs : list Course) (t : E2.HashTable) :
  consistent t → consistent (foldl E2.insert t rs).
Proof.
  revert t. induction rs as [|r rs IH]; intros t Ht; simpl; [done|].
  by apply IH, consistent_insert.
Qed.

Lemma consistent_empty (flag : bool) :
  consistent (E2.mkHashTable (vreplicate BUCKETS []) [] flag).
Proof.
  split; [done|]. intros b r. cbn [E2.table]. rewrite vlookup_replicate.
  by intros ?%elem_of_nil.
Qed.

Lemma consistent_loadData (fs : filesystem) (filename : string) (t : E2.HashTable) :
  consistent t → consistent (E2.loadData fs filename t).2.
Proof.
  intros Ht. destruct (fs filename) as [contents|] eqn:Hfs.
  - rewrite (loadData_spec fs filename contents) by done. cbv zeta.
    destruct (first_failure 0 (file_lines contents)); cbn [snd];
      apply consistent_inserts, consistent_empty.
  - unfold E2.loadData. by rewrite Hfs.
Qed.

Lemma consistent_getSortedCourseCodes (t : E2.HashTable) :
  consistent t → consistent (E2.getSortedCourseCodes t).2.
Proof.
  intros [Hperm Hplace]. unfold E2.getSortedCourseCodes.
  destruct (negb (E2.dataLoaded t)); [done|]. split; [|done].
  cbn [snd E2.courseOrder]. unfold all_records. cbn [E2.table].
  by rewrite sort_Permutation.
Qed.

Lemma reachable_consistent (fs : filesystem) (t : E2.HashTable) :
  reachable fs t → consistent t.
Proof.
  induction 1.
  - apply (consistent_empty false).
  - by apply consistent_insert.
  - by apply consistent_loadData.
  - by apply consistent_getSortedCourseCodes.
Qed.

(** In a consistent table that is loaded every listed code is found. *)
Lemma consistent_resolves (t : E2.HashTable) (key : string) :
  consistent t → E2.dataLoaded t = true → key ∈ E2.courseOrder t →
  ∃ r, E2.getCourse t key = returned r ∧ canonical r = key ∧ r ∈ all_records t.
Proof.
  intros [Hperm Hplace] Hon Hkey. rewrite Hperm in Hkey.
  apply list_elem_of_fmap in Hkey as (r0 & -> & Hr0).
  apply elem_of_all_records in Hr0 as [b Hr0].
  pose proof (Hplace b r0 Hr0) as <-.
  unfold E2.getCourse. rewrite Hon. cbn [negb].
  unfold canonical at 1 2. rewrite toUpper_idempotent. fold (canonical r0).
  destruct (find_in_chain_present
              (E2.table t !!! slot (E2.hash (canonical r0))) (canonical r0))
    as (r & Hfind & Hr & Hcanon).
  { by apply list_elem_of_fmap_2. }
  exists r. split_and!; try done. apply elem_of_all_records. eauto.
Qed.

End Consistency.

(** X7.  Every state of an enhancement-2 table that its public members
    can produce (constructor, [insert], [loadData], [getSortedCourseCodes],
    in any order, loads failing or not) is consistent: the order vector is a
    rearrangement of the canonical codes of the stored records, so it has as
    many entries as there are nodes, and each record is chained in the
    bucket its canonical code hashes to. *)
Theorem reachable_table_consistent `{Platform} (fs : filesystem)
    (t : E2.HashTable) :
  reachable fs t →
  E2.courseOrder t ≡ₚ canonical <$> all_records t ∧
  length (E2.courseOrder t) = length (all_records t) ∧
  (∀ (b : fin BUCKETS) (r : Course),
     r ∈ E2.table t !!! b → slot (E2.hash (canonical r)) = b) ∧
  (∀ key, key ∈ E2.courseOrder t ↔ ∃ r, r ∈ all_records t ∧ canonical r = key).
Proof.
  intros [Hperm Hplace]%reachable_consistent.
  split; [done|]. split; [by rewrite Hperm, length_fmap|]. split; [done|].
  intros key. rewrite Hperm, list_elem_of_fmap. split.
  - intros (r & -> & Hr). eauto.
  - intros (r & Hr & <-). eauto.
Qed.

Lemma reachable_table_consistent_witness :
  let t := (@E2.loadData signed_char_platform sample_fs "broken.csv"
              (@courses_table signed_char_platform)).2 in
  @reachable signed_char_platform sample_fs t ∧
  length (E2.courseOrder t) = length (all_records t).
Proof.
  intros t.
  assert (Hreach : @reachable signed_char_platform sample_fs t).
  { apply (@reachable_loadData signed_char_platform).
    apply (@reachable_loadData signed_char_platform _ E2.HashTable_new).
    apply (@reachable_new signed_char_platform). }
  split; [exact Hreach|].
  exact (proj1 (proj2 (@reachable_table_consistent signed_char_platform
                         sample_fs t Hreach))).
Defined.

(** X8.  On every reachable enhancement-2 table that is loaded, each code
    [getSortedCourseCodes] lists is found by [getCourse], with a stored
    record of that canonical code; the loop of the course list never meets
    "Course not found.". *)
Theorem listed_codes_are_found `{Platform} (fs : filesystem)
    (t : E2.HashTable) (keys : list string) (t' : E2.HashTable) :
  reachable fs t →
  E2.getSortedCourseCodes t = (returned keys, t') →
  ∀ key, key ∈ keys →
    ∃ r, E2.getCourse t' key = returned r ∧ canonical r = key ∧
         r ∈ all_records t'.
Proof.
  intros Hreach Hsorted key Hkey.
  assert (Ht' : t' = (E2.getSortedCourseCodes t).2) by (by rewrite Hsorted).
  assert (Hcons : consistent t').
  { rewrite Ht'. by apply consistent_getSortedCourseCodes,
                          (reachable_consistent fs). }
  unfold E2.getSortedCourseCodes in Hsorted.
  destruct (E2.dataLoaded t) eqn:Hon; [|done]. simpl in Hsorted.
  injection Hsorted as <- <-.
  by apply consistent_resolves.
Qed.

Lemma listed_codes_are_found_witness :
  let t := @reversed_table signed_char_platform in
  let t' := (E2.getSortedCourseCodes t).2 in
  (@reachable signed_char_platform sample_fs t ∧
   E2.getSortedCourseCodes t = (returned ["CS101"; "CS201"], t') ∧
   "CS201" ∈ ["CS101"; "CS201"]) ∧
  ∃ r, @E2.getCourse signed_char_platform t' "CS201" = returned r ∧
       canonical r = "CS201" ∧ r ∈ all_records t'.
Proof.
  intros t t'.
  assert (Hreach : @reachable signed_char_platform sample_fs t).
  { apply (@reachable_loadData signed_char_platform _ E2.HashTable_new).
    apply (@reachable_new signed_char_platform). }
  assert (Hsorted : E2.getSortedCourseCodes t = (returned ["CS101"; "CS201"], t'))
    by by_evaluation.
  assert (Hin : "CS201" ∈ ["CS101"; "CS201"]) by by_evaluation.
  split; [by split_and!|].
  exact (@listed_codes_are_found signed_char_platform sample_fs t _ t'
           Hreach Hsorted "CS201" Hin).
Defined.

(** ** Inserting and loading *)

(** X9.  How [insert] and [getCourse] compose in the chained table.  The
    insert leaves the loaded flag alone, so on a table that is not loaded the
    lookup still fails with "No data loaded.".  On a loaded table the lookup
    of the inserted record's code, in any letter case, returns the record
    that was found before, or the inserted record when none was; the lookup
    of every other code answers as before the insert. *)
Theorem getCourse_after_insert `{Platform}
    (t : E2.HashTable) (r : Course) (code : string) :
  E2.getCourse (E2.insert t r) code =
  if E2.dataLoaded t then
    if decide (toUpper code = canonical r) then
      match E2.getCourse t code with
      | returned found => returned found
      | thrown _ => returned r
      end
    else E2.getCourse t code
  else thrown NoDataLoaded.
Proof.
  unfold E2.getCourse.
  replace (E2.dataLoaded (E2.insert t r)) with (E2.dataLoaded t) by done.
  destruct (E2.dataLoaded t); [|done]. cbn [negb]. rewrite table_insert.
  destruct (decide (toUpper code = canonical r)) as [Hkey|Hkey].
  - rewrite <- Hkey, decide_True by done. rewrite find_in_chain_app.
    destruct (E2.find_in_chain _ (toUpper code)); [done|]. simpl.
    by rewrite bool_decide_eq_true_2.
  - destruct (decide _); [|done]. rewrite find_in_chain_app.
    destruct (E2.find_in_chain _ (toUpper code)) as [|err] eqn:Hfind; [done|].
    simpl. rewrite bool_decide_eq_false_2; [|by intros ?].
    by rewrite (find_in_chain_thrown _ _ _ Hfind).
Qed.

Lemma parsed_prefix_plain (lines : list string) :
  Forall (λ r, plain_field (code r) ∧ plain_field (title r) ∧
               Forall plain_field (prerequisites r))
         (parsed_prefix lines).
Proof.
  induction lines as [|line lines IH]; simpl; [constructor|].
  destruct (parseCourse line) as [r|] eqn:Hparse; [|constructor].
  constructor; [by apply (parseCourse_plain line)|done].
Qed.

Lemma toUpper_nonempty (s : string) : s ≠ "" → toUpper s ≠ "".
Proof. by destruct s. Qed.

(** X10.  What [loadData] stores is valid, whether the load succeeds or
    stops at a bad line: every record in a bucket has a non-empty code and
    title and comma-free fields, and every entry of the order vector is a
    non-empty string in upper-case form. *)
Theorem loadData_stores_valid_records `{Platform} (fs : filesystem)
    (filename contents : string) (t : E2.HashTable) :
  fs filename = Some contents →
  let t' := (E2.loadData fs filename t).2 in
  (∀ r, r ∈ all_records t' →
        plain_field (code r) ∧ plain_field (title r) ∧
        Forall plain_field (prerequisites r)) ∧
  (∀ key, key ∈ E2.courseOrder t' → key ≠ "" ∧ toUpper key = key).
Proof.
  intros Hfs t'.
  assert (Hshape : ∃ flag,
            t' = foldl E2.insert
                   (E2.mkHashTable (vreplicate BUCKETS []) [] flag)
                   (parsed_prefix (file_lines contents))).
  { unfold t'. rewrite (loadData_spec fs filename contents) by done. cbv zeta.
    destruct (first_failure 0 (file_lines contents)); eauto. }
  destruct Hshape as [flag ->].
  pose proof (parsed_prefix_plain (file_lines contents)) as Hplain.
  rewrite Forall_forall in Hplain. split.
  - intros r Hr. apply Hplain.
    by rewrite all_records_inserts, all_records_empty in Hr.
  - intros key. rewrite courseOrder_inserts. cbn [E2.courseOrder app].
    intros (r & -> & Hr)%list_elem_of_fmap.
    destruct (Hplain r Hr) as ([Hne _] & _). split.
    + by apply toUpper_nonempty.
    + apply toUpper_idempotent.
Qed.

Lemma loadData_stores_valid_records_witness :
  let t' := (@E2.loadData signed_char_platform sample_fs "broken.csv"
               E2.HashTable_new).2 in
  sample_fs "broken.csv" = Some broken_csv ∧
  all_records t' = [CS201] ∧
  plain_field (code CS201).
Proof.
  intros t'. split; [reflexivity|]. split; [by_evaluation|].
  assert (Hin : CS201 ∈ all_records t')
    by (replace (all_records t') with [CS201] by by_evaluation;
        apply list_elem_of_here).
  exact (proj1 (proj1 (@loadData_stores_valid_records signed_char_platform
                         sample_fs "broken.csv" broken_csv E2.HashTable_new
                         eq_refl) CS201 Hin)).
Defined.

Lemma inserts_any_flag `{Platform} (rs : list Course)
    (tb : vec (list Course) BUCKETS) (order : list string) (f f' : bool) :
  E2.table (foldl E2.insert (E2.mkHashTable tb order f) rs) =
    E2.table (foldl E2.insert (E2.mkHashTable tb order f') rs) ∧
  E2.courseOrder (foldl E2.insert (E2.mkHashTable tb order f) rs) =
    E2.courseOrder (foldl E2.insert (E2.mkHashTable tb order f') rs).
Proof.
  pose proof (inserts_flag rs (E2.mkHashTable tb order f) f') as Hf.
  cbn [E2.table E2.courseOrder] in Hf. by rewrite <- Hf.
Qed.

Lemma E1_stores_any_flag (rs : list Course)
    (m : gmap string Course) (order : list string) (f f' : bool) :
  E1.courseMap (foldl E1_store (E1.mkHashTable m order f) rs) =
    E1.courseMap (foldl E1_store (E1.mkHashTable m order f') rs) ∧
  E1.courseOrder (foldl E1_store (E1.mkHashTable m order f) rs) =
    E1.courseOrder (foldl E1_store (E1.mkHashTable m order f') rs).
Proof.
  pose proof (E1_stores_flag rs (E1.mkHashTable m order f) f') as Hf.
  cbn [E1.courseMap E1.courseOrder] in Hf. by rewrite <- Hf.
Qed.

(** X11.  [loadData] replaces the contents of the table: when the file
    opens, the outcome, the buckets (the map, in enhancement 1) and the order
    vector after the call do not depend on what the table held before; after
    a successful load the whole state does not, so loading the same file
    again changes nothing. *)
Theorem loadData_replaces_contents `{Platform} (fs : filesystem)
    (filename contents : string) (t u : E2.HashTable) (t1 u1 : E1.HashTable) :
  fs filename = Some contents →
  let r := E2.loadData fs filename t in
  let r1 := E1.loadData fs filename t1 in
  (r.1 = (E2.loadData fs filename u).1 ∧
   E2.table r.2 = E2.table (E2.loadData fs filename u).2 ∧
   E2.courseOrder r.2 = E2.courseOrder (E2.loadData fs filename u).2 ∧
   (r.1 = returned tt →
    r.2 = (E2.loadData fs filename u).2 ∧ E2.loadData fs filename r.2 = r)) ∧
  (r1.1 = (E1.loadData fs filename u1).1 ∧
   E1.courseMap r1.2 = E1.courseMap (E1.loadData fs filename u1).2 ∧
   E1.courseOrder r1.2 = E1.courseOrder (E1.loadData fs filename u1).2 ∧
   (r1.1 = returned tt →
    r1.2 = (E1.loadData fs filename u1).2 ∧ E1.loadData fs filename r1.2 = r1)).
Proof.
  intros Hfs r r1. subst r r1.
  rewrite !(loadData_spec fs filename contents) by done.
  rewrite !(E1_loadData_spec fs filename contents) by done. cbv zeta.
  destruct (first_failure 0 (file_lines contents)); cbn [fst snd].
  - split; (split; [done|]).
    + destruct (inserts_any_flag (parsed_prefix (file_lines contents))
                  (vreplicate BUCKETS []) [] (E2.dataLoaded t) (E2.dataLoaded u))
        as [-> ->]. done.
    + destruct (E1_stores_any_flag (parsed_prefix (file_lines contents))
                  ∅ [] (E1.dataLoaded t1) (E1.dataLoaded u1))
        as [-> ->]. done.
  - by split_and!.
Qed.

Lemma loadData_replaces_contents_witness :
  let r := @E2.loadData signed_char_platform sample_fs "courses.csv"
             (@reversed_table signed_char_platform) in
  sample_fs "courses.csv" = Some courses_csv ∧
  r.1 = returned tt ∧
  r.2 = (@E2.loadData signed_char_platform sample_fs "courses.csv"
           E2.HashTable_new).2 ∧
  @E2.loadData signed_char_platform sample_fs "courses.csv" r.2 = r.
Proof.
  intros r. split; [reflexivity|].
  assert (Hok : r.1 = returned tt) by by_evaluation.
  split; [exact Hok|].
  exact (proj2 (proj2 (proj2 (proj1
    (@loadData_replaces_contents signed_char_platform sample_fs "courses.csv"
       courses_csv (@reversed_table signed_char_platform) E2.HashTable_new
       E1.HashTable_new E1.HashTable_new eq_refl)))) Hok).
Defined.

(** X12.  An empty source is not an error: loading an empty file (or a
    query result without rows) succeeds and leaves a loaded table without
    courses, on which the listing is empty and every lookup fails with
    "Course not found.". *)
Theorem empty_source_loads `{Platform} (fs : filesystem) (filename : string)
    (t t3 : E2.HashTable) (t1 : E1.HashTable) :
  fs filename = Some "" →
  let empty := E2.mkHashTable (vreplicate BUCKETS []) [] true in
  let empty1 := E1.mkHashTable ∅ [] true in
  E2.loadData fs filename t = (returned tt, empty) ∧
  E3.loadData (result_rows []) t3 = (returned tt, empty) ∧
  E1.loadData fs filename t1 = (returned tt, empty1) ∧
  E2.getSortedCourseCodes empty = (returned [], empty) ∧
  E1.getSortedCourseCodes empty1 = (returned [], empty1) ∧
  (∀ code, E2.getCourse empty code = thrown CourseNotFound ∧
           E1.getCourse empty1 code = thrown CourseNotFound).
Proof.
  intros Hfs empty empty1.
  split; [by unfold E2.loadData; rewrite Hfs|].
  split; [done|].
  split; [by unfold E1.loadData; rewrite Hfs|].
  split; [done|]. split; [done|].
  intros code. split.
  - unfold E2.getCourse, empty. cbn [E2.dataLoaded E2.table negb].
    by rewrite vlookup_replicate.
  - unfold E1.getCourse, empty1. cbn [E1.dataLoaded E1.courseMap negb].
    by rewrite lookup_empty.
Qed.

Lemma empty_source_loads_witness :
  let fs : filesystem := λ _, Some "" in
  fs "empty.csv" = Some "" ∧
  @E2.loadData signed_char_platform fs "empty.csv"
      (@courses_table signed_char_platform)
  = (returned tt, E2.mkHashTable (vreplicate BUCKETS []) [] true).
Proof.
  intros fs. split; [reflexivity|].
  exact (proj1 (@empty_source_loads signed_char_platform fs "empty.csv"
                  (@courses_table signed_char_platform) E2.HashTable_new
                  E1.HashTable_new eq_refl)).
Defined.

(** ** Enhancements 1 and 3 *)

(** X13.  Loading in enhancement 1: when the lines of the file parse to
    records with pairwise distinct canonical codes, [loadData] succeeds,
    [getCourse] of the code of each loaded record returns that record, and
    [getSortedCourseCodes] returns the canonical codes in ascending order,
    one for each record. *)
Theorem E1_load_distinct_lookup_and_listing (fs : filesystem)
    (filename contents : string) (rs : list Course) (t : E1.HashTable) :
  fs filename = Some contents →
  Forall2 (λ line r, parseCourse line = returned r) (file_lines contents) rs →
  NoDup (canonical <$> rs) →
  let result := E1.loadData fs filename t in
  result.1 = returned tt ∧
  (∀ r, r ∈ rs → E1.getCourse result.2 (getCode r) = returned r) ∧
  (E1.getSortedCourseCodes result.2).1 = returned (sort (canonical <$> rs)) ∧
  sort (canonical <$> rs) ≡ₚ canonical <$> rs ∧
  Sorted String.le (sort (canonical <$> rs)) ∧
  size (E1.courseMap result.2) = length rs.
Proof.
  intros Hfs Hparse Hnd result. subst result.
  rewrite (E1_loadData_spec fs filename contents) by done. cbv zeta.
  destruct (parsed_all _ _ 0%nat Hparse) as [-> ->]. cbn [fst snd].
  split; [done|]. split.
  { intros r Hr. rewrite E1_getCourse_stores, find_in_chain_reverse by done.
    by apply find_in_chain_NoDup. }
  split.
  { unfold E1.getSortedCourseCodes.
    by rewrite E1_dataLoaded_stores, E1_courseOrder_stores. }
  split; [apply sort_Permutation|]. split; [apply sort_Sorted|].
  clear Hparse Hfs.
  assert (Hgen : ∀ t0 : E1.HashTable,
            (∀ r, r ∈ rs → E1.courseMap t0 !! canonical r = None) →
            size (E1.courseMap (foldl E1_store t0 rs))
            = (size (E1.courseMap t0) + length rs)%nat).
  { induction rs as [|r rs IH]; intros t0 Hfresh; simpl; [lia|].
    apply NoDup_cons in Hnd as [Hr Hnd]. rewrite IH; [|done|].
    - cbn [E1_store E1.courseMap]. rewrite map_size_insert_None; [lia|].
      apply Hfresh, list_elem_of_here.
    - intros r' Hr'. cbn [E1_store E1.courseMap].
      rewrite lookup_insert_ne.
      + by apply Hfresh, list_elem_of_further.
      + intros Heq. apply Hr. rewrite Heq. by apply list_elem_of_fmap_2. }
  rewrite Hgen; [cbn [E1.courseMap]; by rewrite map_size_empty|].
  intros. apply lookup_empty.
Qed.

Lemma E1_load_distinct_lookup_and_listing_witness :
  let t := (E1.loadData sample_fs "reversed.csv" E1.HashTable_new).2 in
  NoDup (canonical <$> [CS201; CS101]) ∧
  E1.getCourse t "CS101" = returned CS101 ∧
  (E1.getSortedCourseCodes t).1 = returned ["CS101"; "CS201"].
Proof.
  assert (Hparse : Forall2 (λ line r, parseCourse line = returned r)
                     (file_lines reversed_csv) [CS201; CS101])
    by by_evaluation.
  assert (Hnd : NoDup (canonical <$> [CS201; CS101])) by by_evaluation.
  destruct (E1_load_distinct_lookup_and_listing sample_fs "reversed.csv"
              reversed_csv [CS201; CS101] E1.HashTable_new eq_refl Hparse Hnd)
    as (_ & Hget & Hlist & _).
  split; [exact Hnd|].
  split; [apply (Hget CS101); apply list_elem_of_further, list_elem_of_here|].
  rewrite Hlist. by_evaluation.
Defined.

Lemma c_str_plain (bytes : string) :
  occurs "000" bytes = false → c_str bytes = bytes.
Proof.
  induction bytes as [|ch rest IH]; simpl; [done|].
  destruct (Ascii.eqb ch "000"); [done|]. simpl. intros Hrest. by rewrite IH.
Qed.

Lemma c_str_cut (text rest : string) :
  occurs "000" text = false → c_str (text +:+ String "000" rest) = text.
Proof.
  induction text as [|ch text IH]; [done|]. simpl.
  destruct (Ascii.eqb ch "000"); [done|]. simpl. intros Htext. by rewrite IH.
Qed.

Lemma row_course_valid `{Platform} (row : column * column * column) :
  row_course row =
  if decide (row_valid row) then returned (row_record row)
  else thrown (row_failure row).
Proof.
  destruct row as [[[c|] [ti|]] [p|]];
    unfold row_course, row_valid, row_record, row_failure;
    cbn [fst snd E3.string_of_column column_text];
    try rewrite Course_new_cases;
    repeat case_decide; try done; exfalso;
    repeat match goal with
           | Hc : _ ∧ _ |- _ => destruct Hc
           | Hc : is_Some None |- _ => by destruct Hc
           end;
    try tauto.
  all: match goal with Hc : ¬ _ |- _ => apply Hc end; split_and!; eauto; tauto.
Qed.


Lemma load_rows_valid `{Platform} (rows : list (column * column * column))
    (t : E2.HashTable) :
  Forall row_valid rows →
  E3.load_rows rows t = (returned tt, foldl E2.insert t (row_record <$> rows)).
Proof.
  intros Hrows. apply load_rows_spec.
  induction Hrows as [|row rows Hrow _ IH]; simpl; constructor; [|done].
  by rewrite row_course_valid, decide_True.
Qed.


(** X14.  Loading in enhancement 3: when no row has a NULL column or an
    empty code or title (each column read up to its first zero byte),
    [loadData] succeeds and stores one record per row, with the prerequisite
    column split at commas and empty pieces dropped; when codes are pairwise
    distinct up to letter case, [getCourse] of each row's code returns the
    row's record, and [getSortedCourseCodes] returns the upper-cased codes in
    ascending order.  What follows a zero byte in a column is not stored. *)
Theorem E3_load_distinct_lookup_and_listing `{Platform}
    (rows : list (column * column * column)) (t : E2.HashTable) :
  Forall row_valid rows →
  NoDup (canonical <$> (row_record <$> rows)) →
  let result := E3.loadData (result_rows rows) t in
  result.1 = returned tt ∧
  all_records result.2 ≡ₚ row_record <$> rows ∧
  (∀ row, row ∈ rows →
     E3.getCourse result.2 (column_text row.1.1) = returned (row_record row)) ∧
  (E3.getSortedCourseCodes result.2).1 =
    returned (sort (canonical <$> (row_record <$> rows))) ∧
  Sorted String.le (sort (canonical <$> (row_record <$> rows))) ∧
  (∀ code title junk pStr,
     occurs "000" code = false →
     (Some (code +:+ String "000" junk), Some title, Some pStr) ∈ rows →
     ∃ r, E3.getCourse result.2 code = returned r ∧ getCode r = code).
Proof.
  intros Hrows Hnd result. subst result.
  unfold E3.loadData, E3.clearTable. cbn [E2.courseOrder E2.dataLoaded].
  rewrite load_rows_valid by done. cbn [fst snd].
  rewrite inserts_flag. cbn [E2.table E2.courseOrder].
  assert (Hget : ∀ row, row ∈ rows →
            E3.getCourse
              (foldl E2.insert
                 (E2.mkHashTable (vreplicate BUCKETS []) [] true)
                 (row_record <$> rows)) (column_text row.1.1)
            = returned (row_record row)).
  { intros row Hrow.
    change (@E3.getCourse H) with (@E2.getCourse H).
    rewrite getCourse_inserts.
    change (toUpper (column_text row.1.1)) with (canonical (row_record row)).
    apply find_in_chain_NoDup; [done|]. by apply list_elem_of_fmap_2. }
  split; [done|]. split.
  { by rewrite all_records_inserts, all_records_empty. }
  split; [exact Hget|].
  split.
  { change E3.getSortedCourseCodes with E2.getSortedCourseCodes.
    unfold E2.getSortedCourseCodes.
    by rewrite dataLoaded_inserts, courseOrder_inserts. }
  split; [apply sort_Sorted|].
  intros code title junk pStr Hcode Hrow.
  exists (row_record (Some (code +:+ String "000" junk), Some title, Some pStr)).
  pose proof (Hget _ Hrow) as Hfound.
  cbn [fst snd column_text] in Hfound. rewrite c_str_cut in Hfound by done.
  split; [exact Hfound|]. unfold row_record, getCode. simpl.
  by apply c_str_cut.
Qed.

Lemma E3_load_distinct_lookup_and_listing_witness :
  let rows := [(Some "CS101", Some "Intro to CS", Some EmptyString);
               (Some ("CS201" +:+ String "000" "junk"),
                Some "Data Structures", Some "CS101")] in
  let t := (@E3.loadData signed_char_platform (result_rows rows)
              E3.HashTable_new).2 in
  (Forall row_valid rows ∧
   NoDup (canonical <$> (row_record <$> rows))) ∧
  @E3.getCourse signed_char_platform t "CS201" = returned CS201.
Proof.
  intros rows t.
  assert (Hrows : Forall row_valid rows).
  { repeat constructor; eauto; by_evaluation. }
  assert (Hnd : NoDup (canonical <$> (row_record <$> rows)))
    by by_evaluation.
  destruct (@E3_load_distinct_lookup_and_listing signed_char_platform
              rows E3.HashTable_new Hrows Hnd) as (_ & _ & Hget & _).
  split; [by split|].
  apply (Hget (Some ("CS201" +:+ String "000" "junk"),
               Some "Data Structures", Some "CS101")).
  apply list_elem_of_further, list_elem_of_here.
Defined.




Lemma E1_size_stores (rs : list Course) (t : E1.HashTable) :
  (size (E1.courseMap (foldl E1_store t rs))
   ≤ size (E1.courseMap t) + length rs)%nat.
Proof.
  revert t. induction rs as [|r rs IH]; intros t; simpl; [lia|].
  etrans; [apply IH|]. cbn [E1_store E1.courseMap]. rewrite map_size_insert.
  destruct (E1.courseMap t !! canonical r); simpl; lia.
Qed.

(** X16.  In enhancement 1 the map and the order vector agree after every
    load that opened its file, failed or not: a key is listed exactly when
    the map holds it, the record stored under a key has that key as its
    canonical code and is well-formed, and the map holds at most as many
    records as the vector has entries.  So on a loaded table every listed
    code is found. *)
Theorem E1_map_matches_order (fs : filesystem) (filename contents : string)
    (t : E1.HashTable) :
  fs filename = Some contents →
  let t' := (E1.loadData fs filename t).2 in
  (∀ key, key ∈ E1.courseOrder t' ↔ is_Some (E1.courseMap t' !! key)) ∧
  (∀ key r, E1.courseMap t' !! key = Some r →
     canonical r = key ∧ plain_field (code r) ∧ plain_field (title r)) ∧
  (size (E1.courseMap t') ≤ length (E1.courseOrder t'))%nat ∧
  (E1.dataLoaded t' = true →
   ∀ key, key ∈ E1.courseOrder t' →
     ∃ r, E1.getCourse t' key = returned r ∧ canonical r = key).
Proof.
  intros Hfs t'.
  assert (Hshape : ∃ flag,
            t' = foldl E1_store (E1.mkHashTable ∅ [] flag)
                   (parsed_prefix (file_lines contents))).
  { unfold t'. rewrite (E1_loadData_spec fs filename contents) by done.
    cbv zeta. destruct (first_failure 0 (file_lines contents)); eauto. }
  destruct Hshape as [flag Ht']. clearbody t'. subst t'.
  set (rs := parsed_prefix (file_lines contents)).
  pose proof (parsed_prefix_plain (file_lines contents)) as Hplain.
  fold rs in Hplain. rewrite Forall_forall in Hplain.
  assert (Hmap : ∀ key,
            E1.courseMap (foldl E1_store (E1.mkHashTable ∅ [] flag) rs) !! key =
            match E2.find_in_chain (reverse rs) key with
            | returned r => Some r
            | thrown _ => None
            end).
  { intros key. rewrite E1_courseMap_stores. cbn [E1.courseMap].
    by rewrite lookup_empty. }
  assert (Hlisted : ∀ key,
            key ∈ E1.courseOrder (foldl E1_store (E1.mkHashTable ∅ [] flag) rs)
            ↔ key ∈ canonical <$> reverse rs).
  { intros key. rewrite E1_courseOrder_stores. cbn [E1.courseOrder app].
    by rewrite fmap_reverse, elem_of_reverse. }
  split_and!.
  - intros key. rewrite Hlisted, Hmap. split.
    + intros (r & -> & _ & _)%find_in_chain_present. by eexists.
    + destruct (E2.find_in_chain (reverse rs) key) as [r|] eqn:Hfind;
        [|by intros [? ?]].
      intros _. apply find_in_chain_sound in Hfind as [<- Hr].
      by apply list_elem_of_fmap_2.
  - intros key r. rewrite Hmap.
    destruct (E2.find_in_chain (reverse rs) key) as [r'|] eqn:Hfind; [|done].
    intros [= ->]. apply find_in_chain_sound in Hfind as [<- Hr].
    rewrite elem_of_reverse in Hr. destruct (Hplain r Hr) as (? & ? & _). done.
  - etrans; [apply E1_size_stores|]. rewrite E1_courseOrder_stores.
    cbn [E1.courseMap E1.courseOrder app].
    rewrite map_size_empty, length_fmap. lia.
  - intros Hon key Hkey. apply Hlisted in Hkey.
    destruct (find_in_chain_present _ _ Hkey) as (r & Hfind & _ & Hcanon).
    exists r. split; [|done]. unfold E1.getCourse. rewrite Hon. cbn [negb].
    rewrite <- Hcanon at 1. unfold canonical at 1.
    rewrite toUpper_idempotent. fold (canonical r). rewrite Hcanon.
    by rewrite Hmap, Hfind.
Qed.

Lemma E1_map_matches_order_witness :
  let t' := (E1.loadData sample_fs "repeated.csv" E1.HashTable_new).2 in
  sample_fs "repeated.csv" = Some repeated_csv ∧
  E1.courseOrder t' = ["CS101"; "CS101"] ∧
  (size (E1.courseMap t') ≤ length (E1.courseOrder t'))%nat.
Proof.
  intros t'. split; [reflexivity|]. split; [by_evaluation|].
  exact (proj1 (proj2 (proj2 (E1_map_matches_order sample_fs "repeated.csv"
                                repeated_csv E1.HashTable_new eq_refl)))).
Defined.

(** ** The menu loop of enhancement 2 *)

Section MenuLoop.
Context `{Platform}.

Lemma getline_into_line (line rest x : string) :
  occurs "010" line = false →
  getline_into (Some (line +:+ endl +:+ rest)) x = (line, Some rest).
Proof.
  intros Hline. unfold getline_into.
  change (line +:+ endl +:+ rest) with (line +:+ String "010" rest).
  rewrite <- (extract_until "010" line rest Hline). by destruct line.
Qed.

Lemma print_course_list_found (t : E2.HashTable) (keys : list string) :
  (∀ key, key ∈ keys →
     ∃ r, E2.getCourse t key = returned r ∧ canonical r = key ∧
          r ∈ all_records t) →
  ∃ courses,
    E2.print_course_list t keys = (listing courses, None) ∧
    canonical <$> courses = keys ∧
    Forall (λ r, r ∈ all_records t) courses.
Proof.
  induction keys as [|key keys IH]; intros Hfound.
  - by exists [].
  - destruct (Hfound key) as (r & Hget & Hcanon & Hin); [apply list_elem_of_here|].
    destruct IH as (courses & Hprint & Hkeys & Hall).
    { intros k Hk. by apply Hfound, list_elem_of_further. }
    exists (r :: courses). split_and!.
    + simpl. by rewrite Hget, Hprint.
    + by rewrite fmap_cons, Hkeys, Hcanon.
    + by constructor.
Qed.

Lemma print_prereqs_concat (prereqs : list string) :
  E2.print_prereqs prereqs = String.concat ", " prereqs.
Proof.
  induction prereqs as [|p rest IH]; [done|]. simpl. rewrite IH.
  destruct rest; [|done]. by rewrite append_nil_r.
Qed.

Lemma iteration_at_end (fs : filesystem) (t : E2.HashTable) (choice : string) :
  choice ≠ "9" →
  ∃ out t',
    E2.iteration fs (E2.mkSession t choice None)
    = (out, E2.next_iteration, E2.mkSession t' choice None).
Proof.
  intros Hnot. unfold E2.iteration, E2.try_block, getline_into.
  cbn [E2.cin E2.userInput E2.hashTable].
  destruct (bool_decide (choice = "1") || bool_decide (choice = "4")).
  { destruct (bool_decide (choice = "4"));
      destruct (E2.loadData fs _ t) as [[[]|e] t']; eauto. }
  destruct (bool_decide (choice = "2")).
  { destruct (E2.getSortedCourseCodes t) as [[codes|e] t']; [|eauto].
    destruct (E2.print_course_list t' codes) as [out [e|]]; eauto. }
  destruct (bool_decide (choice = "3")).
  { destruct (E2.getCourse t choice); eauto. }
  rewrite bool_decide_eq_false_2 by done. eauto.
Qed.

Lemma iteration_course_list (fs : filesystem) (t : E2.HashTable)
    (previous rest : string) :
  consistent t →
  E2.dataLoaded t = true →
  ∃ courses,
    E2.iteration fs (E2.mkSession t previous (Some ("2" +:+ endl +:+ rest))) =
    (E2.displayMenu +:+ listing courses +:+ endl, E2.next_iteration,
     E2.mkSession (E2.mkHashTable (E2.table t) (sort (E2.courseOrder t)) true)
                  "2" (Some rest)) ∧
    canonical <$> courses = sort (E2.courseOrder t) ∧
    Forall (λ r, r ∈ all_records t) courses.
Proof.
  intros Hcons Hon.
  set (t' := E2.mkHashTable (E2.table t) (sort (E2.courseOrder t)) true).
  assert (Hsorted : E2.getSortedCourseCodes t
                    = (returned (sort (E2.courseOrder t)), t')).
  { unfold E2.getSortedCourseCodes. by rewrite Hon. }
  destruct (print_course_list_found t' (sort (E2.courseOrder t)))
    as (courses & Hprint & Hkeys & Hall).
  { intros key Hkey. assert (Hcons' : consistent t').
    { replace t' with (E2.getSortedCourseCodes t).2 by (by rewrite Hsorted).
      by apply consistent_getSortedCourseCodes. }
    by apply consistent_resolves. }
  exists courses. split; [|by split].
  unfold E2.iteration. cbn [E2.cin E2.userInput E2.hashTable].
  rewrite getline_into_line by done.
  unfold E2.try_block. cbn [E2.cin E2.userInput E2.hashTable].
  change (bool_decide ("2" = "1") || bool_decide ("2" = "4")) with false.
  change (bool_decide ("2" = "2")) with true. cbv iota.
  by rewrite Hsorted, Hprint.
Qed.

Lemma iteration_load_default (fs : filesystem) (contents : string)
    (rs : list Course) (t : E2.HashTable) (previous rest : string) :
  fs "Program_Input.csv" = Some contents →
  Forall2 (λ line r, parseCourse line = returned r) (file_lines contents) rs →
  E2.iteration fs (E2.mkSession t previous (Some ("1" +:+ endl +:+ rest))) =
  (E2.displayMenu +:+ ("Success: Data loaded from Program_Input.csv" +:+ endl)
     +:+ endl,
   E2.next_iteration,
   E2.mkSession
     (foldl E2.insert (E2.mkHashTable (vreplicate BUCKETS []) [] true) rs)
     "1" (Some rest)).
Proof.
  intros Hfs Hparse. unfold E2.iteration.
  cbn [E2.cin E2.userInput E2.hashTable].
  rewrite getline_into_line by done.
  unfold E2.try_block. cbn [E2.cin E2.userInput E2.hashTable].
  change (bool_decide ("1" = "1") || bool_decide ("1" = "4")) with true.
  change (bool_decide ("1" = "1")) with true.
  change (bool_decide ("1" = "4")) with false. cbv iota.
  rewrite (loadData_spec fs _ contents) by done. cbv zeta.
  destruct (parsed_all _ _ 0%nat Hparse) as [-> ->]. done.
Qed.

Lemma iteration_exit (fs : filesystem) (t : E2.HashTable)
    (previous rest : string) :
  E2.iteration fs (E2.mkSession t previous (Some ("9" +:+ endl +:+ rest))) =
  (E2.displayMenu, E2.leave_loop, E2.mkSession t "9" (Some rest)).
Proof.
  unfold E2.iteration. cbn [E2.cin E2.userInput E2.hashTable].
  by rewrite getline_into_line.
Qed.

(** The same passes in enhancement 3. *)






End MenuLoop.

(** X17.  Selection 2 of the menu on a reachable, loaded table writes one
    line [code: title] for each entry of the order vector, in ascending
    order of the canonical codes, each line taken from a stored record of
    that canonical code; no "SYSTEM ERROR" is written, the loop goes on, and
    the only change to the table is that its order vector is sorted. *)
Theorem menu_course_list `{Platform} (fs : filesystem) (t : E2.HashTable)
    (previous rest : string) :
  reachable fs t →
  E2.dataLoaded t = true →
  ∃ courses,
    E2.iteration fs (E2.mkSession t previous (Some ("2" +:+ endl +:+ rest))) =
    (E2.displayMenu +:+ listing courses +:+ endl, E2.next_iteration,
     E2.mkSession (E2.mkHashTable (E2.table t) (sort (E2.courseOrder t)) true)
                  "2" (Some rest)) ∧
    canonical <$> courses = sort (E2.courseOrder t) ∧
    Forall (λ r, r ∈ all_records t) courses.
Proof.
  intros Hreach Hon. apply iteration_course_list; [|done].
  by apply (reachable_consistent fs).
Qed.

Lemma menu_course_list_witness :
  let t := (@E2.loadData signed_char_platform advising_fs "Program_Input.csv"
              E2.HashTable_new).2 in
  (@reachable signed_char_platform advising_fs t ∧ E2.dataLoaded t = true) ∧
  ∃ courses,
    @E2.iteration signed_char_platform advising_fs
      (E2.mkSession t "1" (Some ("2" +:+ endl +:+ "9"))) =
    (E2.displayMenu +:+ listing courses +:+ endl, E2.next_iteration,
     E2.mkSession (E2.mkHashTable (E2.table t) (sort (E2.courseOrder t)) true)
                  "2" (Some "9")) ∧
    canonical <$> courses = sort (E2.courseOrder t) ∧
    Forall (λ r, r ∈ all_records t) courses.
Proof.
  intros t.
  assert (Hreach : @reachable signed_char_platform advising_fs t).
  { apply (@reachable_loadData signed_char_platform _ E2.HashTable_new).
    apply (@reachable_new signed_char_platform). }
  assert (Hon : E2.dataLoaded t = true) by by_evaluation.
  split; [by split|].
  exact (@menu_course_list signed_char_platform advising_fs t "1" "9"
           Hreach Hon).
Defined.

(** X18.  Selection 3 of the menu, for a code that [getCourse] finds:
    after the prompt it writes the record's own code and title, then the
    prerequisites separated by [", "], or [None] when there are none; the
    table is not changed and the loop goes on. *)
Theorem menu_print_course `{Platform} (fs : filesystem) (t : E2.HashTable)
    (previous code rest : string) (r : Course) :
  occurs "010" code = false →
  E2.getCourse t code = returned r →
  E2.iteration fs
    (E2.mkSession t previous (Some ("3" +:+ endl +:+ code +:+ endl +:+ rest))) =
  (E2.displayMenu +:+ "What course code? "
     +:+ getCode r +:+ ", " +:+ getTitle r +:+ endl
     +:+ "Prerequisites: "
     +:+ (if decide (getPrereqs r = []) then "None"
          else String.concat ", " (getPrereqs r))
     +:+ endl +:+ endl,
   E2.next_iteration, E2.mkSession t code (Some rest)).
Proof.
  intros Hcode Hget. unfold E2.iteration.
  cbn [E2.cin E2.userInput E2.hashTable].
  rewrite getline_into_line by done.
  unfold E2.try_block. cbn [E2.cin E2.userInput E2.hashTable].
  change (bool_decide ("3" = "1") || bool_decide ("3" = "4")) with false.
  change (bool_decide ("3" = "2")) with false.
  change (bool_decide ("3" = "3")) with true. cbv iota.
  rewrite getline_into_line by done. cbn [E2.hashTable]. rewrite Hget.
  rewrite <- print_prereqs_concat.
  destruct (decide (getPrereqs r = [])) as [Hnil|Hcons].
  - rewrite Hnil. by rewrite !append_assoc.
  - destruct (getPrereqs r) as [|p ps]; [done|]. by rewrite !append_assoc.
Qed.

Lemma menu_print_course_witness :
  let t := (@E2.loadData signed_char_platform advising_fs "Program_Input.csv"
              E2.HashTable_new).2 in
  (occurs "010" "cs201" = false ∧
   @E2.getCourse signed_char_platform t "cs201" = returned CS201) ∧
  @E2.iteration signed_char_platform advising_fs
    (E2.mkSession t "1" (Some ("3" +:+ endl +:+ "cs201" +:+ endl +:+ "9"))) =
  (E2.displayMenu +:+ "What course code? CS201, Data Structures
Prerequisites: CS101

", E2.next_iteration, E2.mkSession t "cs201" (Some "9")).
Proof.
  intros t.
  assert (Hget : @E2.getCourse signed_char_platform t "cs201" = returned CS201)
    by by_evaluation.
  split; [by split|].
  rewrite (@menu_print_course signed_char_platform advising_fs t "1" "cs201"
             "9" CS201 eq_refl Hget).
  by_evaluation.
Defined.

(** X19.  At the end of the input the loop of [main] does not end: once
    [cin] has hit its end, [getline] leaves the last selection in place, so
    unless that selection is 9 the program repeats it forever and never
    reaches "Goodbye."; in particular [main] never returns on an empty
    input.  When the last selection is 9 it does return. *)
Theorem end_of_input_never_returns `{Platform} (fs : filesystem) :
  (∀ fuel t choice,
     choice ≠ "9" → E2.run fuel fs (E2.mkSession t choice None) = None) ∧
  (∀ fuel, E2.main fuel fs "" = None) ∧
  (∀ fuel t,
     E2.run (S fuel) fs (E2.mkSession t "9" None)
     = Some (E2.displayMenu +:+ "Goodbye." +:+ endl)).
Proof.
  assert (Hend : ∀ fuel t choice,
            choice ≠ "9" → E2.run fuel fs (E2.mkSession t choice None) = None).
  { induction fuel as [|fuel IH]; intros t choice Hnot; [done|].
    destruct (iteration_at_end fs t choice Hnot) as (out & t' & Hstep).
    simpl. rewrite Hstep. by rewrite IH. }
  split; [exact Hend|]. split.
  - intros [|fuel]; [done|]. unfold E2.main. simpl.
    change (E2.iteration fs (E2.mkSession E2.HashTable_new "" (Some "")))
      with (E2.displayMenu +:+ ("Invalid selection." +:+ endl) +:+ endl,
            E2.next_iteration, E2.mkSession E2.HashTable_new "" None).
    cbv iota. by rewrite Hend.
  - intros fuel t. done.
Qed.

(** X20.  What a pass through the menu loop can do.  It leaves the loop
    exactly when the selection read is 9, and then writes only the menu; an
    exception never ends the loop.  Unless the selection is 1 or 4 the
    buckets and the loaded flag are untouched and the order vector is at
    most rearranged; unless it is 1, 2 or 4 the table is not changed at
    all. *)
Theorem menu_iteration_effects `{Platform} (fs : filesystem) (s : E2.session) :
  let choice := (getline_into (E2.cin s) (E2.userInput s)).1 in
  let result := E2.iteration fs s in
  let t := E2.hashTable s in
  let t' := E2.hashTable result.2 in
  (result.1.2 = E2.leave_loop ↔ choice = "9") ∧
  (choice = "9" → result.1.1 = E2.displayMenu ∧ t' = t) ∧
  (choice ≠ "1" → choice ≠ "4" →
   E2.table t' = E2.table t ∧ E2.dataLoaded t' = E2.dataLoaded t ∧
   E2.courseOrder t' ≡ₚ E2.courseOrder t) ∧
  (choice ≠ "1" → choice ≠ "4" → choice ≠ "2" → t' = t).
Proof.
  intros choice result t t'. subst choice result t t'.
  unfold E2.iteration.
  destruct (getline_into (E2.cin s) (E2.userInput s)) as [choice input].
  cbn [fst]. unfold E2.try_block. cbn [E2.cin E2.userInput E2.hashTable].
  destruct (decide (choice = "1")) as [->|H1].
  { change (bool_decide ("1" = "1") || bool_decide ("1" = "4")) with true.
    cbv iota. change (bool_decide ("1" = "4")) with false. cbv iota.
    destruct (E2.loadData fs _ _) as [[[]|e] u]; by split_and!. }
  destruct (decide (choice = "4")) as [->|H4].
  { change (bool_decide ("4" = "1") || bool_decide ("4" = "4")) with true.
    cbv iota. change (bool_decide ("4" = "4")) with true.
    change (bool_decide ("4" = "1")) with false. cbv iota.
    destruct (getline_into input "") as [line input'].
    destruct (E2.loadData fs line (E2.hashTable s)) as [[[]|e] u];
      by split_and!. }
  rewrite (bool_decide_eq_false_2 (choice = "1")) by done.
  rewrite (bool_decide_eq_false_2 (choice = "4")) by done. cbn [orb].
  destruct (decide (choice = "2")) as [->|H2].
  { change (bool_decide ("2" = "2")) with true. cbv iota.
    unfold E2.getSortedCourseCodes.
    destruct (negb (E2.dataLoaded (E2.hashTable s))) eqn:Hflag;
      cbn [fst snd E2.hashTable].
    - by split_and!.
    - destruct (E2.print_course_list _ _) as [out [e|]];
        cbn [fst snd E2.hashTable E2.table E2.dataLoaded E2.courseOrder];
        (split_and!; try done; intros _ _; split_and!; try done;
         apply sort_Permutation). }
  rewrite (bool_decide_eq_false_2 (choice = "2")) by done.
  destruct (decide (choice = "3")) as [->|H3].
  { change (bool_decide ("3" = "3")) with true. cbv iota.
    destruct (getline_into input "3") as [code input'].
    cbn [E2.hashTable].
    destruct (E2.getCourse (E2.hashTable s) code); by split_and!. }
  rewrite (bool_decide_eq_false_2 (choice = "3")) by done.
  destruct (decide (choice = "9")) as [->|H9].
  { change (bool_decide ("9" = "9")) with true. cbv iota.
    by split_and!. }
  rewrite (bool_decide_eq_false_2 (choice = "9")) by done.
  by split_and!.
Qed.

(** ** Whole sessions *)

(** X21.  A session of enhancement 2 that selects 1, 2 and 9: when the
    default file opens and all its lines parse, [main] returns after three
    passes, having written the menu and the success message, the menu and
    one line for each line of the file, in ascending order of the
    upper-cased codes and each taken from a loaded record of that code, and
    the menu and "Goodbye.". *)
Theorem session_load_list_exit `{Platform} (fs : filesystem)
    (contents : string) (rs : list Course) :
  fs "Program_Input.csv" = Some contents →
  Forall2 (λ line r, parseCourse line = returned r) (file_lines contents) rs →
  ∃ courses,
    E2.main 3 fs ("1" +:+ endl +:+ "2" +:+ endl +:+ "9" +:+ endl) =
    Some (E2.displayMenu
            +:+ "Success: Data loaded from Program_Input.csv" +:+ endl +:+ endl
            +:+ E2.displayMenu +:+ listing courses +:+ endl
            +:+ E2.displayMenu +:+ "Goodbye." +:+ endl) ∧
    canonical <$> courses = sort (canonical <$> rs) ∧
    length courses = length rs ∧
    Forall (λ r, r ∈ rs) courses.
Proof.
  intros Hfs Hparse.
  set (t := foldl E2.insert (E2.mkHashTable (vreplicate BUCKETS []) [] true) rs).
  assert (Hcons : consistent t) by apply consistent_inserts, consistent_empty.
  assert (Hon : E2.dataLoaded t = true) by apply dataLoaded_inserts.
  destruct (iteration_course_list fs t "1" ("9" +:+ endl +:+ "") Hcons Hon)
    as (courses & Hlist & Hkeys & Hall).
  assert (Horder : E2.courseOrder t = canonical <$> rs)
    by (unfold t; by rewrite courseOrder_inserts).
  exists courses. split_and!.
  - unfold E2.main. cbn [E2.run].
    change ("9" +:+ endl) with ("9" +:+ endl +:+ "").
    rewrite (iteration_load_default fs contents rs) by done.
    fold t. rewrite Hlist, iteration_exit.
    by rewrite !append_assoc.
  - by rewrite Hkeys, Horder.
  - rewrite <- (length_fmap canonical courses), Hkeys, sort_length, Horder.
    apply length_fmap.
  - eapply Forall_impl; [exact Hall|]. intros r Hr. cbv beta in Hr.
    unfold t in Hr. by rewrite all_records_inserts, all_records_empty in Hr.
Qed.

Lemma session_load_list_exit_witness :
  (advising_fs "Program_Input.csv" = Some reversed_csv ∧
   Forall2 (λ line r, parseCourse line = returned r)
     (file_lines reversed_csv) [CS201; CS101]) ∧
  ∃ courses,
    @E2.main signed_char_platform 3 advising_fs
      ("1" +:+ endl +:+ "2" +:+ endl +:+ "9" +:+ endl) =
    Some (E2.displayMenu
            +:+ "Success: Data loaded from Program_Input.csv" +:+ endl +:+ endl
            +:+ E2.displayMenu +:+ listing courses +:+ endl
            +:+ E2.displayMenu +:+ "Goodbye." +:+ endl) ∧
    canonical <$> courses = sort (canonical <$> [CS201; CS101]).
Proof.
  assert (Hparse : Forall2 (λ line r, parseCourse line = returned r)
                     (file_lines reversed_csv) [CS201; CS101])
    by by_evaluation.
  split; [by split|].
  destruct (@session_load_list_exit signed_char_platform advising_fs
              reversed_csv [CS201; CS101] eq_refl Hparse)
    as (courses & Hmain & Hkeys & _).
  by exists courses.
Defined.



(** ** Files written from records *)

Lemma file_lines_csv_file (rs : list Course) :
  Forall storable rs → file_lines (csv_file rs) = csv_line <$> rs.
Proof.
  unfold file_lines. induction 1 as [|r rs (_ & _ & _ & Hline) _ IH]; [done|].
  simpl. change (csv_line r +:+ endl +:+ csv_file rs)
    with (csv_line r +:+ String "010" (csv_file rs)).
  by rewrite getline_all_field, IH.
Qed.

Lemma csv_file_parses (rs : list Course) :
  Forall storable rs →
  Forall2 (λ line r, parseCourse line = returned r) (file_lines (csv_file rs)) rs.
Proof.
  intros Hrs. rewrite file_lines_csv_file by done.
  induction Hrs as [|r rs (Hc & Ht & Hp & _) _ IH]; simpl; constructor; [|done].
  destruct r as [c t ps]. by apply parseCourse_joined.
Qed.

(** X23.  Writing records to a file and loading it gives the records
    back.  For records with plain fields free of line breaks, the file with
    one comma-joined line per record loads successfully in enhancements 1 and
    2; the order vector lists their canonical codes in file order, the
    buckets hold exactly these records, and when the canonical codes are
    pairwise distinct every record is found under its code. *)
Theorem loadData_reads_back_csv_file `{Platform} (fs : filesystem)
    (filename : string) (rs : list Course)
    (t : E2.HashTable) (t1 : E1.HashTable) :
  Forall storable rs →
  fs filename = Some (csv_file rs) →
  let result := E2.loadData fs filename t in
  let result1 := E1.loadData fs filename t1 in
  (result.1 = returned tt ∧
   E2.courseOrder result.2 = canonical <$> rs ∧
   all_records result.2 ≡ₚ rs ∧
   (NoDup (canonical <$> rs) →
    ∀ r, r ∈ rs → E2.getCourse result.2 (getCode r) = returned r)) ∧
  (result1.1 = returned tt ∧
   E1.courseOrder result1.2 = canonical <$> rs ∧
   (NoDup (canonical <$> rs) →
    ∀ r, r ∈ rs → E1.getCourse result1.2 (getCode r) = returned r)).
Proof.
  intros Hrs Hfs result result1. subst result result1.
  pose proof (csv_file_parses rs Hrs) as Hparse.
  rewrite (loadData_spec fs filename (csv_file rs)) by done.
  rewrite (E1_loadData_spec fs filename (csv_file rs)) by done. cbv zeta.
  destruct (parsed_all _ _ 0%nat Hparse) as [-> ->]. cbn [fst snd].
  split; (split; [done|]).
  - split; [by rewrite courseOrder_inserts|]. split.
    + by rewrite all_records_inserts, all_records_empty.
    + intros Hnd r Hr. rewrite getCourse_inserts.
      by apply find_in_chain_NoDup.
  - split; [by rewrite E1_courseOrder_stores|].
    intros Hnd r Hr. rewrite E1_getCourse_stores, find_in_chain_reverse by done.
    by apply find_in_chain_NoDup.
Qed.

Lemma loadData_reads_back_csv_file_witness :
  let fs : filesystem := λ _, Some (csv_file [CS201; CS101]) in
  (Forall storable [CS201; CS101] ∧
   fs "written.csv" = Some (csv_file [CS201; CS101])) ∧
  E2.courseOrder
    (@E2.loadData signed_char_platform fs "written.csv" E2.HashTable_new).2
  = ["CS201"; "CS101"].
Proof.
  intros fs.
  assert (Hrs : Forall storable [CS201; CS101]).
  { repeat constructor; try done; by_evaluation. }
  split; [by split|].
  exact (proj1 (proj2 (proj1
    (@loadData_reads_back_csv_file signed_char_platform fs "written.csv"
       [CS201; CS101] E2.HashTable_new E1.HashTable_new Hrs eq_refl)))).
Defined.

(** X24.  After a successful load each bucket of the chained table holds
    exactly the loaded records whose canonical code hashes to it, chained in
    the order of their lines, and the order vector holds the canonical codes
    in the order of the lines (it is sorted only by
    [getSortedCourseCodes]). *)
Theorem loadData_chains_in_file_order `{Platform} (fs : filesystem)
    (filename contents : string) (rs : list Course) (t : E2.HashTable) :
  fs filename = Some contents →
  Forall2 (λ line r, parseCourse line = returned r) (file_lines contents) rs →
  let t' := (E2.loadData fs filename t).2 in
  (∀ b : fin BUCKETS,
     E2.table t' !!! b = filter (λ r, slot (E2.hash (canonical r)) = b) rs) ∧
  E2.courseOrder t' = canonical <$> rs ∧
  E2.dataLoaded t' = true.
Proof.
  intros Hfs Hparse t'. subst t'.
  rewrite (loadData_spec fs filename contents) by done. cbv zeta.
  destruct (parsed_all _ _ 0%nat Hparse) as [-> ->]. cbn [snd].
  split_and!.
  - intros b. rewrite table_inserts. cbn [E2.table].
    by rewrite vlookup_replicate.
  - by rewrite courseOrder_inserts.
  - by rewrite dataLoaded_inserts.
Qed.

Lemma loadData_chains_in_file_order_witness :
  let t' := (@E2.loadData signed_char_platform sample_fs "reversed.csv"
               E2.HashTable_new).2 in
  sample_fs "reversed.csv" = Some reversed_csv ∧
  E2.courseOrder t' = ["CS201"; "CS101"].
Proof.
  assert (Hparse : Forall2 (λ line r, parseCourse line = returned r)
                     (file_lines reversed_csv) [CS201; CS101])
    by by_evaluation.
  split; [reflexivity|].
  exact (proj1 (proj2 (@loadData_chains_in_file_order signed_char_platform
                         sample_fs "reversed.csv" reversed_csv [CS201; CS101]
                         E2.HashTable_new eq_refl Hparse))).
Defined.

(** ** Failures and other selections at the menu *)

(** X25.  What the [catch] block shows for a query that fails.  Selection 3
    for a code that [getCourse] rejects writes the prompt and then "SYSTEM
    ERROR: " with the message: "No data loaded." when the table is not loaded,
    "Course not found." otherwise; selection 2 on a table that is not loaded
    writes "SYSTEM ERROR: No data loaded.".  The table is not changed (the
    order vector is not even sorted) and the loop goes on, in enhancements 2 and
    3 alike. *)
Theorem menu_query_failures `{Platform} (fs : filesystem) (db : database)
    (t : E2.HashTable) (previous code rest : string) (e : exception) :
  occurs "010" code = false →
  E2.getCourse t code = thrown e →
  e = (if E2.dataLoaded t then CourseNotFound else NoDataLoaded) ∧
  E2.iteration fs
    (E2.mkSession t previous (Some ("3" +:+ endl +:+ code +:+ endl +:+ rest))) =
  (E2.displayMenu +:+ "What course code? "
     +:+ "SYSTEM ERROR: " +:+ what e +:+ endl +:+ endl,
   E2.next_iteration, E2.mkSession t code (Some rest)) ∧
  E3.iteration db
    (E2.mkSession t previous (Some ("3" +:+ endl +:+ code +:+ endl +:+ rest))) =
  (E3.displayMenu +:+ "What course code? "
     +:+ "SYSTEM ERROR: " +:+ what e +:+ endl +:+ endl,
   E2.next_iteration, E2.mkSession t code (Some rest)) ∧
  (E2.dataLoaded t = false →
   E2.iteration fs (E2.mkSession t previous (Some ("2" +:+ endl +:+ rest))) =
   (E2.displayMenu +:+ "SYSTEM ERROR: No data loaded." +:+ endl +:+ endl,
    E2.next_iteration, E2.mkSession t "2" (Some rest)) ∧
   E3.iteration db (E2.mkSession t previous (Some ("2" +:+ endl +:+ rest))) =
   (E3.displayMenu +:+ "SYSTEM ERROR: No data loaded." +:+ endl +:+ endl,
    E2.next_iteration, E2.mkSession t "2" (Some rest))).
Proof.
  intros Hcode Hget. split_and!.
  - unfold E2.getCourse in Hget. destruct (E2.dataLoaded t); simpl in Hget.
    + by apply find_in_chain_thrown in Hget.
    + congruence.
  - unfold E2.iteration. cbn [E2.cin E2.userInput E2.hashTable].
    rewrite getline_into_line by done.
    unfold E2.try_block. cbn [E2.cin E2.userInput E2.hashTable].
    change (bool_decide ("3" = "1") || bool_decide ("3" = "4")) with false.
    change (bool_decide ("3" = "2")) with false.
    change (bool_decide ("3" = "3")) with true. cbv iota.
    rewrite getline_into_line by done. cbn [E2.hashTable]. by rewrite Hget.
  - change (@E2.getCourse H) with (@E3.getCourse H) in Hget.
    unfold E3.iteration. cbn [E2.cin E2.userInput E2.hashTable].
    rewrite getline_into_line by done.
    unfold E3.try_block. cbn [E2.cin E2.userInput E2.hashTable].
    change (bool_decide ("3" = "1")) with false.
    change (bool_decide ("3" = "2")) with false.
    change (bool_decide ("3" = "3")) with true. cbv iota.
    rewrite getline_into_line by done. cbn [E2.hashTable]. by rewrite Hget.
  - intros Hoff. split.
    + unfold E2.iteration. cbn [E2.cin E2.userInput E2.hashTable].
      rewrite getline_into_line by done.
      unfold E2.try_block. cbn [E2.cin E2.userInput E2.hashTable].
      change (bool_decide ("2" = "1") || bool_decide ("2" = "4")) with false.
      change (bool_decide ("2" = "2")) with true. cbv iota.
      unfold E2.getSortedCourseCodes. by rewrite Hoff.
    + unfold E3.iteration. cbn [E2.cin E2.userInput E2.hashTable].
      rewrite getline_into_line by done.
      unfold E3.try_block. cbn [E2.cin E2.userInput E2.hashTable].
      change (bool_decide ("2" = "1")) with false.
      change (bool_decide ("2" = "2")) with true. cbv iota.
      unfold E3.getSortedCourseCodes. by rewrite Hoff.
Qed.

Lemma menu_query_failures_witness :
  let t := (@E2.loadData signed_char_platform advising_fs "Program_Input.csv"
              E2.HashTable_new).2 in
  (occurs "010" "CS999" = false ∧
   @E2.getCourse signed_char_platform t "CS999" = thrown CourseNotFound) ∧
  @E2.iteration signed_char_platform advising_fs
    (E2.mkSession t "1" (Some ("3" +:+ endl +:+ "CS999" +:+ endl +:+ "9"))) =
  (E2.displayMenu +:+ "What course code? SYSTEM ERROR: Course not found.

", E2.next_iteration, E2.mkSession t "CS999" (Some "9")).
Proof.
  intros t.
  assert (Hget : @E2.getCourse signed_char_platform t "CS999"
                 = thrown CourseNotFound) by by_evaluation.
  split; [by split|].
  rewrite (proj1 (proj2 (@menu_query_failures signed_char_platform advising_fs
                           cannot_open t "1" "CS999" "9" CourseNotFound
                           eq_refl Hget))).
  by_evaluation.
Defined.

(** X26.  A source that cannot be read is reported and costs nothing that
    was loaded before.  When the file named after selection 4 (or the default
    file of selection 1) does not open, the pass writes "SYSTEM ERROR: Could
    not open file: " with the name and leaves the table as it was; so does
    enhancement 3 when the database does not open.  When the query cannot be
    prepared, enhancement 3 reports it after the table has been emptied, with
    the loaded flag kept. *)
Theorem menu_source_unavailable `{Platform} (fs : filesystem)
    (t : E2.HashTable) (previous name rest : string) :
  occurs "010" name = false →
  fs name = None →
  E2.iteration fs
    (E2.mkSession t previous (Some ("4" +:+ endl +:+ name +:+ endl +:+ rest))) =
  (E2.displayMenu +:+ "Enter filename: "
     +:+ "SYSTEM ERROR: Could not open file: " +:+ name +:+ endl +:+ endl,
   E2.next_iteration, E2.mkSession t "4" (Some rest)) ∧
  (name = "Program_Input.csv" →
   E2.iteration fs (E2.mkSession t previous (Some ("1" +:+ endl +:+ rest))) =
   (E2.displayMenu
      +:+ "SYSTEM ERROR: Could not open file: Program_Input.csv" +:+ endl +:+ endl,
    E2.next_iteration, E2.mkSession t "1" (Some rest))) ∧
  E3.iteration cannot_open
    (E2.mkSession t previous (Some ("1" +:+ endl +:+ rest))) =
  (E3.displayMenu
     +:+ "SYSTEM ERROR: Could not open database: ABCU.db" +:+ endl +:+ endl,
   E2.next_iteration, E2.mkSession t "1" (Some rest)) ∧
  E3.iteration cannot_prepare
    (E2.mkSession t previous (Some ("1" +:+ endl +:+ rest))) =
  (E3.displayMenu +:+ "SYSTEM ERROR: Failed to query database." +:+ endl +:+ endl,
   E2.next_iteration,
   E2.mkSession (E2.mkHashTable (vreplicate BUCKETS []) [] (E2.dataLoaded t))
                "1" (Some rest)).
Proof.
  intros Hname Hfs. split_and!.
  - unfold E2.iteration. cbn [E2.cin E2.userInput E2.hashTable].
    rewrite getline_into_line by done.
    unfold E2.try_block. cbn [E2.cin E2.userInput E2.hashTable].
    change (bool_decide ("4" = "1") || bool_decide ("4" = "4")) with true.
    change (bool_decide ("4" = "1")) with false.
    change (bool_decide ("4" = "4")) with true. cbv iota.
    rewrite getline_into_line by done.
    unfold E2.loadData. rewrite Hfs. cbn [what].
    by rewrite !append_assoc.
  - intros ->. unfold E2.iteration. cbn [E2.cin E2.userInput E2.hashTable].
    rewrite getline_into_line by done.
    unfold E2.try_block. cbn [E2.cin E2.userInput E2.hashTable].
    change (bool_decide ("1" = "1") || bool_decide ("1" = "4")) with true.
    change (bool_decide ("1" = "1")) with true.
    change (bool_decide ("1" = "4")) with false. cbv iota.
    unfold E2.loadData. by rewrite Hfs.
  - unfold E3.iteration. cbn [E2.cin E2.userInput E2.hashTable].
    by rewrite getline_into_line.
  - unfold E3.iteration. cbn [E2.cin E2.userInput E2.hashTable].
    by rewrite getline_into_line.
Qed.

Lemma menu_source_unavailable_witness :
  (occurs "010" "missing.csv" = false ∧ advising_fs "missing.csv" = None) ∧
  @E2.iteration signed_char_platform advising_fs
    (E2.mkSession (@courses_table signed_char_platform) "2"
       (Some ("4" +:+ endl +:+ "missing.csv" +:+ endl +:+ "9"))) =
  (E2.displayMenu
     +:+ "Enter filename: SYSTEM ERROR: Could not open file: missing.csv

", E2.next_iteration,
   E2.mkSession (@courses_table signed_char_platform) "4" (Some "9")).
Proof.
  split; [by split|].
  rewrite (proj1 (@menu_source_unavailable signed_char_platform advising_fs
                    (@courses_table signed_char_platform) "2" "missing.csv" "9"
                    eq_refl eq_refl)).
  by_evaluation.
Defined.

(** X27.  Selection 4 loads the file whose name is the next line of the
    input.  When all its lines parse, the pass writes the prompt and
    "Success: Data loaded from " with the name; when a line fails to parse it
    writes "SYSTEM ERROR: Error on line N: " with the number of the first such
    line, counted from 1, and the parser's message.  Either way the table is
    the one [loadData] leaves and the loop goes on. *)
Theorem menu_custom_file `{Platform} (fs : filesystem) (t : E2.HashTable)
    (previous name rest contents : string) (rs : list Course) :
  occurs "010" name = false →
  fs name = Some contents →
  let pass :=
    E2.iteration fs
      (E2.mkSession t previous
         (Some ("4" +:+ endl +:+ name +:+ endl +:+ rest))) in
  pass.1.2 = E2.next_iteration ∧
  pass.2 = E2.mkSession (E2.loadData fs name t).2 "4" (Some rest) ∧
  (Forall2 (λ line r, parseCourse line = returned r) (file_lines contents) rs →
   pass.1.1 =
   E2.displayMenu +:+ "Enter filename: "
     +:+ "Success: Data loaded from " +:+ name +:+ endl +:+ endl) ∧
  (∀ good bad more e,
     file_lines contents = good ++ bad :: more →
     Forall2 (λ line r, parseCourse line = returned r) good rs →
     parseCourse bad = thrown e →
     pass.1.1 =
     E2.displayMenu +:+ "Enter filename: "
       +:+ "SYSTEM ERROR: Error on line " +:+ pretty (length good + 1)%nat
       +:+ ": " +:+ what e +:+ endl +:+ endl).
Proof.
  intros Hname Hfs pass. subst pass.
  unfold E2.iteration. cbn [E2.cin E2.userInput E2.hashTable].
  rewrite getline_into_line by done.
  unfold E2.try_block. cbn [E2.cin E2.userInput E2.hashTable].
  change (bool_decide ("4" = "1") || bool_decide ("4" = "4")) with true.
  change (bool_decide ("4" = "1")) with false.
  change (bool_decide ("4" = "4")) with true. cbv iota.
  rewrite getline_into_line by done.
  rewrite (loadData_spec fs name contents) by done. cbv zeta.
  split_and!.
  - by destruct (first_failure 0 (file_lines contents)).
  - by destruct (first_failure 0 (file_lines contents)).
  - intros Hparse. destruct (parsed_all _ _ 0%nat Hparse) as [_ ->].
    cbn [fst]. by rewrite !append_assoc.
  - intros good bad more e Hlines Hgood Hbad. rewrite Hlines.
    destruct (parsed_until good more bad rs e 0 Hgood Hbad) as [_ ->].
    cbn [fst what]. by rewrite !append_assoc.
Qed.

Lemma menu_custom_file_witness :
  (occurs "010" "broken.csv" = false ∧
   sample_fs "broken.csv" = Some broken_csv) ∧
  (@E2.iteration signed_char_platform sample_fs
     (E2.mkSession E2.HashTable_new ""
        (Some ("4" +:+ endl +:+ "broken.csv" +:+ endl +:+ "9")))).1.1 =
  E2.displayMenu
    +:+ "Enter filename: SYSTEM ERROR: Error on line 2: Malformed line in file.

".
Proof.
  split; [by split|].
  assert (Hgood : Forall2 (λ line r, parseCourse line = returned r)
                    ["CS201,Data Structures,CS101"] [CS201])
    by by_evaluation.
  rewrite (proj2 (proj2 (proj2
             (@menu_custom_file signed_char_platform sample_fs
                E2.HashTable_new "" "broken.csv" "9" broken_csv [CS201]
                eq_refl eq_refl)))
             ["CS201,Data Structures,CS101"] "CS101"
             ["CS301,Algorithms,CS201"] MalformedLine eq_refl Hgood eq_refl).
  by_evaluation.
Defined.

(** X28.  A line that is not exactly one of the selections is refused:
    the pass writes "Invalid selection.", changes nothing in the table and
    goes on.  This is so for the empty line and for a selection with a blank
    around it; enhancement 3 has no selection 4 and refuses it too. *)
Theorem menu_invalid_selection `{Platform} (fs : filesystem) (db : database)
    (t : E2.HashTable) (previous choice rest : string) :
  occurs "010" choice = false →
  choice ∉ ["1"; "2"; "3"; "9"] →
  (choice ≠ "4" →
   E2.iteration fs (E2.mkSession t previous (Some (choice +:+ endl +:+ rest))) =
   (E2.displayMenu +:+ "Invalid selection." +:+ endl +:+ endl,
    E2.next_iteration, E2.mkSession t choice (Some rest))) ∧
  E3.iteration db (E2.mkSession t previous (Some (choice +:+ endl +:+ rest))) =
  (E3.displayMenu +:+ "Invalid selection." +:+ endl +:+ endl,
   E2.next_iteration, E2.mkSession t choice (Some rest)).
Proof.
  intros Hchoice Hnot.
  rewrite !not_elem_of_cons in Hnot. destruct Hnot as (H1 & H2 & H3 & H9 & _).
  split.
  - intros H4. unfold E2.iteration. cbn [E2.cin E2.userInput E2.hashTable].
    rewrite getline_into_line by done.
    unfold E2.try_block. cbn [E2.cin E2.userInput E2.hashTable].
    rewrite (bool_decide_eq_false_2 (choice = "1")) by done.
    rewrite (bool_decide_eq_false_2 (choice = "4")) by done.
    rewrite (bool_decide_eq_false_2 (choice = "2")) by done.
    rewrite (bool_decide_eq_false_2 (choice = "3")) by done.
    rewrite (bool_decide_eq_false_2 (choice = "9")) by done.
    cbn [orb]. by rewrite !append_assoc.
  - unfold E3.iteration. cbn [E2.cin E2.userInput E2.hashTable].
    rewrite getline_into_line by done.
    unfold E3.try_block. cbn [E2.cin E2.userInput E2.hashTable].
    rewrite (bool_decide_eq_false_2 (choice = "1")) by done.
    rewrite (bool_decide_eq_false_2 (choice = "2")) by done.
    rewrite (bool_decide_eq_false_2 (choice = "3")) by done.
    rewrite (bool_decide_eq_false_2 (choice = "9")) by done.
    by rewrite !append_assoc.
Qed.

Lemma menu_invalid_selection_witness :
  (occurs "010" "4" = false ∧ "4" ∉ ["1"; "2"; "3"; "9"]) ∧
  @E3.iteration signed_char_platform (result_rows courses_rows)
    (E2.mkSession E2.HashTable_new "" (Some ("4" +:+ endl +:+ "9"))) =
  (E3.displayMenu +:+ "Invalid selection.

", E2.next_iteration, E2.mkSession E2.HashTable_new "4" (Some "9")).
Proof.
  assert (Hnot : "4" ∉ ["1"; "2"; "3"; "9"]) by by_evaluation.
  split; [by split|].
  rewrite (proj2 (@menu_invalid_selection signed_char_platform sample_fs
                    (result_rows courses_rows) E2.HashTable_new "" "4" "9"
                    eq_refl Hnot)).
  by_evaluation.
Defined.

(** X29.  Selection 3 of enhancement 3, for a code that [getCourse] finds:
    after the prompt it breaks the line, writes the record's own code, a
    colon and the title, then the prerequisites separated by [", "], or
    [None] when there are none; the table is not changed and the loop goes
    on. *)
Theorem E3_menu_print_course `{Platform} (db : database) (t : E2.HashTable)
    (previous code rest : string) (r : Course) :
  occurs "010" code = false →
  E3.getCourse t code = returned r →
  E3.iteration db
    (E2.mkSession t previous (Some ("3" +:+ endl +:+ code +:+ endl +:+ rest))) =
  (E3.displayMenu +:+ "What course code? " +:+ endl
     +:+ getCode r +:+ ": " +:+ getTitle r +:+ endl
     +:+ "Prerequisites: "
     +:+ (if decide (getPrereqs r = []) then "None"
          else String.concat ", " (getPrereqs r))
     +:+ endl +:+ endl,
   E2.next_iteration, E2.mkSession t code (Some rest)).
Proof.
  intros Hcode Hget. unfold E3.iteration.
  cbn [E2.cin E2.userInput E2.hashTable].
  rewrite getline_into_line by done.
  unfold E3.try_block. cbn [E2.cin E2.userInput E2.hashTable].
  change (bool_decide ("3" = "1")) with false.
  change (bool_decide ("3" = "2")) with false.
  change (bool_decide ("3" = "3")) with true. cbv iota.
  rewrite getline_into_line by done. cbn [E2.hashTable]. rewrite Hget.
  change E3.print_prereqs with E2.print_prereqs.
  rewrite <- print_prereqs_concat.
  destruct (decide (getPrereqs r = [])) as [Hnil|Hcons].
  - rewrite Hnil. by rewrite !append_assoc.
  - destruct (getPrereqs r) as [|p ps]; [done|]. by rewrite !append_assoc.
Qed.

Lemma E3_menu_print_course_witness :
  let t := @courses_table_E3 signed_char_platform in
  (occurs "010" "cs101" = false ∧
   @E3.getCourse signed_char_platform t "cs101" = returned CS101) ∧
  @E3.iteration signed_char_platform cannot_open
    (E2.mkSession t "1" (Some ("3" +:+ endl +:+ "cs101" +:+ endl +:+ "9"))) =
  (E3.displayMenu +:+ "What course code? 
CS101: Intro to CS
Prerequisites: None

", E2.next_iteration, E2.mkSession t "cs101" (Some "9")).
Proof.
  intros t.
  assert (Hget : @E3.getCourse signed_char_platform t "cs101" = returned CS101)
    by by_evaluation.
  split; [by split|].
  rewrite (@E3_menu_print_course signed_char_platform cannot_open t "1" "cs101"
             "9" CS101 eq_refl Hget).
  by_evaluation.
Defined.

(** ** The menu loop of enhancement 1 *)

Lemma find_in_chain_split (l : list Course) (key : string) (r : Course) :
  E2.find_in_chain l key = returned r →
  ∃ l1 l2, l = l1 ++ r :: l2 ∧ canonical r = key ∧ key ∉ canonical <$> l1.
Proof.
  induction l as [|x l IH]; simpl; [done|].
  destruct (decide (toUpper (getCode x) = key)) as [Hx|Hx].
  - rewrite bool_decide_eq_true_2 by done. intros [= <-].
    exists [], l. split_and!; [done|done|]. apply not_elem_of_nil.
  - rewrite bool_decide_eq_false_2 by done. intros Hf.
    destruct (IH Hf) as (l1 & l2 & -> & Hr & Hout).
    exists (x :: l1), l2. split_and!; [done|done|].
    rewrite fmap_cons, not_elem_of_cons. split; [|done].
    intros Heq. by apply Hx.
Qed.

Lemma E1_print_course_list_found (t : E1.HashTable) (keys : list string)
    (P : Course → Prop) :
  (∀ key, key ∈ keys →
     ∃ r, E1.getCourse t key = returned r ∧ canonical r = key ∧ P r) →
  ∃ courses,
    E1.print_course_list t keys = (listing courses, None) ∧
    canonical <$> courses = keys ∧
    Forall P courses.
Proof.
  induction keys as [|key keys IH]; intros Hfound.
  - by exists [].
  - destruct (Hfound key) as (r & Hget & Hcanon & Hin); [apply list_elem_of_here|].
    destruct IH as (courses & Hprint & Hkeys & Hall).
    { intros k Hk. by apply Hfound, list_elem_of_further. }
    exists (r :: courses). split_and!.
    + simpl. by rewrite Hget, Hprint.
    + by rewrite fmap_cons, Hkeys, Hcanon.
    + by constructor.
Qed.

Lemma E1_stored_resolves (rs : list Course) (order : list string) (key : string) :
  key ∈ canonical <$> rs →
  ∃ r, E1.getCourse
         (E1.mkHashTable
            (E1.courseMap (foldl E1_store (E1.mkHashTable ∅ [] true) rs))
            order true) key = returned r ∧
       canonical r = key ∧ last_with_code rs r.
Proof.
  intros Hkey.
  assert (Hup : toUpper key = key).
  { apply list_elem_of_fmap in Hkey as (r & -> & _). apply toUpper_idempotent. }
  destruct (find_in_chain_present (reverse rs) key) as (r & Hfind & _ & Hr).
  { by rewrite fmap_reverse, elem_of_reverse. }
  exists r. split_and!; [|done|].
  - unfold E1.getCourse. cbn [E1.dataLoaded E1.courseMap negb].
    rewrite Hup, E1_courseMap_stores. by rewrite Hfind.
  - destruct (find_in_chain_split _ _ _ Hfind) as (l1 & l2 & Hrev & _ & Hout).
    exists (reverse l2), (reverse l1). split.
    + rewrite <- (reverse_involutive rs), Hrev, reverse_app, reverse_cons.
      by rewrite <- app_assoc.
    + by rewrite Hr, fmap_reverse, elem_of_reverse.
Qed.

Lemma E1_iteration_load_default (fs : filesystem) (contents : string)
    (rs : list Course) (t : E1.HashTable) (previous rest : string) :
  fs "Program_Input.csv" = Some contents →
  Forall2 (λ line r, parseCourse line = returned r) (file_lines contents) rs →
  E1.iteration fs (E1.mkSession t previous (Some ("1" +:+ endl +:+ rest))) =
  (E1.displayMenu +:+ ("Success: Data loaded from Program_Input.csv" +:+ endl)
     +:+ endl,
   E2.next_iteration,
   E1.mkSession (foldl E1_store (E1.mkHashTable ∅ [] true) rs) "1" (Some rest)).
Proof.
  intros Hfs Hparse. unfold E1.iteration.
  cbn [E1.cin E1.userInput E1.hashTable].
  rewrite getline_into_line by done.
  unfold E1.try_block. cbn [E1.cin E1.userInput E1.hashTable].
  change (bool_decide ("1" = "1") || bool_decide ("1" = "4")) with true.
  change (bool_decide ("1" = "1")) with true.
  change (bool_decide ("1" = "4")) with false. cbv iota.
  rewrite (E1_loadData_spec fs _ contents) by done. cbv zeta.
  destruct (parsed_all _ _ 0%nat Hparse) as [-> ->]. done.
Qed.

Lemma E1_iteration_course_list (fs : filesystem) (rs : list Course)
    (previous rest : string) :
  let t := foldl E1_store (E1.mkHashTable ∅ [] true) rs in
  ∃ courses,
    E1.iteration fs (E1.mkSession t previous (Some ("2" +:+ endl +:+ rest))) =
    (E1.displayMenu +:+ listing courses +:+ endl, E2.next_iteration,
     E1.mkSession
       (E1.mkHashTable (E1.courseMap t) (sort (canonical <$> rs)) true)
       "2" (Some rest)) ∧
    canonical <$> courses = sort (canonical <$> rs) ∧
    Forall (last_with_code rs) courses.
Proof.
  intros t.
  set (t' := E1.mkHashTable (E1.courseMap t) (sort (canonical <$> rs)) true).
  assert (Horder : E1.courseOrder t = canonical <$> rs)
    by (unfold t; by rewrite E1_courseOrder_stores).
  assert (Hsorted : E1.getSortedCourseCodes t
                    = (returned (sort (canonical <$> rs)), t')).
  { unfold E1.getSortedCourseCodes, t.
    rewrite E1_dataLoaded_stores. cbn [E1.dataLoaded negb].
    fold t. by rewrite Horder. }
  destruct (E1_print_course_list_found t' (sort (canonical <$> rs))
              (last_with_code rs))
    as (courses & Hprint & Hkeys & Hall).
  { intros key Hkey. apply E1_stored_resolves.
    by rewrite sort_Permutation in Hkey. }
  exists courses. split; [|by split].
  unfold E1.iteration. cbn [E1.cin E1.userInput E1.hashTable].
  rewrite getline_into_line by done.
  unfold E1.try_block. cbn [E1.cin E1.userInput E1.hashTable].
  change (bool_decide ("2" = "1") || bool_decide ("2" = "4")) with false.
  change (bool_decide ("2" = "2")) with true. cbv iota.
  by rewrite Hsorted, Hprint.
Qed.

Lemma E1_iteration_exit (fs : filesystem) (t : E1.HashTable)
    (previous rest : string) :
  E1.iteration fs (E1.mkSession t previous (Some ("9" +:+ endl +:+ rest))) =
  (E1.displayMenu, E2.leave_loop, E1.mkSession t "9" (Some rest)).
Proof.
  unfold E1.iteration. cbn [E1.cin E1.userInput E1.hashTable].
  by rewrite getline_into_line.
Qed.

(** X30.  A session of enhancement 1 that selects 1, 2 and 9: when the
    default file opens and all its lines parse, [main] returns after three
    passes, having written the menu and the success message, the menu and
    one line for each line of the file, in ascending order of the upper-cased
    codes, and the menu and "Goodbye.".  Each line of the list shows the last
    record of the file with that code, so a code that the file repeats is
    listed as often as it occurs, every time with its last title. *)
Theorem E1_session_load_list_exit (fs : filesystem) (contents : string)
    (rs : list Course) :
  fs "Program_Input.csv" = Some contents →
  Forall2 (λ line r, parseCourse line = returned r) (file_lines contents) rs →
  ∃ courses,
    E1.main 3 fs ("1" +:+ endl +:+ "2" +:+ endl +:+ "9" +:+ endl) =
    Some (E1.displayMenu
            +:+ "Success: Data loaded from Program_Input.csv" +:+ endl +:+ endl
            +:+ E1.displayMenu +:+ listing courses +:+ endl
            +:+ E1.displayMenu +:+ "Goodbye." +:+ endl) ∧
    canonical <$> courses = sort (canonical <$> rs) ∧
    length courses = length rs ∧
    Forall (last_with_code rs) courses.
Proof.
  intros Hfs Hparse.
  destruct (E1_iteration_course_list fs rs "1" ("9" +:+ endl +:+ ""))
    as (courses & Hlist & Hkeys & Hall).
  exists courses. split_and!; [|done| |done].
  - unfold E1.main. cbn [E1.run].
    change ("9" +:+ endl) with ("9" +:+ endl +:+ "").
    rewrite (E1_iteration_load_default fs contents rs) by done.
    rewrite Hlist, E1_iteration_exit.
    by rewrite !append_assoc.
  - rewrite <- (length_fmap canonical courses), Hkeys, sort_length.
    apply length_fmap.
Qed.

Lemma E1_session_load_list_exit_witness :
  let fs : filesystem := λ _, Some repeated_csv in
  (fs "Program_Input.csv" = Some repeated_csv ∧
   Forall2 (λ line r, parseCourse line = returned r)
     (file_lines repeated_csv) [CS101; cs101_again]) ∧
  ∃ courses,
    E1.main 3 fs ("1" +:+ endl +:+ "2" +:+ endl +:+ "9" +:+ endl) =
    Some (E1.displayMenu
            +:+ "Success: Data loaded from Program_Input.csv" +:+ endl +:+ endl
            +:+ E1.displayMenu +:+ listing courses +:+ endl
            +:+ E1.displayMenu +:+ "Goodbye." +:+ endl) ∧
    canonical <$> courses = sort (canonical <$> [CS101; cs101_again]) ∧
    length courses = 2%nat.
Proof.
  intros fs.
  assert (Hparse : Forall2 (λ line r, parseCourse line = returned r)
                     (file_lines repeated_csv) [CS101; cs101_again])
    by by_evaluation.
  split; [by split|].
  destruct (E1_session_load_list_exit fs repeated_csv [CS101; cs101_again]
              eq_refl Hparse)
    as (courses & Hmain & Hkeys & Hlen & _).
  by exists courses.
Defined.
